(** * Real-time messaging core of the art marketplace backend

    A shallow embedding of the messaging subsystem:
    - [utils/contentFilter.js]  (content safety filter),
    - [models/Message.js]       (message schema, conversation id),
    - [services/messageService.js] (message store operations),
    - [controllers/messageController.js] with [validators/messageValidator.js]
      (REST entry points),
    - [sockets/chatHandler.js]  (socket entry points, typing indicators).

    Conventions of the model.
    - A JavaScript string is a [string]: a sequence of code units below 256.
    - User and message identifiers are well-formed ObjectId strings, so that
      [isMongoId] and Mongoose's casts succeed; identifiers are compared as
      strings.
    - The document store is explicit state; [new Date()] reads a clock that is
      part of the state.
    - A thrown JavaScript exception is a value of an error type. *)

From Stdlib Require Import ZArith Lia Bool List Ascii String.
From stdpp Require Import gmap strings list.

Local Open Scope Z_scope.

(* ===================================================================== *)
(** ** JavaScript strings *)
(* ===================================================================== *)

Module JsString.

Definition code (c : ascii) : nat := nat_of_ascii c.

Definition between (lo hi : nat) (c : ascii) : bool :=
  (Nat.leb lo (code c)) && (Nat.leb (code c) hi).

(** [\d] *)
Definition isDigit (c : ascii) : bool := between 48 57 c.

Definition isUpper (c : ascii) : bool := between 65 90 c.
Definition isLower (c : ascii) : bool := between 97 122 c.

(** [\w] is [[A-Za-z0-9_]] *)
Definition isWordChar (c : ascii) : bool :=
  isUpper c || isLower c || isDigit c || Nat.eqb (code c) 95.

(** [\s] restricted to code units below 256: TAB, LF, VT, FF, CR, SPACE and
    NO-BREAK SPACE. *)
Definition isSpace (c : ascii) : bool :=
  between 9 13 c || Nat.eqb (code c) 32 || Nat.eqb (code c) 160.

(** [String.prototype.toLowerCase] on one code unit below 256: the letters
    A-Z and the Latin-1 capitals U+00C0..U+00DE except U+00D7. *)
Definition lowerChar (c : ascii) : ascii :=
  if isUpper c then ascii_of_nat (code c + 32)
  else if between 192 222 c && negb (Nat.eqb (code c) 215)
       then ascii_of_nat (code c + 32)
       else c.

Fixpoint toLowerCase (s : string) : string :=
  match s with
  | EmptyString => EmptyString
  | String c s' => String (lowerChar c) (toLowerCase s')
  end.

(** [s.includes(sub)] *)
Fixpoint includes (s sub : string) : bool :=
  String.prefix sub s ||
  match s with
  | EmptyString => false
  | String _ s' => includes s' sub
  end.

(** [s.trim()] *)
Fixpoint trimStart (s : string) : string :=
  match s with
  | String c s' => if isSpace c then trimStart s' else s
  | EmptyString => EmptyString
  end.

Fixpoint trimEnd (s : string) : string :=
  match s with
  | EmptyString => EmptyString
  | String c s' =>
      match trimEnd s' with
      | EmptyString => if isSpace c then EmptyString else String c EmptyString
      | t => String c t
      end
  end.

Definition trim (s : string) : string := trimEnd (trimStart s).

(** [str.repeat(n)] for a one-character [str] *)
Fixpoint repeatChar (c : ascii) (n : nat) : string :=
  match n with
  | O => EmptyString
  | S n' => String c (repeatChar c n')
  end.

(** The comparison of [Array.prototype.sort] without a comparator, and of
    [<] on strings: lexicographic on code units. *)
Fixpoint ltb (a b : string) : bool :=
  match a, b with
  | EmptyString, EmptyString => false
  | EmptyString, String _ _ => true
  | String _ _, EmptyString => false
  | String x a', String y b' =>
      if Nat.ltb (code x) (code y) then true
      else if Nat.ltb (code y) (code x) then false
      else ltb a' b'
  end.

(** [arr.join(sep)] *)
Fixpoint join (sep : string) (l : list string) : string :=
  match l with
  | [] => EmptyString
  | [x] => x
  | x :: rest => String.append x (String.append sep (join sep rest))
  end.

End JsString.

Arguments JsString.trim : simpl never.
Arguments JsString.toLowerCase : simpl never.
Arguments JsString.includes : simpl never.

(* ===================================================================== *)
(** ** Regular expressions

    The fragment of JavaScript regular expressions that the source uses:
    character classes, literals, alternation, greedy quantifiers on a single
    character class, greedy optional groups and [\b].  The matcher is the
    backtracking matcher of the language: alternatives left to right,
    quantifiers longest first. *)
(* ===================================================================== *)

Module Regex.
Import JsString.

Inductive regex : Type :=
| Eps
| Chr (p : ascii -> bool)
| Cat (r1 r2 : regex)
| Alt (r1 r2 : regex)
| Opt (r : regex)
| Rep (p : ascii -> bool) (lo : nat) (hi : option nat)
| WordB.

(** The matcher state: the code unit before the current position (for
    [\b]) and the text from the current position on. *)
Definition cont := option ascii -> list ascii -> option (list ascii).

Definition isWordOpt (c : option ascii) : bool :=
  match c with Some x => isWordChar x | None => false end.

Definition orElse {A} (a b : option A) : option A :=
  match a with Some _ => a | None => b end.

Definition hiAllows (hi : option nat) : bool :=
  match hi with Some O => false | _ => true end.

Definition hiPred (hi : option nat) : option nat :=
  match hi with Some n => Some (Nat.pred n) | None => None end.

Fixpoint rep (p : ascii -> bool) (lo : nat) (hi : option nat)
         (prev : option ascii) (s : list ascii) (k : cont)
  : option (list ascii) :=
  let stop := if Nat.eqb lo 0 then k prev s else None in
  match s with
  | [] => stop
  | c :: s' =>
      if p c && hiAllows hi
      then orElse (rep p (Nat.pred lo) (hiPred hi) (Some c) s' k) stop
      else stop
  end.

Fixpoint run (r : regex) (prev : option ascii) (s : list ascii) (k : cont)
  : option (list ascii) :=
  match r with
  | Eps => k prev s
  | Chr p =>
      match s with
      | c :: s' => if p c then k (Some c) s' else None
      | [] => None
      end
  | Cat r1 r2 => run r1 prev s (fun prev' s' => run r2 prev' s' k)
  | Alt r1 r2 => orElse (run r1 prev s k) (run r2 prev s k)
  | Opt r1 => orElse (run r1 prev s k) (k prev s)
  | Rep p lo hi => rep p lo hi prev s k
  | WordB =>
      if xorb (isWordOpt prev) (isWordOpt (head s)) then k prev s else None
  end.

(** A match attempt at the current position: the text after the match. *)
Definition matchHere (r : regex) (prev : option ascii) (s : list ascii)
  : option (list ascii) :=
  run r prev s (fun _ rest => Some rest).

(** Leftmost match at or after the current position [pos]:
    [(start, end)] as indices into the whole text. *)
Fixpoint search (r : regex) (prev : option ascii) (s : list ascii)
         (pos : nat) : option (nat * nat) :=
  match matchHere r prev s with
  | Some rest => Some (pos, (pos + length s - length rest)%nat)
  | None =>
      match s with
      | [] => None
      | c :: s' => search r (Some c) s' (S pos)
      end
  end.

(** [RegExpBuiltinExec] from [lastIndex]: no match when [lastIndex] is
    past the end. *)
Definition exec (r : regex) (lastIndex : nat) (str : string)
  : option (nat * nat) :=
  let l := list_ascii_of_string str in
  if Nat.ltb (length l) lastIndex then None
  else search r (last (firstn lastIndex l)) (skipn lastIndex l) lastIndex.

(** [re.test(str)] for a regex with the [g] flag: the search starts at
    [lastIndex]; a match leaves [lastIndex] at its end, a failure resets
    it to 0. *)
Definition testGlobal (r : regex) (lastIndex : nat) (str : string)
  : bool * nat :=
  match exec r lastIndex str with
  | Some (_, e) => (true, e)
  | None => (false, O)
  end.

(** [re.test(str)] on a regex object that was just created
    ([lastIndex] is 0). *)
Definition testFresh (r : regex) (str : string) : bool :=
  fst (testGlobal r 0 str).

(** [str.replace(re, repl)] for a fresh regex with the [g] flag: every
    match, left to right, is replaced; an empty match advances by one. *)
Fixpoint replaceFrom (fuel : nat) (r : regex) (repl : list ascii)
         (prev : option ascii) (s : list ascii) : list ascii :=
  match fuel with
  | O => s
  | S fuel' =>
      match matchHere r prev s with
      | Some rest =>
          if Nat.eqb (length rest) (length s)
          then match s with
               | [] => repl
               | c :: s' =>
                   (repl ++ c :: replaceFrom fuel' r repl (Some c) s')%list
               end
          else (repl ++
                replaceFrom fuel' r repl
                  (last (firstn (length s - length rest) s)) rest)%list
      | None =>
          match s with
          | [] => []
          | c :: s' => c :: replaceFrom fuel' r repl (Some c) s'
          end
      end
  end.

Definition replaceAll (r : regex) (repl : string) (str : string) : string :=
  let l := list_ascii_of_string str in
  string_of_list_ascii
    (replaceFrom (S (length l)) r (list_ascii_of_string repl) None l).

(** *** Building blocks *)

Definition only (c : ascii) : ascii -> bool := fun x => Ascii.eqb x c.

(** a character under the [i] flag *)
Definition isI (c : ascii) : ascii -> bool :=
  fun x => Ascii.eqb (lowerChar x) (lowerChar c).

Definition orC (p q : ascii -> bool) : ascii -> bool :=
  fun x => p x || q x.

Definition notC (p : ascii -> bool) : ascii -> bool := fun x => negb (p x).

Fixpoint lit (s : string) : regex :=
  match s with
  | EmptyString => Eps
  | String c EmptyString => Chr (only c)
  | String c s' => Cat (Chr (only c)) (lit s')
  end.

Fixpoint litI (s : string) : regex :=
  match s with
  | EmptyString => Eps
  | String c EmptyString => Chr (isI c)
  | String c s' => Cat (Chr (isI c)) (litI s')
  end.

Fixpoint seq (l : list regex) : regex :=
  match l with
  | [] => Eps
  | [r] => r
  | r :: l' => Cat r (seq l')
  end.

Fixpoint alts (l : list regex) : regex :=
  match l with
  | [] => Chr (fun _ => false)
  | [r] => r
  | r :: l' => Alt r (alts l')
  end.

Definition plus (p : ascii -> bool) : regex := Rep p 1 None.
Definition star (p : ascii -> bool) : regex := Rep p 0 None.
Definition range (p : ascii -> bool) (lo hi : nat) : regex :=
  Rep p lo (Some hi).
Definition optC (p : ascii -> bool) : regex := Rep p 0 (Some 1%nat).

End Regex.

Arguments Regex.testGlobal : simpl never.
Arguments Regex.testFresh : simpl never.
Arguments Regex.replaceAll : simpl never.

(* ===================================================================== *)
(** ** utils/contentFilter.js *)
(* ===================================================================== *)

Module ContentFilter.
Import JsString Regex.
Local Open Scope string_scope.

Definition PROFANITY_WORDS : list string := ["badword1"; "badword2"].

(** The property names of [CONTACT_PATTERNS], in declaration order. *)
Inductive patternKey : Type :=
| email | phone | socialHandle | url
| whatsapp | telegram | instagram | facebook | twitter | skype | discord
| contactMe | meetOutside.

Definition patternKey_eqb (a b : patternKey) : bool :=
  match a, b with
  | email, email | phone, phone | socialHandle, socialHandle | url, url
  | whatsapp, whatsapp | telegram, telegram | instagram, instagram
  | facebook, facebook | twitter, twitter | skype, skype
  | discord, discord | contactMe, contactMe | meetOutside, meetOutside => true
  | _, _ => false
  end.

Definition keyName (k : patternKey) : string :=
  match k with
  | email => "email" | phone => "phone" | socialHandle => "socialHandle"
  | url => "url" | whatsapp => "whatsapp" | telegram => "telegram"
  | instagram => "instagram" | facebook => "facebook"
  | twitter => "twitter" | skype => "skype" | discord => "discord"
  | contactMe => "contactMe" | meetOutside => "meetOutside"
  end.

Definition dot : ascii -> bool := only ".".
Definition sep : ascii -> bool := orC isSpace (only "-").
Definition notSpace : ascii -> bool := notC isSpace.
Definition wordDotDash : ascii -> bool :=
  orC isWordChar (orC (only ".") (only "-")).

(** The regular expression of each property of [CONTACT_PATTERNS]. *)
Definition CONTACT_PATTERNS (k : patternKey) : regex :=
  match k with
  | email =>
      (* /[\w\.-]+@[\w\.-]+\.\w+/gi *)
      seq [plus wordDotDash; Chr (only "@"); plus wordDotDash; Chr dot;
           plus isWordChar]
  | phone =>
      (* /(\+?\d{1,4}[\s\-]?)?\(?\d{1,4}\)?[\s\-]?\d{1,4}[\s\-]?\d{1,4}[\s\-]?\d{1,9}/g *)
      seq [Opt (seq [optC (only "+"); range isDigit 1 4; optC sep]);
           optC (only "("); range isDigit 1 4; optC (only ")"); optC sep;
           range isDigit 1 4; optC sep; range isDigit 1 4; optC sep;
           range isDigit 1 9]
  | socialHandle =>
      (* /@[a-zA-Z0-9_]+/g *)
      seq [Chr (only "@"); plus isWordChar]
  | url =>
      (* /(https?:\/\/[^\s]+|www\.[^\s]+)/gi *)
      Alt (seq [litI "http"; optC (isI "s"); lit "://"; plus notSpace])
          (seq [litI "www"; Chr dot; plus notSpace])
  | whatsapp => Alt (litI "whatsapp") (litI "wa.me")
  | telegram => Alt (litI "telegram") (litI "t.me")
  | instagram => Alt (litI "instagram") (litI "insta")
  | facebook => Alt (litI "facebook") (litI "fb.com")
  | twitter => Alt (litI "twitter") (litI "x.com")
  | skype => litI "skype"
  | discord => litI "discord"
  | contactMe =>
      (* /(contact\s+me|reach\s+me|call\s+me|text\s+me)/gi *)
      alts [seq [litI "contact"; plus isSpace; litI "me"];
            seq [litI "reach"; plus isSpace; litI "me"];
            seq [litI "call"; plus isSpace; litI "me"];
            seq [litI "text"; plus isSpace; litI "me"]]
  | meetOutside =>
      (* /(meet\s+outside|outside\s+platform|off\s+platform)/gi *)
      alts [seq [litI "meet"; plus isSpace; litI "outside"];
            seq [litI "outside"; plus isSpace; litI "platform"];
            seq [litI "off"; plus isSpace; litI "platform"]]
  end.

Definition CONTACT_PHRASES : list string :=
  ["contact me at"; "reach me at"; "call me at"; "text me at";
   "my number is"; "my email is"; "find me on"; "add me on";
   "follow me on"; "dm me on"; "message me on"; "whatsapp me";
   "telegram me"; "email me"; "outside this app"; "off this platform";
   "meet outside"; "contact directly"; "reach directly"].

(** *** The state of the module

    The regex objects of [CONTACT_PATTERNS] are created once, when the
    module is loaded, and carry the [g] flag: each has a mutable
    [lastIndex], shared by every call. *)
Definition lastIndexes : Type := patternKey -> nat.

Definition moduleLoaded : lastIndexes := fun _ => O.

Definition setLastIndex (k : patternKey) (n : nat) (st : lastIndexes)
  : lastIndexes :=
  fun k' => if patternKey_eqb k k' then n else st k'.

(** Computations over the module state. *)
Definition M (A : Type) : Type := lastIndexes -> A * lastIndexes.

Definition ret {A} (a : A) : M A := fun st => (a, st).

Definition bind {A B} (m : M A) (f : A -> M B) : M B :=
  fun st => let (a, st') := m st in f a st'.

Local Notation "x <- m ;; k" := (bind m (fun x => k))
  (at level 100, m at next level, right associativity).

(** [CONTACT_PATTERNS[k].test(content)] *)
Definition testPattern (k : patternKey) (content : string) : M bool :=
  fun st =>
    let (found, li) := testGlobal (CONTACT_PATTERNS k) (st k) content in
    (found, setLastIndex k li st).

Record validation : Type := {
  isValid : bool;
  violations : list string
}.

Definition platformKeys : list patternKey :=
  [whatsapp; telegram; instagram; facebook; twitter; skype; discord].

(** [platformKeys.forEach(...)], pushing onto [violations] *)
Fixpoint checkPlatforms (keys : list patternKey) (content : string)
         (violations : list string) : M (list string) :=
  match keys with
  | [] => ret violations
  | platform :: keys' =>
      found <- testPattern platform content ;;
      checkPlatforms keys' content
        (if found
         then violations ++
              ["References to " +:+ keyName platform +:+ " are not allowed"]
         else violations)
  end.

(** [CONTACT_PHRASES.forEach(...)], pushing onto [violations] *)
Fixpoint checkPhrases (phrases : list string) (lowerContent : string)
         (violations : list string) : list string :=
  match phrases with
  | [] => violations
  | phrase :: phrases' =>
      checkPhrases phrases' lowerContent
        (if includes lowerContent phrase
         then violations ++ ["Requests for direct contact are not allowed"]
         else violations)
  end.

Definition pushIf (b : bool) (v : string) (violations : list string)
  : list string :=
  if b then violations ++ [v] else violations.

Definition validateMessageContent (content : string) : M validation :=
  let violations := [] in
  e <- testPattern email content ;;
  let violations := pushIf e "Email addresses are not allowed" violations in
  p <- testPattern phone content ;;
  let violations := pushIf p "Phone numbers are not allowed" violations in
  u <- testPattern url content ;;
  let violations := pushIf u "URLs and links are not allowed" violations in
  h <- testPattern socialHandle content ;;
  let violations :=
    pushIf h "Social media handles are not allowed" violations in
  violations <- checkPlatforms platformKeys content violations ;;
  let lowerContent := toLowerCase content in
  let violations := checkPhrases CONTACT_PHRASES lowerContent violations in
  ret {| isValid := Nat.eqb (length violations) 0;
         violations := violations |}.

(** The regex literals of [detectSuspiciousPatterns] are evaluated at each
    call: fresh objects. *)
Definition suspiciousPatterns : list regex :=
  [ (* /\b(zero|one|two|three|four|five|six|seven|eight|nine)\b/gi *)
    seq [WordB;
         alts [litI "zero"; litI "one"; litI "two"; litI "three";
               litI "four"; litI "five"; litI "six"; litI "seven";
               litI "eight"; litI "nine"];
         WordB];
    (* /\w+\s+(at|@)\s+\w+\s+(dot|\.)\s+\w+/gi *)
    seq [plus isWordChar; plus isSpace; Alt (litI "at") (Chr (only "@"));
         plus isSpace; plus isWordChar; plus isSpace;
         Alt (litI "dot") (Chr dot); plus isSpace; plus isWordChar];
    (* /\d+\s*[-._]\s*\d+\s*[-._]\s*\d+/g *)
    seq [plus isDigit; star isSpace;
         Chr (orC (only "-") (orC (only ".") (only "_")));
         star isSpace; plus isDigit; star isSpace;
         Chr (orC (only "-") (orC (only ".") (only "_")));
         star isSpace; plus isDigit];
    (* /\b(instagram|facebook|twitter|telegram|whatsapp)\b\s*:?\s*\w+/gi *)
    seq [WordB;
         alts [litI "instagram"; litI "facebook"; litI "twitter";
               litI "telegram"; litI "whatsapp"];
         WordB; star isSpace; optC (only ":"); star isSpace;
         plus isWordChar] ].

Definition detectSuspiciousPatterns (content : string) : bool :=
  existsb (fun pattern => testFresh pattern content) suspiciousPatterns.

(** [new RegExp(`\\b${word}\\b`, "gi")] *)
Definition profanityRegex (word : string) : regex :=
  seq [WordB; litI word; WordB].

Definition filterProfanity (content : string) : string :=
  fold_left
    (fun filteredContent word =>
       replaceAll (profanityRegex word)
         (repeatChar "*" (String.length word)) filteredContent)
    PROFANITY_WORDS content.

Record safetyAnalysis : Type := {
  safetyScore : Z;
  isAcceptable : bool;
  analysisViolations : list string;
  hasProfanity : bool;
  hasSuspiciousPatterns : bool;
  recommendation : string
}.

Definition profanityCount (content : string) : nat :=
  length (List.filter (fun word => testFresh (profanityRegex word) content)
            PROFANITY_WORDS).

Definition analyzeContentSafety (content : string) : M safetyAnalysis :=
  validation <- validateMessageContent content ;;
  let hasSuspicious := detectSuspiciousPatterns content in
  let profanityCount := profanityCount content in
  let safetyScore := 100 in
  let safetyScore :=
    safetyScore - Z.of_nat (length (violations validation)) * 20 in
  let safetyScore := safetyScore - Z.of_nat profanityCount * 15 in
  let safetyScore := safetyScore - (if hasSuspicious then 25 else 0) in
  let safetyScore := Z.max 0 safetyScore in
  ret {| safetyScore := safetyScore;
         isAcceptable := (70 <=? safetyScore)%Z;
         analysisViolations := violations validation;
         hasProfanity := Nat.ltb 0 profanityCount;
         hasSuspiciousPatterns := hasSuspicious;
         recommendation :=
           if (70 <=? safetyScore)%Z then "APPROVE" else "REJECT" |}.

End ContentFilter.

Arguments ContentFilter.validateMessageContent : simpl never.
Arguments ContentFilter.detectSuspiciousPatterns : simpl never.
Arguments ContentFilter.profanityCount : simpl never.
Arguments ContentFilter.filterProfanity : simpl never.
Arguments ContentFilter.analyzeContentSafety : simpl never.


(* ===================================================================== *)
(** ** models/Message.js and models/User.js *)
(* ===================================================================== *)

Module Message.
Import JsString.
Local Open Scope string_scope.

(** [messageStatus]: enum ["sent", "delivered", "read"] *)
Inductive status : Type := Sent | Delivered | Read.

Definition status_eqb (a b : status) : bool :=
  match a, b with
  | Sent, Sent | Delivered, Delivered | Read, Read => true
  | _, _ => false
  end.

(** The position of a status in the chain sent, delivered, read. *)
Definition rank (s : status) : nat :=
  match s with Sent => 0 | Delivered => 1 | Read => 2 end.

(** A document of the collection.  Message ids are natural numbers; dates
    are readings of the clock. *)
Record doc : Type := mkDoc {
  _id : nat;
  sender : string;
  receiver : string;
  content : string;
  conversationId : string;
  timestamp : nat;
  read : bool;
  readAt : option nat;
  deleted : bool;
  deletedAt : option nat;
  messageStatus : status
}.

(** [Array.prototype.sort] without a comparator: ascending by code units,
    stable. *)
Fixpoint insert (x : string) (l : list string) : list string :=
  match l with
  | [] => [x]
  | y :: l' => if ltb y x then y :: insert x l' else x :: l
  end.

Fixpoint sort (l : list string) : list string :=
  match l with
  | [] => []
  | x :: l' => insert x (sort l')
  end.

(** [messageSchema.statics.createConversationId]; the ids are already
    strings. *)
Definition createConversationId (userIdA userIdB : string) : string :=
  join "_" (sort [userIdA; userIdB]).

(** The static methods of the model that a handler reaches through its
    binding of the name [Message]. *)
Record model : Type := {
  model_createConversationId : string -> string -> string
}.

Definition Model : model :=
  {| model_createConversationId := createConversationId |}.

End Message.

Arguments Message.createConversationId : simpl never.

Module User.

(** [role]: enum ["artist", "buyer", "admin"] *)
Inductive role : Type := artist | buyer | admin.

Definition role_eqb (a b : role) : bool :=
  match a, b with
  | artist, artist | buyer, buyer | admin, admin => true
  | _, _ => false
  end.

(** The fields of a user document that the messaging core reads. *)
Record doc : Type := mkUser {
  username : string;
  role_of : role;
  isVerified : bool;
  blockedUsers : list string
}.

(** [arr.includes(id)] on an array of ids *)
Definition includes (l : list string) (id : string) : bool :=
  existsb (String.eqb id) l.

End User.

(* ===================================================================== *)
(** ** The state of the process and of the document store *)
(* ===================================================================== *)

Module Runtime.
Local Open Scope string_scope.

(** Thrown values. *)
Inductive exn : Type :=
| AppError (message : string) (statusCode : nat)
| ReferenceError (message : string)
| TypeError (message : string)
| ValidationError (message : string).

(** [socket.user], attached by the connection gateway. *)
Record socketUser : Type := {
  su_id : string;
  su_username : string;
  su_role : User.role;
  su_email : string
}.

(** [result.message] of [messageService.sendMessage]; populated users are
    represented by their ids.  [sm_messageStatus] is the property that
    [handleSendMessage] adds. *)
Record sentMessage : Type := {
  sm_id : nat;
  sm_content : string;
  sm_sender : string;
  sm_receiver : string;
  sm_timestamp : nat;
  sm_read : bool;
  sm_conversationId : string;
  sm_messageStatus : option Message.status
}.

Record sendResult : Type := {
  sr_message : sentMessage;
  sr_conversationId : string;
  sr_otherUser : string
}.

(** Where an event is emitted: [socket.emit] reaches the connection of a
    user, [io.to(room).emit] a room. *)
Inductive target : Type :=
| ToSocket (userId : string)
| ToRoom (room : string).

(** The events, one constructor per event name. *)
Inductive event : Type :=
| message_error (message : string) (violations : option (list string))
| error (message : string)
| user_typing (userId username : string) (isTyping : bool)
| message_sent (r : sendResult)
| new_message (m : sentMessage) (conversationId otherUserId : string)
| conversation_message (m : sentMessage)
| messages_read (readByUserId readByUsername conversationId : string)
| messages_marked_read (otherUserId : string) (timestamp : nat)
| user_block_toggled (targetUserId action : string)
    (blockedUsers : list string)
| conversation_blocked (blockedByUserId conversationId : string).

Record world : Type := mkWorld {
  users : gmap string User.doc;          (* the User collection, by id *)
  messages : list Message.doc;           (* the Message collection *)
  now : nat;                             (* the clock *)
  patterns : ContentFilter.lastIndexes;  (* contentFilter.js module state *)
  onlineUsers : gset string;             (* keys of onlineHandler.onlineUsers *)
  activeTyping : gmap string nat;        (* chatHandler.activeTyping *)
  timers : gmap nat (socketUser * string); (* pending setTimeout callbacks *)
  nextTimer : nat;
  emitted : list (target * event)        (* events emitted so far *)
}.

Definition set_users (f : gmap string User.doc -> gmap string User.doc)
           (w : world) : world :=
  mkWorld (f (users w)) (messages w) (now w) (patterns w) (onlineUsers w)
          (activeTyping w) (timers w) (nextTimer w) (emitted w).

Definition set_messages (f : list Message.doc -> list Message.doc)
           (w : world) : world :=
  mkWorld (users w) (f (messages w)) (now w) (patterns w) (onlineUsers w)
          (activeTyping w) (timers w) (nextTimer w) (emitted w).

Definition set_patterns (p : ContentFilter.lastIndexes) (w : world)
  : world :=
  mkWorld (users w) (messages w) (now w) p (onlineUsers w)
          (activeTyping w) (timers w) (nextTimer w) (emitted w).

Definition set_activeTyping (f : gmap string nat -> gmap string nat)
           (w : world) : world :=
  mkWorld (users w) (messages w) (now w) (patterns w) (onlineUsers w)
          (f (activeTyping w)) (timers w) (nextTimer w) (emitted w).

Definition set_timers
           (f : gmap nat (socketUser * string) ->
                gmap nat (socketUser * string))
           (w : world) : world :=
  mkWorld (users w) (messages w) (now w) (patterns w) (onlineUsers w)
          (activeTyping w) (f (timers w)) (nextTimer w) (emitted w).

Definition set_nextTimer (n : nat) (w : world) : world :=
  mkWorld (users w) (messages w) (now w) (patterns w) (onlineUsers w)
          (activeTyping w) (timers w) n (emitted w).

Definition add_emitted (e : target * event) (w : world) : world :=
  mkWorld (users w) (messages w) (now w) (patterns w) (onlineUsers w)
          (activeTyping w) (timers w) (nextTimer w) (emitted w ++ [e]).

(** *** Computations that read and write the state and may throw *)

Inductive outcome (A : Type) : Type :=
| Ok (a : A)
| Throw (e : exn).
Arguments Ok {A} a.
Arguments Throw {A} e.

Definition Exec (A : Type) : Type := world -> outcome A * world.

Definition ret {A} (a : A) : Exec A := fun w => (Ok a, w).

Definition throw {A} (e : exn) : Exec A := fun w => (Throw e, w).

Definition bind {A B} (m : Exec A) (f : A -> Exec B) : Exec B :=
  fun w =>
    match m w with
    | (Ok a, w') => f a w'
    | (Throw e, w') => (Throw e, w')
    end.

(** [try { body } catch (error) { handler }] *)
Definition tryCatch {A} (body : Exec A) (handler : exn -> Exec A)
  : Exec A :=
  fun w =>
    match body w with
    | (Ok a, w') => (Ok a, w')
    | (Throw e, w') => handler e w'
    end.

Definition gets {A} (f : world -> A) : Exec A := fun w => (Ok (f w), w).

Definition modify (f : world -> world) : Exec unit :=
  fun w => (Ok tt, f w).

(** [socket.emit(...)] on the connection of [userId] *)
Definition socketEmit (userId : string) (e : event) : Exec unit :=
  modify (add_emitted (ToSocket userId, e)).

(** [io.to(room).emit(...)] *)
Definition roomEmit (room : string) (e : event) : Exec unit :=
  modify (add_emitted (ToRoom room, e)).

(** A JavaScript value that is [undefined], [null] or the empty string is
    falsy. *)
Definition falsy (v : option string) : bool :=
  match v with
  | None => true
  | Some s => String.eqb s ""
  end.

(** *** Queries and updates of the Message collection *)

Definition findById (id : nat) (msgs : list Message.doc)
  : option Message.doc :=
  List.find (fun d => Nat.eqb (Message._id d) id) msgs.

(** An update of the document with the given id. *)
Definition updateById (id : nat) (f : Message.doc -> Message.doc)
           (msgs : list Message.doc) : list Message.doc :=
  List.map (fun d => if Nat.eqb (Message._id d) id then f d else d) msgs.

(** [Message.updateMany(filter, update)] *)
Definition updateMany (filter : Message.doc -> bool)
           (f : Message.doc -> Message.doc)
           (msgs : list Message.doc) : list Message.doc :=
  List.map (fun d => if filter d then f d else d) msgs.

(** The number of documents an [updateMany] with this filter modifies. *)
Definition matchedCount (filter : Message.doc -> bool)
           (msgs : list Message.doc) : nat :=
  length (List.filter filter msgs).

(** [Message.countDocuments(filter)] *)
Definition countDocuments (filter : Message.doc -> bool)
           (msgs : list Message.doc) : nat :=
  length (List.filter filter msgs).

(** An id that no document of the collection has. *)
Definition freshId (msgs : list Message.doc) : nat :=
  S (list_max (List.map Message._id msgs)).

End Runtime.

Arguments Runtime.freshId : simpl never.

(* ===================================================================== *)
(** ** services/messageService.js *)
(* ===================================================================== *)

Module MessageService.
Import JsString Regex Runtime.
Local Open Scope string_scope.

Local Notation "x <- m ;; k" := (bind m (fun x => k))
  (at level 100, m at next level, right associativity).

(** [filterMessageContent]: the method's own regex literals (fresh at each
    call), then [filterProfanity] of contentFilter.js. *)
Definition filterMessageContent (content : string) : string :=
  let filteredContent := content in
  let filteredContent :=
    (* /[\w\.-]+@[\w\.-]+\.\w+/g *)
    replaceAll
      (seq [plus ContentFilter.wordDotDash; Chr (only "@");
            plus ContentFilter.wordDotDash; Chr ContentFilter.dot;
            plus isWordChar])
      "[CONTACT INFO REMOVED]" filteredContent in
  let filteredContent :=
    replaceAll (ContentFilter.CONTACT_PATTERNS ContentFilter.phone)
      "[CONTACT INFO REMOVED]" filteredContent in
  let filteredContent :=
    (* /@[a-zA-Z0-9_]+/g *)
    replaceAll (seq [Chr (only "@"); plus isWordChar])
      "[SOCIAL HANDLE REMOVED]" filteredContent in
  let filteredContent :=
    (* /(https?:\/\/[^\s]+)/g *)
    replaceAll
      (seq [lit "http"; optC (only "s"); lit "://";
            plus ContentFilter.notSpace])
      "[LINK REMOVED]" filteredContent in
  ContentFilter.filterProfanity filteredContent.

(** [Message.create({sender, receiver, content, conversationId,
    timestamp: new Date(), read: false})]: the schema trims [content] and
    requires it; the other fields take their defaults. *)
Definition create (senderId receiverId content conversationId : string)
  : Exec Message.doc :=
  fun w =>
    let content := trim content in
    if String.eqb content ""
    then (Throw (ValidationError "Path `content` is required."), w)
    else
      let d := {| Message._id := freshId (messages w);
                  Message.sender := senderId;
                  Message.receiver := receiverId;
                  Message.content := content;
                  Message.conversationId := conversationId;
                  Message.timestamp := now w;
                  Message.read := false;
                  Message.readAt := None;
                  Message.deleted := false;
                  Message.deletedAt := None;
                  Message.messageStatus := Message.Sent |} in
      (Ok d, set_messages (fun l => (l ++ [d])%list) w).

Definition sendMessage (senderId receiverId content : string)
  : Exec sendResult :=
  tryCatch
    (let filteredContent := filterMessageContent content in
     let conversationId :=
       Message.createConversationId senderId receiverId in
     message <- create senderId receiverId filteredContent
                  conversationId ;;
     ret {| sr_message :=
              {| sm_id := Message._id message;
                 sm_content := Message.content message;
                 sm_sender := Message.sender message;
                 sm_receiver := Message.receiver message;
                 sm_timestamp := Message.timestamp message;
                 sm_read := Message.read message;
                 sm_conversationId := Message.conversationId message;
                 sm_messageStatus := None |};
            sr_conversationId := conversationId;
            sr_otherUser := Message.receiver message |})
    (fun _ => throw (AppError "Failed to send message" 500)).

(** The filter [{ conversationId, receiver: userId, read: false }] *)
Definition unreadIn (conversationId userId : string) (d : Message.doc)
  : bool :=
  String.eqb (Message.conversationId d) conversationId &&
  String.eqb (Message.receiver d) userId &&
  negb (Message.read d).

(** The update [{ read: true, readAt: new Date() }] *)
Definition setRead (date : nat) (d : Message.doc) : Message.doc :=
  {| Message._id := Message._id d;
     Message.sender := Message.sender d;
     Message.receiver := Message.receiver d;
     Message.content := Message.content d;
     Message.conversationId := Message.conversationId d;
     Message.timestamp := Message.timestamp d;
     Message.read := true;
     Message.readAt := Some date;
     Message.deleted := Message.deleted d;
     Message.deletedAt := Message.deletedAt d;
     Message.messageStatus := Message.messageStatus d |}.

Definition markMessagesAsRead (userId otherUserId : string) : Exec unit :=
  tryCatch
    (let conversationId :=
       Message.createConversationId userId otherUserId in
     date <- gets now ;;
     modify (set_messages
               (updateMany (unreadIn conversationId userId)
                           (setRead date))))
    (fun error => throw error).

(** [message.deleted = true; message.deletedAt = new Date()]; [save]
    writes the two modified paths. *)
Definition setDeleted (date : nat) (d : Message.doc) : Message.doc :=
  {| Message._id := Message._id d;
     Message.sender := Message.sender d;
     Message.receiver := Message.receiver d;
     Message.content := Message.content d;
     Message.conversationId := Message.conversationId d;
     Message.timestamp := Message.timestamp d;
     Message.read := Message.read d;
     Message.readAt := Message.readAt d;
     Message.deleted := true;
     Message.deletedAt := Some date;
     Message.messageStatus := Message.messageStatus d |}.

Definition deleteMessage (messageId : nat) (userId : string) : Exec unit :=
  tryCatch
    (message <- gets (fun w => findById messageId (messages w)) ;;
     match message with
     | None => throw (AppError "Message not found" 404)
     | Some message =>
         if negb (String.eqb (Message.sender message) userId)
         then throw (AppError "You can only delete your own messages" 403)
         else
           date <- gets now ;;
           modify (set_messages (updateById messageId (setDeleted date)))
     end)
    (fun _ => throw (AppError "Failed to delete message" 500)).

Record toggleResult : Type := {
  action : string;
  resultBlockedUsers : list string
}.

Definition setBlockedUsers (l : list string) (u : User.doc) : User.doc :=
  {| User.username := User.username u;
     User.role_of := User.role_of u;
     User.isVerified := User.isVerified u;
     User.blockedUsers := l |}.

Definition toggleBlockUser (userId targetUserId : string)
  : Exec toggleResult :=
  tryCatch
    (user <- gets (fun w => users w !! userId) ;;
     match user with
     | None =>
         throw (TypeError "Cannot read properties of null")
     | Some user =>
         let isBlocked :=
           User.includes (User.blockedUsers user) targetUserId in
         if isBlocked
         then
           let blocked :=
             List.filter (fun id => negb (String.eqb id targetUserId))
                         (User.blockedUsers user) in
           _ <- modify (set_users
                          (insert userId (setBlockedUsers blocked user))) ;;
           ret {| action := "unblocked"; resultBlockedUsers := blocked |}
         else
           let blocked := (User.blockedUsers user ++ [targetUserId])%list in
           _ <- modify (set_users
                          (insert userId (setBlockedUsers blocked user))) ;;
           ret {| action := "blocked"; resultBlockedUsers := blocked |}
     end)
    (fun _ => throw (AppError "Failed to toggle block user" 500)).

(** The unread count of a conversation in [getUserConversations]:
    [{ conversationId, receiver: userId, read: false,
       deleted: { $ne: true } }] *)
Definition unreadCount (conversationId userId : string)
           (msgs : list Message.doc) : nat :=
  countDocuments
    (fun d => unreadIn conversationId userId d && negb (Message.deleted d))
    msgs.

End MessageService.

Arguments MessageService.filterMessageContent : simpl never.

(* ===================================================================== *)
(** ** validators/messageValidator.js and controllers/messageController.js *)
(* ===================================================================== *)

Module MessageController.
Import JsString Runtime.
Local Open Scope string_scope.

Local Notation "x <- m ;; k" := (bind m (fun x => k))
  (at level 100, m at next level, right associativity).

(** [req.user], attached by the authentication middleware: the fields the
    controllers read. *)
Record reqUser : Type := {
  ru_id : string;
  ru_role : User.role;
  ru_blockedUsers : list string
}.

(** What a request ends in: [res.status(..).json(..)] or [next(error)]. *)
Inductive response : Type :=
| Json (status : nat) (message : string) (data : option sendResult)
| Next (e : exn).

(** [/^[^<>{}]*$/] *)
Fixpoint noMarkup (s : string) : bool :=
  match s with
  | EmptyString => true
  | String c s' =>
      negb (Ascii.eqb c "<" || Ascii.eqb c ">" ||
            Ascii.eqb c "{" || Ascii.eqb c "}") && noMarkup s'
  end.

(** [validateSendMessage]: the sanitised content when every check passes.
    [isMongoId] holds of every identifier of the model. *)
Definition validateSendMessage (user : reqUser) (receiverId content : string)
           (w : world) : option string :=
  let receiverOk :=
    match users w !! receiverId with
    | None => false
    | Some receiver =>
        User.isVerified receiver && negb (String.eqb receiverId (ru_id user))
    end in
  let content := trim content in
  let contentOk :=
    Nat.leb 1 (String.length content) &&
    Nat.leb (String.length content) 1000 && noMarkup content in
  if receiverOk && contentOk then Some content else None.

Definition sendMessage (user : reqUser) (receiverId content : string)
  : Exec response :=
  tryCatch
    (let senderId := ru_id user in
     receiver <- gets (fun w => users w !! receiverId) ;;
     match receiver with
     | None => ret (Next (AppError "Receiver not found" 404))
     | Some receiver =>
         if User.role_eqb (ru_role user) (User.role_of receiver)
         then ret (Next (AppError
                "You cannot send messages to users with the same role" 403))
         else if User.includes (User.blockedUsers receiver) senderId
         then ret (Next (AppError "Unable to send message" 403))
         else if User.includes (ru_blockedUsers user) receiverId
         then ret (Next (AppError "You have blocked the receiver" 403))
         else
           result <- MessageService.sendMessage senderId receiverId
                       content ;;
           ret (Json 201 "Message sent successfully" (Some result))
     end)
    (fun error => ret (Next error)).

(** [POST /send]: the validation chain, then the controller. *)
Definition postSend (user : reqUser) (receiverId content : string)
  : Exec response :=
  fun w =>
    match validateSendMessage user receiverId content w with
    | None => (Ok (Json 400 "Validation failed" None), w)
    | Some content => sendMessage user receiverId content w
    end.

Definition markMessagesAsRead (user : reqUser) (otherUserId : string)
  : Exec response :=
  tryCatch
    (_ <- MessageService.markMessagesAsRead (ru_id user) otherUserId ;;
     ret (Json 200 "Messages marked as read successfully" None))
    (fun error => ret (Next error)).

Definition deleteMessage (user : reqUser) (messageId : nat)
  : Exec response :=
  tryCatch
    (_ <- MessageService.deleteMessage messageId (ru_id user) ;;
     ret (Json 200 "Message deleted successfully" None))
    (fun error => ret (Next error)).

Definition toggleBlockUser (user : reqUser) (targetUserId : string)
  : Exec response :=
  tryCatch
    (targetUser <- gets (fun w => users w !! targetUserId) ;;
     match targetUser with
     | None => ret (Next (AppError "User not found" 404))
     | Some targetUser =>
         if User.role_eqb (ru_role user) (User.role_of targetUser)
         then ret (Next (AppError
                "You cannot block users with the same role" 403))
         else
           result <- MessageService.toggleBlockUser (ru_id user)
                       targetUserId ;;
           ret (Json 200
                  (if String.eqb (MessageService.action result) "blocked"
                   then "User blocked successfully"
                   else "User unblocked successfully") None)
     end)
    (fun error => ret (Next error)).

End MessageController.

(* ===================================================================== *)
(** ** sockets/chatHandler.js *)
(* ===================================================================== *)

(** The handlers take [socket.user] and the payload of the event.  What
    they emit is recorded in the state, by target.  The room membership of
    socket.io ([socket.join], [socket.leave]) and the log are not part of
    the state. *)

Module ChatHandler.
Import JsString Runtime.
Local Open Scope string_scope.

Local Notation "x <- m ;; k" := (bind m (fun x => k))
  (at level 100, m at next level, right associativity).

(** The [io] argument: the server, or [null]. *)
Inductive server : Type := Io.

(** `${socket.user.id}_${otherUserId}` *)
Definition typingKey (socket : socketUser) (otherUserId : string) : string :=
  su_id socket +:+ "_" +:+ otherUserId.

(** [clearTimeout(handle)] *)
Definition clearTimeout (handle : nat) : Exec unit :=
  modify (set_timers (delete handle)).

(** [setTimeout(() => this.stopTyping(socket, otherUserId), 3000)]: the
    callback is recorded with what it captures. *)
Definition setTimeout (socket : socketUser) (otherUserId : string)
  : Exec nat :=
  fun w =>
    let handle := nextTimer w in
    (Ok handle,
     set_nextTimer (S handle)
       (set_timers (insert handle (socket, otherUserId)) w)).

Definition stopTyping (socket : socketUser) (otherUserId : option string)
           (io : option server) : Exec unit :=
  tryCatch
    (match otherUserId with
     | None => ret tt
     | Some otherUserId =>
         if String.eqb otherUserId "" then ret tt
         else
           let typingKey := typingKey socket otherUserId in
           active <- gets (fun w => activeTyping w !! typingKey) ;;
           _ <- match active with
                | Some handle =>
                    _ <- clearTimeout handle ;;
                    modify (set_activeTyping (delete typingKey))
                | None => ret tt
                end ;;
           match io with
           | Some Io =>
               roomEmit ("user_" +:+ otherUserId)
                 (user_typing (su_id socket) (su_username socket) false)
           | None => ret tt
           end
     end)
    (fun _ => ret tt).

Definition handleTypingStart (socket : socketUser)
           (otherUserId : option string) : Exec unit :=
  tryCatch
    (match otherUserId with
     | None => ret tt
     | Some otherUserId =>
         if String.eqb otherUserId "" ||
            String.eqb otherUserId (su_id socket)
         then ret tt
         else
           let typingKey := typingKey socket otherUserId in
           active <- gets (fun w => activeTyping w !! typingKey) ;;
           _ <- match active with
                | Some handle => clearTimeout handle
                | None => ret tt
                end ;;
           timeout <- setTimeout socket otherUserId ;;
           _ <- modify (set_activeTyping (insert typingKey timeout)) ;;
           roomEmit ("user_" +:+ otherUserId)
             (user_typing (su_id socket) (su_username socket) true)
     end)
    (fun _ => ret tt).

Definition handleTypingStop (socket : socketUser)
           (otherUserId : option string) : Exec unit :=
  tryCatch (stopTyping socket otherUserId (Some Io)) (fun _ => ret tt).

(** The 3 seconds of a pending timer have elapsed: its callback runs,
    [this.stopTyping(socket, otherUserId)], and the timer is spent.
    A cleared timer never fires. *)
Definition timerFires (handle : nat) : Exec unit :=
  pending <- gets (fun w => timers w !! handle) ;;
  match pending with
  | None => ret tt
  | Some (socket, otherUserId) =>
      _ <- modify (set_timers (delete handle)) ;;
      stopTyping socket (Some otherUserId) None
  end.

(** The payload of [send_message] *)
Record sendData : Type := {
  receiverId : option string;
  content : option string
}.

Definition setDelivered (d : Message.doc) : Message.doc :=
  {| Message._id := Message._id d;
     Message.sender := Message.sender d;
     Message.receiver := Message.receiver d;
     Message.content := Message.content d;
     Message.conversationId := Message.conversationId d;
     Message.timestamp := Message.timestamp d;
     Message.read := Message.read d;
     Message.readAt := Message.readAt d;
     Message.deleted := Message.deleted d;
     Message.deletedAt := Message.deletedAt d;
     Message.messageStatus := Message.Delivered |}.

(** [Message.findByIdAndUpdate(id, { messageStatus: "delivered" })] *)
Definition markDelivered (id : nat) : Exec unit :=
  modify (set_messages (updateById id setDelivered)).

Definition withStatus (st : Message.status) (r : sendResult) : sendResult :=
  {| sr_message :=
       {| sm_id := sm_id (sr_message r);
          sm_content := sm_content (sr_message r);
          sm_sender := sm_sender (sr_message r);
          sm_receiver := sm_receiver (sr_message r);
          sm_timestamp := sm_timestamp (sr_message r);
          sm_read := sm_read (sr_message r);
          sm_conversationId := sm_conversationId (sr_message r);
          sm_messageStatus := Some st |};
     sr_conversationId := sr_conversationId r;
     sr_otherUser := sr_otherUser r |}.

(** [analyzeContentSafety(content)], on the module state of
    contentFilter.js *)
Definition analyzeContentSafety (content : string)
  : Exec ContentFilter.safetyAnalysis :=
  fun w =>
    let (analysis, st) :=
      ContentFilter.analyzeContentSafety content (patterns w) in
    (Ok analysis, set_patterns st w).

Definition handleSendMessage (socket : socketUser) (data : sendData)
  : Exec unit :=
  tryCatch
    (match receiverId data, content data with
     | Some receiverId, Some content =>
         if String.eqb receiverId "" || String.eqb content "" ||
            String.eqb receiverId (su_id socket)
         then socketEmit (su_id socket)
                (message_error "Invalid message data" None)
         else
           receiver <- gets (fun w => users w !! receiverId) ;;
           match receiver with
           | None =>
               socketEmit (su_id socket)
                 (message_error "Receiver not found" None)
           | Some receiver =>
               if User.role_eqb (su_role socket) (User.role_of receiver)
               then socketEmit (su_id socket)
                      (message_error
                         "You can only message users with different roles"
                         None)
               else if User.includes (User.blockedUsers receiver)
                                     (su_id socket)
               then socketEmit (su_id socket)
                      (message_error "Unable to send message" None)
               else
                 safetyAnalysis <- analyzeContentSafety content ;;
                 if negb (ContentFilter.isAcceptable safetyAnalysis)
                 then socketEmit (su_id socket)
                        (message_error "Message contains prohibited content"
                           (Some (ContentFilter.analysisViolations
                                    safetyAnalysis)))
                 else
                   result <- MessageService.sendMessage (su_id socket)
                               receiverId content ;;
                   online <- gets (fun w =>
                               bool_decide (receiverId ∈ onlineUsers w)) ;;
                   result <-
                     (if online : bool
                      then tryCatch
                             (_ <- markDelivered
                                     (sm_id (sr_message result)) ;;
                              ret (withStatus Message.Delivered result))
                             (fun _ => ret result)
                      else ret result) ;;
                   _ <- stopTyping socket (Some receiverId) (Some Io) ;;
                   _ <- socketEmit (su_id socket) (message_sent result) ;;
                   _ <- roomEmit ("user_" +:+ receiverId)
                          (new_message (sr_message result)
                             (sr_conversationId result) (su_id socket)) ;;
                   let conversationId :=
                     Message.createConversationId (su_id socket)
                                                  receiverId in
                   roomEmit ("conversation_" +:+ conversationId)
                     (conversation_message (sr_message result))
           end
     | _, _ =>
         socketEmit (su_id socket)
           (message_error "Invalid message data" None)
     end)
    (fun _ =>
       socketEmit (su_id socket)
         (message_error "Failed to send message" None)).

(** The update [{ read: true, readAt: new Date(), messageStatus: "read" }]
    of [handleMarkAsRead] *)
Definition setReadStatus (date : nat) (d : Message.doc) : Message.doc :=
  {| Message._id := Message._id d;
     Message.sender := Message.sender d;
     Message.receiver := Message.receiver d;
     Message.content := Message.content d;
     Message.conversationId := Message.conversationId d;
     Message.timestamp := Message.timestamp d;
     Message.read := true;
     Message.readAt := Some date;
     Message.deleted := Message.deleted d;
     Message.deletedAt := Message.deletedAt d;
     Message.messageStatus := Message.Read |}.

(** A [const] binding of a block: the name is in scope from the start of
    the block and cannot be read before its declaration is evaluated. *)
Inductive binding (A : Type) : Type :=
| Uninitialized
| Initialized (a : A).
Arguments Uninitialized {A}.
Arguments Initialized {A} a.

Definition readBinding {A} (name : string) (b : binding A) : Exec A :=
  match b with
  | Initialized a => ret a
  | Uninitialized =>
      throw (ReferenceError
               ("Cannot access '" +:+ name +:+ "' before initialization"))
  end.

(** [handleMarkAsRead].  Its [try] block declares
    [const Message = require("../models/Message")] after the first use of
    the name [Message] in the same block; within the block the name
    denotes that binding, not the one of the module. *)
Definition handleMarkAsRead (socket : socketUser)
           (otherUserId : option string) : Exec unit :=
  tryCatch
    (let Message_block : binding Message.model := Uninitialized in
     match otherUserId with
     | Some otherUserId =>
         if String.eqb otherUserId "" ||
            String.eqb otherUserId (su_id socket)
         then socketEmit (su_id socket) (message_error "Invalid user ID" None)
         else
           Message_ <- readBinding "Message" Message_block ;;
           let conversationId :=
             Message.model_createConversationId Message_
               (su_id socket) otherUserId in
           let Message_block := Initialized Message.Model in
           date <- gets now ;;
           _ <- modify (set_messages
                          (updateMany
                             (MessageService.unreadIn conversationId
                                (su_id socket))
                             (setReadStatus date))) ;;
           Message_ <- readBinding "Message" Message_block ;;
           _ <- roomEmit ("user_" +:+ otherUserId)
                  (messages_read (su_id socket) (su_username socket)
                     (Message.model_createConversationId Message_
                        (su_id socket) otherUserId)) ;;
           date <- gets now ;;
           socketEmit (su_id socket) (messages_marked_read otherUserId date)
     | None =>
         socketEmit (su_id socket) (message_error "Invalid user ID" None)
     end)
    (fun _ =>
       socketEmit (su_id socket) (error "Failed to mark messages as read")).

Definition handleBlockUser (socket : socketUser)
           (targetUserId : option string) : Exec unit :=
  tryCatch
    (match targetUserId with
     | Some targetUserId =>
         if String.eqb targetUserId "" ||
            String.eqb targetUserId (su_id socket)
         then socketEmit (su_id socket) (error "Invalid target user ID")
         else
           result <- MessageService.toggleBlockUser (su_id socket)
                       targetUserId ;;
           _ <- socketEmit (su_id socket)
                  (user_block_toggled targetUserId
                     (MessageService.action result)
                     (MessageService.resultBlockedUsers result)) ;;
           if String.eqb (MessageService.action result) "blocked"
           then
             let conversationId :=
               Message.createConversationId (su_id socket) targetUserId in
             roomEmit ("user_" +:+ targetUserId)
               (conversation_blocked (su_id socket) conversationId)
           else ret tt
     | None => socketEmit (su_id socket) (error "Invalid target user ID")
     end)
    (fun _ =>
       socketEmit (su_id socket) (error "Failed to block/unblock user")).

End ChatHandler.

(* ===================================================================== *)
(** ** The score in the words of the specification *)
(* ===================================================================== *)

Module AnalyzerSpec.
Import JsString ContentFilter.
Local Open Scope string_scope.

(** The categories of violation that the specification names. *)
Inductive category : Type :=
| ContactInfo | Urls | SocialHandles | NamedPlatform | ContactRequest.

Definition category_eqb (a b : category) : bool :=
  match a, b with
  | ContactInfo, ContactInfo | Urls, Urls | SocialHandles, SocialHandles
  | NamedPlatform, NamedPlatform | ContactRequest, ContactRequest => true
  | _, _ => false
  end.

(** The category of an entry of the violations list. *)
Definition categoryOf (violation : string) : category :=
  if String.eqb violation "Email addresses are not allowed" then ContactInfo
  else if String.eqb violation "Phone numbers are not allowed"
  then ContactInfo
  else if String.eqb violation "URLs and links are not allowed" then Urls
  else if String.eqb violation "Social media handles are not allowed"
  then SocialHandles
  else if String.eqb violation "Requests for direct contact are not allowed"
  then ContactRequest
  else NamedPlatform.

Definition allCategories : list category :=
  [ContactInfo; Urls; SocialHandles; NamedPlatform; ContactRequest].

(** The number of distinct categories among the detected violations. *)
Definition distinctCategories (violations : list string) : nat :=
  length
    (List.filter
       (fun c => existsb (fun v => category_eqb (categoryOf v) c) violations)
       allCategories).

(** The score as the specification words it: 100, minus 20 per distinct
    violation category detected, minus 15 per profane term found, minus
    25 if a creative-evasion pattern matches, floored at 0.  It is
    computed from the detections of the analysis itself. *)
Definition specScore (a : safetyAnalysis) (content : string) : Z :=
  Z.max 0
    (100 - 20 * Z.of_nat (distinctCategories (analysisViolations a))
         - 15 * Z.of_nat (profanityCount content)
         - (if hasSuspiciousPatterns a then 25 else 0)).

(** The contact phrases that the lower-cased text contains. *)
Definition phrasesFound (content : string) : list string :=
  List.filter (includes (toLowerCase content)) CONTACT_PHRASES.

(** The regex tests of one call of [validateMessageContent], in the order
    in which it makes them. *)
Definition regexTests : list patternKey :=
  [email; phone; url; socialHandle; whatsapp; telegram; instagram;
   facebook; twitter; skype; discord].

(** The entry that a test pushes onto the violations list when it reports
    a match. *)
Definition violationOf (k : patternKey) : string :=
  match k with
  | email => "Email addresses are not allowed"
  | phone => "Phone numbers are not allowed"
  | url => "URLs and links are not allowed"
  | socialHandle => "Social media handles are not allowed"
  | platform => "References to " +:+ keyName platform +:+ " are not allowed"
  end.

(** Whether the test of a pattern reports a match in a call that finds the
    module in the state [st]: a call tests each regex object once, from the
    [lastIndex] that the earlier calls left in it. *)
Definition reportsMatch (content : string) (st : lastIndexes)
           (k : patternKey) : bool :=
  fst (Regex.testGlobal (CONTACT_PATTERNS k) (st k) content).

End AnalyzerSpec.

(* ===================================================================== *)
(** ** Scenarios and runs *)
(* ===================================================================== *)

(** A small marketplace: two artists and a buyer, all verified; the buyer is
    connected. *)
Module Scenario.
Import Runtime.
Local Open Scope string_scope.

Definition alice : socketUser :=
  {| su_id := "a1"; su_username := "alice"; su_role := User.artist;
     su_email := "alice@studio.example" |}.

Definition bob : socketUser :=
  {| su_id := "b1"; su_username := "bob"; su_role := User.buyer;
     su_email := "bob@mail.example" |}.

Definition aliceReq : MessageController.reqUser :=
  {| MessageController.ru_id := "a1";
     MessageController.ru_role := User.artist;
     MessageController.ru_blockedUsers := [] |}.

Definition bobReq : MessageController.reqUser :=
  {| MessageController.ru_id := "b1";
     MessageController.ru_role := User.buyer;
     MessageController.ru_blockedUsers := [] |}.

Definition start : world :=
  mkWorld
    (<["a1" := User.mkUser "alice" User.artist true []]>
       (<["b1" := User.mkUser "bob" User.buyer true []]>
          (<["a2" := User.mkUser "ann" User.artist true []]> ∅)))
    [] 5 ContentFilter.moduleLoaded {["b1"]} ∅ ∅ 0 [].

(** Alice has blocked Bob. *)
Definition aliceBlockedBob : world :=
  set_users (insert "a1" (User.mkUser "alice" User.artist true ["b1"]))
            start.

Definition aliceReqBlockedBob : MessageController.reqUser :=
  {| MessageController.ru_id := "a1";
     MessageController.ru_role := User.artist;
     MessageController.ru_blockedUsers := ["b1"] |}.

(** One unread message from Alice to Bob. *)
Definition greeting : Message.doc :=
  {| Message._id := 1; Message.sender := "a1"; Message.receiver := "b1";
     Message.content := "Interested in your painting?";
     Message.conversationId := "a1_b1"; Message.timestamp := 3;
     Message.read := false; Message.readAt := None;
     Message.deleted := false; Message.deletedAt := None;
     Message.messageStatus := Message.Sent |}.

Definition oneUnread : world := set_messages (fun _ => [greeting]) start.

(** A message from Alice that Bob has read and that carries the status
    "read", as a writer other than this code may have left it in the
    collection. *)
Definition readLetter : Message.doc :=
  {| Message._id := 1; Message.sender := "a1"; Message.receiver := "b1";
     Message.content := "Interested in your painting?";
     Message.conversationId := "a1_b1"; Message.timestamp := 3;
     Message.read := true; Message.readAt := Some 4%nat;
     Message.deleted := false; Message.deletedAt := None;
     Message.messageStatus := Message.Read |}.

Definition oneRead : world := set_messages (fun _ => [readLetter]) start.

(** The message that a send of Alice to Bob creates in [oneRead], once it
    is upgraded. *)
Definition deliveredReply : Message.doc :=
  {| Message._id := 2; Message.sender := "a1"; Message.receiver := "b1";
     Message.content := "Is it still available?";
     Message.conversationId := "a1_b1"; Message.timestamp := 5;
     Message.read := false; Message.readAt := None;
     Message.deleted := false; Message.deletedAt := None;
     Message.messageStatus := Message.Delivered |}.

End Scenario.

(** ** Delivery status under interleaving

    Every handler runs to its next [await]; between two awaits of one
    handler, steps of other handlers may run.  The steps below are the
    operations of the core at that grain: each is one awaited operation on
    the Message collection, or a handler that awaits none between its reads
    and writes of the collection.

    [handleSendMessage] awaits twice: the create, and then the
    delivered-upgrade, which it makes on [result.message.id], the id that
    its own create returned, and on no other.  The state of a run
    therefore keeps, beside the collection, the ids that calls of
    [handleSendMessage] hold between their create and their upgrade. *)

Module Interleaving.
Import Runtime.
Local Open Scope string_scope.

Inductive op : Type :=
(* [messageService.sendMessage]: the create of a send *)
| Create (senderId receiverId content : string)
(* the delivered-upgrade of [handleSendMessage], by the call that holds
   the id *)
| DeliveredUpgrade (id : nat)
(* [messageService.markMessagesAsRead], the REST mark-as-read *)
| RestMarkRead (userId otherUserId : string)
(* [handleMarkAsRead], the socket mark-as-read *)
| SocketMarkRead (socket : socketUser) (otherUserId : option string)
(* [messageService.deleteMessage] *)
| SoftDelete (messageId : nat) (userId : string).

Record state : Type := mkState {
  store : world;
  (* the ids that creates have returned to calls which have not made
     their upgrade yet *)
  awaitingUpgrade : list nat
}.

(** No call of [handleSendMessage] is under way. *)
Definition idle (w : world) : state := mkState w [].

(** One step.  A delivered-upgrade on an id that no call holds is not a
    step of the code: it leaves the state as it is. *)
Definition step (o : op) (s : state) : state :=
  match o with
  | Create senderId receiverId content =>
      let (result, w') :=
        MessageService.sendMessage senderId receiverId content (store s) in
      match result with
      | Ok result =>
          mkState w' (sm_id (sr_message result) :: awaitingUpgrade s)
      | Throw _ => mkState w' (awaitingUpgrade s)
      end
  | DeliveredUpgrade id =>
      if existsb (Nat.eqb id) (awaitingUpgrade s)
      then mkState (snd (ChatHandler.markDelivered id (store s)))
                   (List.filter (fun held => negb (Nat.eqb held id))
                                (awaitingUpgrade s))
      else s
  | RestMarkRead u o' =>
      mkState (snd (MessageService.markMessagesAsRead u o' (store s)))
              (awaitingUpgrade s)
  | SocketMarkRead socket o' =>
      mkState (snd (ChatHandler.handleMarkAsRead socket o' (store s)))
              (awaitingUpgrade s)
  | SoftDelete id u =>
      mkState (snd (MessageService.deleteMessage id u (store s)))
              (awaitingUpgrade s)
  end.

(** An interleaving: the steps in the order in which they run. *)
Fixpoint run (ops : list op) (s : state) : state :=
  match ops with
  | [] => s
  | o :: ops' => run ops' (step o s)
  end.

(** [d'] is a later state of the document [d]: the same message, with a
    delivery status that is not earlier in the chain. *)
Definition advances (d d' : Message.doc) : Prop :=
  Message._id d' = Message._id d /\
  (Message.rank (Message.messageStatus d) <=
   Message.rank (Message.messageStatus d'))%nat.

(** The positions of the collection are kept and every document
    advances. *)
Definition extends (l l' : list Message.doc) : Prop :=
  forall (i : nat) (d : Message.doc),
    nth_error l i = Some d ->
    exists d', nth_error l' i = Some d' /\ advances d d'.

(** No message whose id a call holds for its upgrade carries the status
    "read". *)
Definition heldNotRead (s : state) : Prop :=
  forall d : Message.doc,
    In d (messages (store s)) ->
    In (Message._id d) (awaitingUpgrade s) ->
    Message.messageStatus d <> Message.Read.

End Interleaving.

(** Unfolding of the computations over the state. *)
Ltac exec_unfold :=
  unfold Runtime.socketEmit, Runtime.roomEmit in *;
  unfold Runtime.bind, Runtime.tryCatch, Runtime.ret, Runtime.throw,
    Runtime.gets, Runtime.modify in *.

(** Reduction of the projections and setters of the state, and of nothing
    else. *)
Ltac wsimpl :=
  cbn [fst snd negb andb orb
       Runtime.users Runtime.messages Runtime.now Runtime.patterns
       Runtime.onlineUsers Runtime.activeTyping Runtime.timers
       Runtime.nextTimer Runtime.emitted
       Runtime.set_users Runtime.set_messages Runtime.set_patterns
       Runtime.set_activeTyping Runtime.set_timers Runtime.set_nextTimer
       Runtime.add_emitted
       ChatHandler.receiverId ChatHandler.content] in *.

(* ===================================================================== *)
(** ** controllers/messageController.js: the unread count *)
(* ===================================================================== *)

Module UnreadCount.
Import Runtime.
Local Open Scope string_scope.

Local Notation "x <- m ;; k" := (bind m (fun x => k))
  (at level 100, m at next level, right associativity).

(** The filter [{ receiver: userId, read: false, deleted: { $ne: true } }]
    of [getUnreadCount] *)
Definition unreadFor (userId : string) (d : Message.doc) : bool :=
  String.eqb (Message.receiver d) userId &&
  negb (Message.read d) && negb (Message.deleted d).

(** What [getUnreadCount] ends in: the count with status 200, or
    [next(error)]. *)
Inductive countResponse : Type :=
| CountJson (status : nat) (unreadCount : nat)
| CountNext (e : exn).

Definition getUnreadCount (user : MessageController.reqUser)
  : Exec countResponse :=
  tryCatch
    (unreadCount <- gets (fun w =>
                      countDocuments
                        (unreadFor (MessageController.ru_id user))
                        (messages w)) ;;
     ret (CountJson 200 unreadCount))
    (fun error => ret (CountNext error)).

(** The document that [messageService.sendMessage] creates in the state
    [w]. *)
Definition created (s r c : string) (w : world) : Message.doc :=
  {| Message._id := freshId (messages w);
     Message.sender := s;
     Message.receiver := r;
     Message.content :=
       JsString.trim (MessageService.filterMessageContent c);
     Message.conversationId := Message.createConversationId s r;
     Message.timestamp := now w;
     Message.read := false;
     Message.readAt := None;
     Message.deleted := false;
     Message.deletedAt := None;
     Message.messageStatus := Message.Sent |}.

End UnreadCount.

(* ===================================================================== *)
(** ** sockets/chatHandler.js: conversation rooms and disconnect

    [userRooms] and the events [conversation_joined] and
    [conversation_left] are kept beside the state of the other handlers. *)
(* ===================================================================== *)

Module ChatRooms.
Import JsString Runtime.
Local Open Scope string_scope.

(** The events that [joinConversation] and [leaveConversation] emit on the
    caller's connection. *)
Inductive roomEvent : Type :=
| conversation_joined (conversationId otherUserId roomName : string)
| conversation_left (conversationId otherUserId : string).

Record state : Type := mkState {
  base : world;
  userRooms : gmap string (gset string);     (* chatHandler.userRooms *)
  roomEmitted : list (string * roomEvent)    (* by the caller's user id *)
}.

Definition set_base (f : world -> world) (s : state) : state :=
  mkState (f (base s)) (userRooms s) (roomEmitted s).

Definition set_userRooms
           (f : gmap string (gset string) -> gmap string (gset string))
           (s : state) : state :=
  mkState (base s) (f (userRooms s)) (roomEmitted s).

Definition add_roomEmitted (e : string * roomEvent) (s : state) : state :=
  mkState (base s) (userRooms s) (roomEmitted s ++ [e]).

(** `conversation_${conversationId}` *)
Definition roomName (userId otherUserId : string) : string :=
  "conversation_" +:+ Message.createConversationId userId otherUserId.

(** [joinConversation].  Nothing in its [try] block throws. *)
Definition joinConversation (socket : socketUser)
           (otherUserId : option string) (s : state) : state :=
  match otherUserId with
  | Some otherUserId =>
      if String.eqb otherUserId "" || String.eqb otherUserId (su_id socket)
      then set_base (add_emitted (ToSocket (su_id socket),
                                  error "Invalid conversation data")) s
      else
        let conversationId :=
          Message.createConversationId (su_id socket) otherUserId in
        let roomName := "conversation_" +:+ conversationId in
        let s :=
          match userRooms s !! su_id socket with
          | None => set_userRooms (insert (su_id socket) ∅) s
          | Some _ => s
          end in
        let s :=
          set_userRooms
            (alter (fun rooms => rooms ∪ {[roomName]}) (su_id socket)) s in
        add_roomEmitted
          (su_id socket,
           conversation_joined conversationId otherUserId roomName) s
  | None =>
      set_base (add_emitted (ToSocket (su_id socket),
                             error "Invalid conversation data")) s
  end.

(** [leaveConversation]; it calls [stopTyping] without the server. *)
Definition leaveConversation (socket : socketUser)
           (otherUserId : option string) (s : state) : state :=
  match otherUserId with
  | Some otherUserId =>
      if String.eqb otherUserId "" then s
      else
        let conversationId :=
          Message.createConversationId (su_id socket) otherUserId in
        let roomName := "conversation_" +:+ conversationId in
        let s :=
          set_userRooms
            (alter (fun rooms => rooms ∖ {[roomName]}) (su_id socket)) s in
        let s :=
          set_base
            (fun w => snd (ChatHandler.stopTyping socket (Some otherUserId)
                             None w)) s in
        add_roomEmitted
          (su_id socket, conversation_left conversationId otherUserId) s
  | None => s
  end.

(** One turn of the loop of [cleanupUserRooms] over the entries of
    [activeTyping]. *)
Definition cleanupEntry (userId : string) (w : world)
           (entry : string * nat) : world :=
  let (key, timeout) := entry in
  if String.prefix (userId +:+ "_") key
  then set_activeTyping (delete key) (set_timers (delete timeout) w)
  else w.

(** [cleanupUserRooms], called when the connection closes. *)
Definition cleanupUserRooms (socket : socketUser) (s : state) : state :=
  let userId := su_id socket in
  let s :=
    set_base
      (fun w => fold_left (cleanupEntry userId)
                  (map_to_list (activeTyping w)) w) s in
  set_userRooms (delete userId) s.

(** What [getConversationStats] returns. *)
Record stats : Type := {
  totalMessages : nat;
  totalConversations : nat;
  activeUsers : nat;
  activeTypingCount : nat;
  statsTimestamp : nat
}.

(** [Message.distinct(field)]: the values of the field, each once. *)
Fixpoint distinct (l : list string) : list string :=
  match l with
  | [] => []
  | x :: l' =>
      if existsb (String.eqb x) l' then distinct l' else x :: distinct l'
  end.

Definition getConversationStats (s : state) : stats :=
  {| totalMessages :=
       countDocuments (fun d => negb (Message.deleted d))
                      (messages (base s));
     totalConversations :=
       length (distinct (List.map Message.conversationId
                                  (messages (base s))));
     activeUsers := size (userRooms s);
     activeTypingCount := size (activeTyping (base s));
     statsTimestamp := now (base s) |}.

End ChatRooms.

(* ===================================================================== *)
(** ** sockets/onlineHandler.js

    The presence tracker.  Dates are milliseconds; the date of a call is an
    argument.  Each method is one step: what other handlers do between its
    awaits is not interleaved here. *)
(* ===================================================================== *)

Module OnlineHandler.
Import Runtime.
Local Open Scope string_scope.

(** A connection: [socket.id] and [socket.user]. *)
Record socket : Type := {
  socket_id : string;
  socket_user : socketUser
}.

(** A value of the map [onlineUsers]. *)
Record userInfo : Type := {
  userId : string;
  username : string;
  role : User.role;
  socketId : string;
  connectedAt : Z;
  lastActivity : Z
}.

(** A document of the User collection, with the two fields that the tracker
    writes. *)
Record dbUser : Type := {
  doc : User.doc;
  isOnline : bool;
  lastSeen : Z
}.

Inductive statusEvent : Type :=
| user_status_change (userId username : string) (role : User.role)
    (isOnline : bool) (timestamp : Z)
| force_disconnect (reason : string) (timestamp : Z).

Record state : Type := mkState {
  onlineUsers : gmap string userInfo;   (* by user id *)
  userSockets : gmap string string;     (* socket id to user id *)
  dbUsers : gmap string dbUser;         (* the User collection, by id *)
  dbMessages : list Message.doc;        (* the Message collection *)
  statusEmitted : list (string * statusEvent)  (* io.to(room).emit, by room *)
}.

Definition set_onlineUsers
           (f : gmap string userInfo -> gmap string userInfo) (s : state)
  : state :=
  mkState (f (onlineUsers s)) (userSockets s) (dbUsers s) (dbMessages s)
          (statusEmitted s).

Definition set_userSockets
           (f : gmap string string -> gmap string string) (s : state)
  : state :=
  mkState (onlineUsers s) (f (userSockets s)) (dbUsers s) (dbMessages s)
          (statusEmitted s).

Definition set_dbUsers
           (f : gmap string dbUser -> gmap string dbUser) (s : state)
  : state :=
  mkState (onlineUsers s) (userSockets s) (f (dbUsers s)) (dbMessages s)
          (statusEmitted s).

Definition add_statusEmitted (e : string * statusEvent) (s : state) : state :=
  mkState (onlineUsers s) (userSockets s) (dbUsers s) (dbMessages s)
          (statusEmitted s ++ [e]).

(** [User.findByIdAndUpdate(userId, { isOnline, lastSeen })]: nothing
    happens when there is no such document. *)
Definition updateStatus (userId : string) (online : bool) (seen : Z)
  : state -> state :=
  set_dbUsers
    (alter (fun u => {| doc := doc u; isOnline := online;
                        lastSeen := seen |}) userId).

(** [Message.distinct(field, filter)]: the values of the field over the
    matching documents, each value once. *)
Definition distinctField (field : Message.doc -> string)
           (filter : Message.doc -> bool) (msgs : list Message.doc)
  : list string :=
  ChatRooms.distinct (List.map field (List.filter filter msgs)).

(** [broadcastUserStatus].  The two [distinct] results are arrays of
    ObjectId objects; the [Set] built from them compares objects by
    identity, so it keeps every element of both arrays. *)
Definition broadcastUserStatus (userId : string) (online : bool) (date : Z)
           (s : state) : state :=
  match dbUsers s !! userId with
  | None => s
  | Some user =>
      let conversationPartners :=
        distinctField Message.sender
          (fun d => String.eqb (Message.receiver d) userId) (dbMessages s) in
      let conversationPartners2 :=
        distinctField Message.receiver
          (fun d => String.eqb (Message.sender d) userId) (dbMessages s) in
      let allPartners :=
        (conversationPartners ++ conversationPartners2)%list in
      fold_left
        (fun s partnerId =>
           if negb (String.eqb partnerId userId)
           then add_statusEmitted
                  ("user_" +:+ partnerId,
                   user_status_change userId (User.username (doc user))
                     (User.role_of (doc user)) online date) s
           else s)
        allPartners s
  end.

(** [userConnected]; [setupActivityTracking], which it calls last, makes
    later events of the connection call [updateUserActivity]. *)
Definition userConnected (sock : socket) (date : Z) (s : state) : state :=
  let userId := su_id (socket_user sock) in
  let username := su_username (socket_user sock) in
  let s :=
    set_onlineUsers
      (insert userId
         {| userId := userId; username := username;
            role := su_role (socket_user sock);
            socketId := socket_id sock;
            connectedAt := date; lastActivity := date |}) s in
  let s := set_userSockets (insert (socket_id sock) userId) s in
  let s := updateStatus userId true date s in
  broadcastUserStatus userId true date s.

Definition userDisconnected (sock : socket) (date : Z) (s : state) : state :=
  let userId := su_id (socket_user sock) in
  let s := set_onlineUsers (delete userId) s in
  let s := set_userSockets (delete (socket_id sock)) s in
  let s := updateStatus userId false date s in
  broadcastUserStatus userId false date s.

Definition updateUserActivity (userId : string) (date : Z) (s : state)
  : state :=
  match onlineUsers s !! userId with
  | Some userInfo =>
      set_onlineUsers
        (insert userId
           {| userId := OnlineHandler.userId userInfo;
              username := username userInfo; role := role userInfo;
              socketId := socketId userInfo;
              connectedAt := connectedAt userInfo;
              lastActivity := date |}) s
  | None => s
  end.

Definition isUserOnline (userId : string) (s : state) : bool :=
  bool_decide (is_Some (onlineUsers s !! userId)).

Definition getOnlineUserInfo (userId : string) (s : state)
  : option userInfo :=
  onlineUsers s !! userId.

Definition getUserSocketId (userId : string) (s : state) : option string :=
  socketId <$> (onlineUsers s !! userId).

Definition areUsersOnline (userId1 userId2 : string) (s : state) : bool :=
  isUserOnline userId1 s && isUserOnline userId2 s.

Definition getOnlineUsersByRole (r : User.role) (s : state)
  : list userInfo :=
  List.filter (fun user => User.role_eqb (role user) r)
              (map_to_list (onlineUsers s)).*2.

(** 30 minutes *)
Definition inactiveThreshold : Z := (30 * 60 * 1000)%Z.

(** One turn of the loop of [cleanupInactiveUsers]. *)
Definition cleanupOne (date : Z) (s : state) (entry : string * userInfo)
  : state :=
  let (userId, userInfo) := entry in
  if (inactiveThreshold <? date - lastActivity userInfo)%Z
  then updateStatus userId false (lastActivity userInfo)
         (set_onlineUsers (delete userId) s)
  else s.

Definition cleanupInactiveUsers (date : Z) (s : state) : state :=
  fold_left (cleanupOne date) (map_to_list (onlineUsers s)) s.

(** What [getOnlineStats] returns; in [usersByRole] a role that is not a
    key of the object counts 0. *)
Record onlineStats : Type := {
  totalOnline : nat;
  artists : nat;
  buyers : nat;
  admins : nat;
  usersByRole : User.role -> nat
}.

Definition countRole (stats : onlineStats) (userInfo : userInfo)
  : onlineStats :=
  {| totalOnline := totalOnline stats;
     artists := match role userInfo with
                | User.artist => S (artists stats) | _ => artists stats end;
     buyers := match role userInfo with
               | User.buyer => S (buyers stats) | _ => buyers stats end;
     admins := match role userInfo with
               | User.admin => S (admins stats) | _ => admins stats end;
     usersByRole :=
       fun r => if User.role_eqb r (role userInfo)
                then S (usersByRole stats r) else usersByRole stats r |}.

Definition getOnlineStats (s : state) : onlineStats :=
  fold_left countRole (map_to_list (onlineUsers s)).*2
    {| totalOnline := size (onlineUsers s);
       artists := 0%nat; buyers := 0%nat; admins := 0%nat;
       usersByRole := fun _ => 0%nat |}.

(** [forceDisconnectUser]: the new state and the returned boolean. *)
Definition forceDisconnectUser (userId reason : string) (date : Z)
           (s : state) : bool * state :=
  if isUserOnline userId s
  then
    let s := add_statusEmitted
               ("user_" +:+ userId, force_disconnect reason date) s in
    let s := set_onlineUsers (delete userId) s in
    (true, updateStatus userId false date s)
  else (false, s).

(** 5 minutes *)
Definition activeThreshold : Z := (5 * 60 * 1000)%Z.

Definition isUserActive (userId : string) (date : Z) (s : state) : bool :=
  match onlineUsers s !! userId with
  | None => false
  | Some userInfo => (date - lastActivity userInfo <? activeThreshold)%Z
  end.

Definition getUserOnlineDuration (userId : string) (date : Z) (s : state)
  : Z :=
  match onlineUsers s !! userId with
  | None => 0%Z
  | Some userInfo => (date - connectedAt userInfo)%Z
  end.

(** The users that [broadcastUserStatus] addresses for [uid], in the order
    of the events: the senders of messages to [uid], then the receivers of
    messages from [uid], without [uid]. *)
Definition partnersOf (uid : string) (msgs : list Message.doc)
  : list string :=
  List.filter (fun p => negb (String.eqb p uid))
    (distinctField Message.sender
       (fun d => String.eqb (Message.receiver d) uid) msgs ++
     distinctField Message.receiver
       (fun d => String.eqb (Message.sender d) uid) msgs).

End OnlineHandler.

(* ===================================================================== *)
(** * Properties *)
(* ===================================================================== *)

(** ** Conversation identifiers *)

Module ConversationIdFacts.
Import JsString Message.
Local Open Scope string_scope.

Lemma code_inj (x y : ascii) : code x = code y -> x = y.
Proof.
  unfold code. intros H.
  rewrite <- (ascii_nat_embedding x), <- (ascii_nat_embedding y).
  now rewrite H.
Qed.

Lemma ltb_irrefl (a : string) : ltb a a = false.
Proof.
  induction a as [|x a IH]; simpl; [reflexivity|].
  now rewrite Nat.ltb_irrefl.
Qed.

Lemma ltb_asym (a b : string) : ltb a b = true -> ltb b a = false.
Proof.
  revert b. induction a as [|x a IH]; intros [|y b]; simpl; try easy.
  destruct (Nat.ltb_spec (code x) (code y)) as [Hxy|Hxy].
  - intros _. destruct (Nat.ltb_spec (code y) (code x)); [lia|].
    destruct (Nat.ltb_spec (code x) (code y)); [easy|lia].
  - destruct (Nat.ltb_spec (code y) (code x)) as [Hyx|Hyx]; [easy|].
    apply IH.
Qed.

Lemma ltb_total (a b : string) :
  ltb a b = false -> ltb b a = false -> a = b.
Proof.
  revert b. induction a as [|x a IH]; intros [|y b]; simpl; try easy.
  destruct (Nat.ltb_spec (code x) (code y)) as [Hxy|Hxy]; [easy|].
  destruct (Nat.ltb_spec (code y) (code x)) as [Hyx|Hyx]; [easy|].
  intros Hab Hba.
  assert (x = y) as -> by (apply code_inj; lia).
  f_equal. now apply IH.
Qed.

(** The two-element sort of [createConversationId]. *)
Lemma sort_pair (a b : string) :
  sort [a; b] = if ltb b a then [b; a] else [a; b].
Proof. reflexivity. Qed.

Lemma sort_pair_comm (a b : string) : sort [a; b] = sort [b; a].
Proof.
  rewrite !sort_pair.
  destruct (ltb b a) eqn:Hba.
  - now rewrite (ltb_asym _ _ Hba).
  - destruct (ltb a b) eqn:Hab; [reflexivity|].
    now rewrite (ltb_total _ _ Hab Hba).
Qed.

End ConversationIdFacts.

(** C9. [createConversationId] is a function of its two arguments alone; it
    gives the same identifier in both argument orders, and that identifier
    is the two ids in ascending lexicographic order, joined by one
    underscore. *)
Theorem createConversationId_commutative_sorted (a b : string) :
  Message.createConversationId a b = Message.createConversationId b a /\
  exists lo hi : string,
    ((lo = a /\ hi = b) \/ (lo = b /\ hi = a)) /\
    JsString.ltb hi lo = false /\
    Message.createConversationId a b = (lo +:+ "_" +:+ hi)%string.
Proof.
  unfold Message.createConversationId. split.
  - now rewrite ConversationIdFacts.sort_pair_comm.
  - rewrite ConversationIdFacts.sort_pair.
    destruct (JsString.ltb b a) eqn:Hba.
    + exists b, a. repeat split; auto.
      now apply ConversationIdFacts.ltb_asym.
    + exists a, b. repeat split; auto.
Qed.

(** ** The content safety analyzer *)

Module AnalyzerFacts.
Import JsString ContentFilter AnalyzerSpec.
Local Open Scope string_scope.

Lemma checkPhrases_length (phrases : list string) (lc : string)
      (vs : list string) :
  length (checkPhrases phrases lc vs) =
  (length vs + length (List.filter (includes lc) phrases))%nat.
Proof.
  revert vs. induction phrases as [|p ps IH]; intros vs; simpl.
  - lia.
  - rewrite IH. destruct (includes lc p); simpl.
    + rewrite length_app. simpl. lia.
    + lia.
Qed.

Lemma checkPlatforms_length (keys : list patternKey) (content : string)
      (vs : list string) (st : lastIndexes) :
  (length vs <= length (fst (checkPlatforms keys content vs st))
             <= length vs + length keys)%nat.
Proof.
  revert vs st. induction keys as [|k ks IH]; intros vs st; simpl.
  - lia.
  - unfold bind, testPattern.
    destruct (Regex.testGlobal (CONTACT_PATTERNS k) (st k) content)
      as [found li].
    destruct found;
      match goal with
      | |- context [checkPlatforms ks content ?v ?s] => specialize (IH v s)
      end;
      [rewrite length_app in IH; simpl in IH|]; lia.
Qed.

Lemma pushIf_length (b : bool) (v : string) (vs : list string) :
  (length vs <= length (pushIf b v vs) <= S (length vs))%nat.
Proof. destruct b; simpl; [rewrite length_app; simpl|]; lia. Qed.

(** The violations list has one entry per matching regex test, of which
    there are eleven, and one entry per contact phrase contained. *)
Lemma validate_length (content : string) (st : lastIndexes) :
  exists n : nat,
    (n <= 11)%nat /\
    length (violations (fst (validateMessageContent content st))) =
    (n + length (phrasesFound content))%nat.
Proof.
  unfold validateMessageContent, bind, testPattern, ret, phrasesFound.
  destruct (Regex.testGlobal (CONTACT_PATTERNS email) _ content)
    as [e li1].
  destruct (Regex.testGlobal (CONTACT_PATTERNS phone) _ content)
    as [p li2].
  destruct (Regex.testGlobal (CONTACT_PATTERNS url) _ content)
    as [u li3].
  destruct (Regex.testGlobal (CONTACT_PATTERNS socialHandle) _ content)
    as [h li4].
  set (v1 := pushIf e "Email addresses are not allowed" []).
  set (v2 := pushIf p "Phone numbers are not allowed" v1).
  set (v3 := pushIf u "URLs and links are not allowed" v2).
  set (v4 := pushIf h "Social media handles are not allowed" v3).
  pose proof (pushIf_length e "Email addresses are not allowed" []) as H1.
  pose proof (pushIf_length p "Phone numbers are not allowed" v1) as H2.
  pose proof (pushIf_length u "URLs and links are not allowed" v2) as H3.
  pose proof (pushIf_length h "Social media handles are not allowed" v3)
    as H4.
  fold v1 in H1. fold v2 in H2. fold v3 in H3. fold v4 in H4.
  change (length (@nil string)) with O in H1.
  match goal with
  | |- context [checkPlatforms platformKeys content v4 ?s] =>
      pose proof (checkPlatforms_length platformKeys content v4 s) as HP;
      destruct (checkPlatforms platformKeys content v4 s) as [vs' st']
  end.
  change (length platformKeys) with 7%nat in HP.
  cbn [fst violations] in *.
  exists (length vs'). split; [lia|].
  apply checkPhrases_length.
Qed.

Lemma checkPhrases_eq (phrases : list string) (lc : string)
      (vs : list string) :
  checkPhrases phrases lc vs =
  (vs ++ repeat "Requests for direct contact are not allowed"
           (length (List.filter (includes lc) phrases)))%list.
Proof.
  revert vs. induction phrases as [|p ps IH]; intros vs;
    cbn [checkPhrases List.filter].
  - cbn [length repeat]. now rewrite app_nil_r.
  - rewrite IH. destruct (includes lc p); [|reflexivity].
    cbn [length repeat]. now rewrite <- List.app_assoc.
Qed.

Lemma patternKey_eqb_neq (k k' : patternKey) :
  k <> k' -> patternKey_eqb k k' = false.
Proof. destruct k, k'; intros H; (reflexivity || congruence). Qed.

(** A test moves the [lastIndex] of its own regex object only. *)
Lemma reportsMatch_setLastIndex (content : string) (st : lastIndexes)
      (k k' : patternKey) (li : nat) :
  k <> k' ->
  reportsMatch content (setLastIndex k li st) k' = reportsMatch content st k'.
Proof.
  intros H. unfold reportsMatch, setLastIndex.
  now rewrite (patternKey_eqb_neq k k' H).
Qed.

(** The loop over the platform names pushes one entry for each test that
    reports a match. *)
Lemma checkPlatforms_eq (keys : list patternKey) (content : string)
      (vs : list string) (st : lastIndexes) :
  List.NoDup keys ->
  fst (checkPlatforms keys content vs st) =
  (vs ++ List.map
           (fun platform =>
              "References to " +:+ keyName platform +:+ " are not allowed")
           (List.filter (reportsMatch content st) keys))%list.
Proof.
  revert vs st. induction keys as [|k ks IH]; intros vs st Hnd;
    cbn [checkPlatforms List.filter].
  - cbn [ret fst List.map]. now rewrite app_nil_r.
  - apply List.NoDup_cons_iff in Hnd as [Hk Hnd].
    unfold bind, testPattern. unfold reportsMatch at 1.
    destruct (Regex.testGlobal (CONTACT_PATTERNS k) (st k) content)
      as [found li].
    rewrite IH by exact Hnd. cbn [fst].
    rewrite (List.filter_ext_in
               (reportsMatch content (setLastIndex k li st))
               (reportsMatch content st)).
    + destruct found; [|reflexivity].
      cbn [List.map]. now rewrite <- List.app_assoc.
    + intros k' Hin. apply reportsMatch_setLastIndex.
      intros ->. exact (Hk Hin).
Qed.

(** The violations list of a call, entry by entry: one entry for each
    regex test that reports a match, in the order of the tests, then one
    entry for each contact phrase that the lower-cased text contains. *)
Lemma validate_violations (content : string) (st : lastIndexes) :
  violations (fst (validateMessageContent content st)) =
  (List.map violationOf (List.filter (reportsMatch content st) regexTests)
   ++ repeat "Requests for direct contact are not allowed"
        (length (phrasesFound content)))%list.
Proof.
  change regexTests
    with ([email; phone; url; socialHandle] ++ platformKeys)%list.
  rewrite List.filter_app, List.map_app.
  unfold validateMessageContent, bind, testPattern, ret, phrasesFound.
  destruct (Regex.testGlobal (CONTACT_PATTERNS email) (st email) content)
    as [e li1] eqn:He.
  cbn [setLastIndex patternKey_eqb].
  destruct (Regex.testGlobal (CONTACT_PATTERNS phone) (st phone) content)
    as [p li2] eqn:Hp.
  cbn [setLastIndex patternKey_eqb].
  destruct (Regex.testGlobal (CONTACT_PATTERNS url) (st url) content)
    as [u li3] eqn:Hu.
  cbn [setLastIndex patternKey_eqb].
  destruct (Regex.testGlobal (CONTACT_PATTERNS socialHandle)
              (st socialHandle) content) as [h li4] eqn:Hh.
  assert (reportsMatch content st email = e) as Re
      by (unfold reportsMatch; now rewrite He).
  assert (reportsMatch content st phone = p) as Rp
      by (unfold reportsMatch; now rewrite Hp).
  assert (reportsMatch content st url = u) as Ru
      by (unfold reportsMatch; now rewrite Hu).
  assert (reportsMatch content st socialHandle = h) as Rh
      by (unfold reportsMatch; now rewrite Hh).
  match goal with
  | |- context [checkPlatforms platformKeys content ?v ?s] =>
      pose proof (checkPlatforms_eq platformKeys content v s) as HP;
      destruct (checkPlatforms platformKeys content v s) as [vs' st']
  end.
  cbn [fst violations] in *.
  rewrite checkPhrases_eq, HP; clear HP.
  - rewrite (List.filter_ext_in _ (reportsMatch content st) platformKeys).
    + assert (List.map violationOf
                (List.filter (reportsMatch content st) platformKeys)
              = List.map
                  (fun platform =>
                     "References to " +:+ keyName platform
                     +:+ " are not allowed")
                  (List.filter (reportsMatch content st) platformKeys))
        as ->.
      { apply List.map_ext_in. intros k Hin.
        apply List.filter_In in Hin as [Hin _].
        cbn [platformKeys In] in Hin.
        repeat (destruct Hin as [<-|Hin]; [reflexivity|]). destruct Hin. }
      cbn [List.filter]. rewrite Re, Rp, Ru, Rh. unfold pushIf.
      destruct e, p, u, h; cbn [List.map violationOf app];
        rewrite <- ?List.app_assoc; reflexivity.
    + intros k Hin. rewrite !reportsMatch_setLastIndex; [reflexivity|..];
        intros <-; cbn [platformKeys In] in Hin; intuition discriminate.
  - unfold platformKeys.
    repeat (apply List.NoDup_cons; [cbn [In]; intuition discriminate|]).
    apply List.NoDup_nil.
Qed.

Lemma profanityCount_le : forall content, (profanityCount content <= 2)%nat.
Proof.
  intros content. unfold profanityCount, PROFANITY_WORDS. simpl.
  repeat match goal with
         | |- context [if ?b then _ else _] => destruct b
         end; simpl; lia.
Qed.

End AnalyzerFacts.

(** C5, as the code has it.  For every text and every state of the shared
    regex objects, the score is 100, minus 20 per entry of the violations
    list, minus 15 per listed profane word that a fresh whole-word test finds,
    minus 25 if one of the four creative-evasion patterns matches, floored at
    0.  The violations list is given entry by entry: one entry for each of
    the eleven regex tests (email, phone, URL, social handle and the seven
    named platforms) that reports a match in this call, in the order of the
    tests, followed by one entry for each contact phrase that the
    lower-cased text contains; its length is the number of those tests plus
    the number of those phrases.  The score lies between 0 and 100 and the
    result is acceptable exactly when the score is at least 70. *)
Theorem analyzeContentSafety_score
        (content : string) (st : ContentFilter.lastIndexes) :
  let a := fst (ContentFilter.analyzeContentSafety content st) in
  ContentFilter.safetyScore a =
    Z.max 0
      (100 - 20 * Z.of_nat (length (ContentFilter.analysisViolations a))
           - 15 * Z.of_nat
                    (length
                       (List.filter
                          (fun word =>
                             Regex.testFresh
                               (ContentFilter.profanityRegex word) content)
                          ContentFilter.PROFANITY_WORDS))
           - (if existsb (fun pattern => Regex.testFresh pattern content)
                         ContentFilter.suspiciousPatterns
              then 25 else 0)) /\
  ContentFilter.analysisViolations a =
    ContentFilter.violations
      (fst (ContentFilter.validateMessageContent content st)) /\
  ContentFilter.analysisViolations a =
    (List.map AnalyzerSpec.violationOf
       (List.filter (AnalyzerSpec.reportsMatch content st)
                    AnalyzerSpec.regexTests)
     ++ repeat "Requests for direct contact are not allowed"%string
          (length (AnalyzerSpec.phrasesFound content)))%list /\
  length (ContentFilter.analysisViolations a) =
    (length (List.filter (AnalyzerSpec.reportsMatch content st)
                         AnalyzerSpec.regexTests)
     + length (AnalyzerSpec.phrasesFound content))%nat /\
  0 <= ContentFilter.safetyScore a <= 100 /\
  (ContentFilter.isAcceptable a = true <-> 70 <= ContentFilter.safetyScore a).
Proof.
  pose proof (AnalyzerFacts.validate_violations content st) as HV.
  change (length
            (List.filter
               (fun word =>
                  Regex.testFresh (ContentFilter.profanityRegex word) content)
               ContentFilter.PROFANITY_WORDS))
    with (ContentFilter.profanityCount content).
  change (existsb (fun pattern => Regex.testFresh pattern content)
                  ContentFilter.suspiciousPatterns)
    with (ContentFilter.detectSuspiciousPatterns content).
  unfold ContentFilter.analyzeContentSafety, ContentFilter.bind,
    ContentFilter.ret.
  destruct (ContentFilter.validateMessageContent content st) as [v st'].
  cbv zeta.
  cbn [fst ContentFilter.safetyScore ContentFilter.isAcceptable
       ContentFilter.analysisViolations] in *.
  split; [|split; [|split; [|split; [|split]]]].
  - f_equal. destruct (ContentFilter.detectSuspiciousPatterns content); lia.
  - reflexivity.
  - exact HV.
  - rewrite HV, length_app, length_map, repeat_length. reflexivity.
  - destruct (ContentFilter.detectSuspiciousPatterns content); lia.
  - apply Z.leb_le.
Qed.

(** C5, counterexample.  The text "email me off this platform" contains two
    contact phrases and nothing else: one category of violation.  The
    specification's wording gives 80, an acceptable message; the analyzer
    returns 60 and rejects it. *)
Lemma analyzeContentSafety_counts_entries_not_categories :
  let a := fst (ContentFilter.analyzeContentSafety
                  "email me off this platform" ContentFilter.moduleLoaded) in
  AnalyzerSpec.distinctCategories (ContentFilter.analysisViolations a) = 1%nat
  /\ AnalyzerSpec.specScore a "email me off this platform" = 80
  /\ ContentFilter.safetyScore a = 60
  /\ ContentFilter.isAcceptable a = false
  /\ ContentFilter.safetyScore a <>
     AnalyzerSpec.specScore a "email me off this platform".
Proof. vm_compute. repeat split; congruence. Qed.

(** C10, evaluated.  The same text analysed twice in a row, starting from
    the freshly loaded module: the first analysis detects an email address
    and a social handle and rejects the text with score 60; the second,
    which starts where the first left the [lastIndex] of the shared regex
    objects, detects nothing and accepts it with score 100. *)
Theorem analyzeContentSafety_twice_differs :
  let first := ContentFilter.analyzeContentSafety "a@b.co"
                 ContentFilter.moduleLoaded in
  let second := ContentFilter.analyzeContentSafety "a@b.co" (snd first) in
  ContentFilter.safetyScore (fst first) = 60 /\
  ContentFilter.isAcceptable (fst first) = false /\
  ContentFilter.analysisViolations (fst first) =
    ["Email addresses are not allowed";
     "Social media handles are not allowed"]%string /\
  ContentFilter.safetyScore (fst second) = 100 /\
  ContentFilter.isAcceptable (fst second) = true /\
  ContentFilter.analysisViolations (fst second) = [].
Proof. vm_compute. repeat split; reflexivity. Qed.

(** ** The entry points *)

Module SendFacts.
Import Runtime ChatHandler.
Local Open Scope string_scope.

(** On the socket path a text that the analyzer does not accept is never
    stored, whatever the rest of the request. *)
Lemma handleSendMessage_unacceptable_not_stored
      (socket : socketUser) (rid text : string) (w : world) :
  ContentFilter.isAcceptable
    (fst (ContentFilter.analyzeContentSafety text (patterns w))) = false ->
  messages (snd (handleSendMessage socket
                   {| receiverId := Some rid; content := Some text |} w))
  = messages w.
Proof.
  intros Hrej. unfold handleSendMessage, analyzeContentSafety. exec_unfold.
  wsimpl.
  destruct (String.eqb rid "" || String.eqb text "" ||
            String.eqb rid (su_id socket)); wsimpl; [reflexivity|].
  destruct (users w !! rid) as [receiver|]; wsimpl; [|reflexivity].
  destruct (User.role_eqb _ _); wsimpl; [reflexivity|].
  destruct (User.includes _ _); wsimpl; [reflexivity|].
  destruct (ContentFilter.analyzeContentSafety text (patterns w))
    as [a st].
  wsimpl. rewrite Hrej. reflexivity.
Qed.

(** When the request passes the checks that come before the analysis, the
    sender is sent the violations and nothing else happens. *)
Lemma handleSendMessage_unacceptable_reports
      (socket : socketUser) (rid text : string) (receiver : User.doc)
      (w : world) :
  rid <> "" -> text <> "" -> rid <> su_id socket ->
  users w !! rid = Some receiver ->
  User.role_eqb (su_role socket) (User.role_of receiver) = false ->
  User.includes (User.blockedUsers receiver) (su_id socket) = false ->
  let '(a, st) := ContentFilter.analyzeContentSafety text (patterns w) in
  ContentFilter.isAcceptable a = false ->
  snd (handleSendMessage socket
         {| receiverId := Some rid; content := Some text |} w)
  = add_emitted
      (ToSocket (su_id socket),
       message_error "Message contains prohibited content"
         (Some (ContentFilter.analysisViolations a)))
      (set_patterns st w).
Proof.
  intros Hr Ht Hs Hu Hrole Hblk.
  destruct (ContentFilter.analyzeContentSafety text (patterns w))
    as [a st] eqn:Ha.
  intros Hrej.
  apply String.eqb_neq in Hr, Ht, Hs.
  unfold handleSendMessage, analyzeContentSafety. exec_unfold. wsimpl.
  rewrite Hr, Ht, Hs. wsimpl. rewrite Hu, Hrole, Hblk, Ha. wsimpl.
  rewrite Hrej. reflexivity.
Qed.

End SendFacts.

(** C1, evaluated on the REST entry point.  The analyzer scores the text
    "reach me at a@b.com" 40, below the threshold.  [POST /send] with that
    text, from an artist to a verified buyer who has not blocked her, is
    answered 201 and a message document is stored with the redacted text:
    the controller never runs the analyzer. *)
Theorem rest_send_stores_unacceptable_text :
  let text := "reach me at a@b.com"%string in
  ContentFilter.safetyScore
    (fst (ContentFilter.analyzeContentSafety text
            (Runtime.patterns Scenario.start))) = 40 /\
  exists r w',
    MessageController.postSend Scenario.aliceReq "b1" text Scenario.start
      = (Runtime.Ok (MessageController.Json 201 "Message sent successfully"
                       (Some r)), w') /\
    List.map Message.content (Runtime.messages w') =
      ["reach me at [CONTACT INFO REMOVED]"%string] /\
    Runtime.messages (snd (ChatHandler.handleSendMessage Scenario.alice
       {| ChatHandler.receiverId := Some "b1"%string;
          ChatHandler.content := Some text |} Scenario.start)) = [].
Proof.
  split; [vm_compute; reflexivity|].
  eexists. eexists. split; [vm_compute; reflexivity|].
  split; vm_compute; reflexivity.
Qed.

Module BlockFacts.
Import Runtime ChatHandler.
Local Open Scope string_scope.

(** [block_user] on the socket reads no role: when the caller has not yet
    blocked the target, the target is added to the caller's block list
    and both events are emitted. *)
Lemma handleBlockUser_blocks
      (socket : socketUser) (target : string) (u : User.doc) (w : world) :
  target <> "" -> target <> su_id socket ->
  users w !! su_id socket = Some u ->
  User.includes (User.blockedUsers u) target = false ->
  snd (handleBlockUser socket (Some target) w)
  = add_emitted
      (ToRoom ("user_" +:+ target),
       conversation_blocked (su_id socket)
         (Message.createConversationId (su_id socket) target))
      (add_emitted
         (ToSocket (su_id socket),
          user_block_toggled target "blocked"
            (User.blockedUsers u ++ [target]))
         (set_users
            (insert (su_id socket)
               (MessageService.setBlockedUsers
                  (User.blockedUsers u ++ [target]) u)) w)).
Proof.
  intros Ht Hs Hu Hb. apply String.eqb_neq in Ht, Hs.
  unfold handleBlockUser, MessageService.toggleBlockUser. exec_unfold.
  simpl. rewrite Ht, Hs. simpl. rewrite Hu, Hb. reflexivity.
Qed.

End BlockFacts.

(** C2, evaluated.  Over the socket, an artist blocks another artist: the
    request is carried out (the target enters the caller's block list and
    [user_block_toggled] reports "blocked").  The REST controller refuses
    the same request with 403. *)
Theorem socket_block_user_same_role_accepted :
  let w' := snd (ChatHandler.handleBlockUser Scenario.alice (Some "a2"%string)
                   Scenario.start) in
  User.role_of <$> (Runtime.users Scenario.start !! "a2"%string)
    = Some (Runtime.su_role Scenario.alice) /\
  User.blockedUsers <$> (Runtime.users w' !! "a1"%string)
    = Some ["a2"%string] /\
  Runtime.emitted w' =
    [(Runtime.ToSocket "a1",
      Runtime.user_block_toggled "a2" "blocked" ["a2"%string]);
     (Runtime.ToRoom "user_a2",
      Runtime.conversation_blocked "a1" "a1_a2")] /\
  MessageController.toggleBlockUser Scenario.aliceReq "a2" Scenario.start
    = (Runtime.Ok (MessageController.Next
         (Runtime.AppError "You cannot block users with the same role" 403)),
       Scenario.start).
Proof. vm_compute. repeat split; reflexivity. Qed.

(** The REST mark-as-read between two artists is carried out as well: no
    mark-as-read path reads a role. *)
Example rest_mark_read_same_role_accepted :
  fst (MessageController.markMessagesAsRead Scenario.aliceReq "a2"
         Scenario.start)
  = Runtime.Ok (MessageController.Json 200
                  "Messages marked as read successfully" None).
Proof. vm_compute. reflexivity. Qed.

(** C3, evaluated.  Alice has blocked Bob; Bob has blocked nobody.  Over the
    socket her message to him is stored and confirmed; the REST controller
    refuses the same request with 403 and stores nothing. *)
Theorem socket_send_ignores_senders_block_list :
  let data := {| ChatHandler.receiverId := Some "b1"%string;
                 ChatHandler.content :=
                   Some "Hello, I love this piece!"%string |} in
  let w' := snd (ChatHandler.handleSendMessage Scenario.alice data
                   Scenario.aliceBlockedBob) in
  User.blockedUsers <$>
    (Runtime.users Scenario.aliceBlockedBob !! "a1"%string)
    = Some ["b1"%string] /\
  List.map (fun d => (Message.sender d, Message.receiver d, Message.content d))
           (Runtime.messages w')
    = [("a1", "b1", "Hello, I love this piece!")%string] /\
  (exists r, In (Runtime.ToSocket "a1", Runtime.message_sent r)
                (Runtime.emitted w')) /\
  MessageController.postSend Scenario.aliceReqBlockedBob "b1"
    "Hello, I love this piece!" Scenario.aliceBlockedBob
    = (Runtime.Ok (MessageController.Next
         (Runtime.AppError "You have blocked the receiver" 403)),
       Scenario.aliceBlockedBob).
Proof.
  split; [vm_compute; reflexivity|].
  split; [vm_compute; reflexivity|].
  split; [|vm_compute; reflexivity].
  eexists. vm_compute. right. left. reflexivity.
Qed.

Module ReadFacts.
Import Runtime MessageService.
Local Open Scope string_scope.

Lemma markMessagesAsRead_messages (userId otherUserId : string) (w : world) :
  messages (snd (markMessagesAsRead userId otherUserId w)) =
  updateMany
    (unreadIn (Message.createConversationId userId otherUserId) userId)
    (setRead (now w)) (messages w).
Proof. reflexivity. Qed.

Lemma markMessagesAsRead_returns (userId otherUserId : string) (w : world) :
  fst (markMessagesAsRead userId otherUserId w) = Ok tt.
Proof. reflexivity. Qed.

Lemma unreadIn_setRead (c u : string) (date : nat) (d : Message.doc) :
  unreadIn c u (setRead date d) = false.
Proof.
  unfold unreadIn, setRead. simpl. now rewrite andb_false_r.
Qed.

Lemma updateMany_no_unread (c u : string) (date : nat)
      (msgs : list Message.doc) :
  List.filter (unreadIn c u) (updateMany (unreadIn c u) (setRead date) msgs)
  = [].
Proof.
  unfold updateMany.
  induction msgs as [|d msgs IH]; simpl; [reflexivity|].
  destruct (unreadIn c u d) eqn:Hd.
  - now rewrite unreadIn_setRead.
  - now rewrite Hd.
Qed.

(** After the REST mark-as-read the reader has no unread message in the
    conversation. *)
Lemma markMessagesAsRead_unread_zero
      (userId otherUserId : string) (w : world) :
  unreadCount (Message.createConversationId userId otherUserId) userId
    (messages (snd (markMessagesAsRead userId otherUserId w))) = 0%nat.
Proof.
  rewrite markMessagesAsRead_messages.
  unfold unreadCount, countDocuments.
  set (c := Message.createConversationId userId otherUserId).
  pose proof (updateMany_no_unread c userId (now w) (messages w)) as H.
  revert H. generalize (updateMany (unreadIn c userId) (setRead (now w))
                          (messages w)).
  intros l. induction l as [|d l IH]; simpl; [reflexivity|].
  destruct (unreadIn c userId d) eqn:Hd; simpl; [discriminate|]. exact IH.
Qed.

(** A second REST mark-as-read matches no document and changes none. *)
Lemma markMessagesAsRead_idempotent
      (userId otherUserId : string) (w : world) :
  let w1 := snd (markMessagesAsRead userId otherUserId w) in
  matchedCount
    (unreadIn (Message.createConversationId userId otherUserId) userId)
    (messages w1) = 0%nat /\
  messages (snd (markMessagesAsRead userId otherUserId w1)) = messages w1.
Proof.
  cbv zeta. rewrite !markMessagesAsRead_messages.
  set (c := Message.createConversationId userId otherUserId).
  pose proof (updateMany_no_unread c userId (now w) (messages w)) as H.
  revert H.
  generalize (updateMany (unreadIn c userId) (setRead (now w)) (messages w)).
  generalize (now (snd (markMessagesAsRead userId otherUserId w))).
  intros date l H. unfold matchedCount. rewrite H. split; [reflexivity|].
  unfold updateMany.
  induction l as [|d l IH]; cbn [List.map List.filter] in *; [reflexivity|].
  destruct (unreadIn c userId d) eqn:Hd; [discriminate|].
  f_equal. now apply IH.
Qed.

(** The REST mark-as-read writes [read] and [readAt] only: every delivery
    status is as before. *)
Lemma markMessagesAsRead_keeps_status
      (userId otherUserId : string) (w : world) :
  List.map Message.messageStatus
    (messages (snd (markMessagesAsRead userId otherUserId w)))
  = List.map Message.messageStatus (messages w).
Proof.
  rewrite markMessagesAsRead_messages. unfold updateMany.
  rewrite List.map_map. apply List.map_ext.
  intros d. now destruct (unreadIn _ _ d).
Qed.

(** The socket mark-as-read never reaches its update. *)
Lemma handleMarkAsRead_messages
      (socket : socketUser) (otherUserId : option string) (w : world) :
  messages (snd (ChatHandler.handleMarkAsRead socket otherUserId w))
  = messages w.
Proof.
  unfold ChatHandler.handleMarkAsRead, ChatHandler.readBinding. exec_unfold.
  destruct otherUserId as [o|]; simpl; [|reflexivity].
  destruct (String.eqb o "" || String.eqb o (su_id socket)); reflexivity.
Qed.

Lemma handleMarkAsRead_fails
      (socket : socketUser) (otherUserId : string) (w : world) :
  otherUserId <> "" -> otherUserId <> su_id socket ->
  snd (ChatHandler.handleMarkAsRead socket (Some otherUserId) w)
  = add_emitted
      (ToSocket (su_id socket), error "Failed to mark messages as read") w.
Proof.
  intros H1 H2. apply String.eqb_neq in H1, H2.
  unfold ChatHandler.handleMarkAsRead, ChatHandler.readBinding. exec_unfold.
  simpl. rewrite H1, H2. reflexivity.
Qed.

End ReadFacts.

(** C4, evaluated.  Bob has one unread message from Alice, with status
    "sent".  The REST mark-as-read sets [read] and [readAt] and leaves the
    status "sent".  The socket [mark_as_read] changes no document and
    answers with the event [error]. *)
Theorem mark_as_read_paths_evaluated :
  let rest := snd (MessageController.markMessagesAsRead Scenario.bobReq "a1"
                     Scenario.oneUnread) in
  let sock := snd (ChatHandler.handleMarkAsRead Scenario.bob
                     (Some "a1"%string) Scenario.oneUnread) in
  List.map (fun d => (Message.read d, Message.readAt d,
                      Message.messageStatus d)) (Runtime.messages rest)
    = [(true, Some 5%nat, Message.Sent)] /\
  Runtime.messages sock = [Scenario.greeting] /\
  Message.read Scenario.greeting = false /\
  Runtime.emitted sock =
    [(Runtime.ToSocket "b1",
      Runtime.error "Failed to mark messages as read")].
Proof. vm_compute. repeat split; reflexivity. Qed.

(** ** Typing indicators *)

(** C7, evaluated for every pair.  [typing_start] arms a timer and tells
    the counterpart that the user is typing.  When the timer fires with no
    event in between, the pair's entry leaves the active-typing map, and no
    event at all is emitted: the timer's callback calls [stopTyping] without
    the server, so the counterpart is never told that typing stopped. *)
Theorem typing_timer_expiry_emits_nothing
        (socket : Runtime.socketUser) (other : string) (w : Runtime.world) :
  other <> ""%string -> other <> Runtime.su_id socket ->
  let key := ChatHandler.typingKey socket other in
  let w1 := snd (ChatHandler.handleTypingStart socket (Some other) w) in
  let w2 := snd (ChatHandler.timerFires (Runtime.nextTimer w) w1) in
  Runtime.activeTyping w1 !! key = Some (Runtime.nextTimer w) /\
  Runtime.timers w1 !! Runtime.nextTimer w = Some (socket, other) /\
  Runtime.emitted w1 =
    Runtime.emitted w ++
    [(Runtime.ToRoom ("user_" +:+ other),
      Runtime.user_typing (Runtime.su_id socket) (Runtime.su_username socket)
        true)] /\
  Runtime.activeTyping w2 !! key = None /\
  Runtime.timers w2 !! Runtime.nextTimer w = None /\
  Runtime.emitted w2 = Runtime.emitted w1.
Proof.
  intros H1 H2. apply String.eqb_neq in H1, H2.
  unfold ChatHandler.timerFires, ChatHandler.handleTypingStart,
    ChatHandler.stopTyping, ChatHandler.setTimeout, ChatHandler.clearTimeout.
  exec_unfold. wsimpl. rewrite H1, H2. wsimpl.
  destruct (Runtime.activeTyping w !! ChatHandler.typingKey socket other)
    as [old|] eqn:Hold; wsimpl;
    repeat first [ rewrite lookup_insert_eq | rewrite lookup_delete_eq
                 | rewrite H1 | progress wsimpl ];
    repeat split; reflexivity.
Qed.

Lemma typing_timer_expiry_emits_nothing_witness :
  let w1 := snd (ChatHandler.handleTypingStart Scenario.alice
                   (Some "b1"%string) Scenario.start) in
  let w2 := snd (ChatHandler.timerFires 0 w1) in
  Runtime.activeTyping w2 !! "a1_b1"%string = None /\
  Runtime.emitted w2 = Runtime.emitted w1.
Proof.
  pose proof (typing_timer_expiry_emits_nothing Scenario.alice "b1"%string
                Scenario.start ltac:(discriminate) ltac:(discriminate)) as H.
  simpl in H. destruct H as (_ & _ & _ & H4 & _ & H6).
  split; [exact H4 | exact H6].
Defined.

(** An explicit [typing_stop] does tell the counterpart. *)
Lemma handleTypingStop_emits
      (socket : Runtime.socketUser) (other : string) (w : Runtime.world) :
  other <> ""%string ->
  let w' := snd (ChatHandler.handleTypingStop socket (Some other) w) in
  Runtime.emitted w' =
    Runtime.emitted w ++
    [(Runtime.ToRoom ("user_" +:+ other),
      Runtime.user_typing (Runtime.su_id socket) (Runtime.su_username socket)
        false)] /\
  Runtime.activeTyping w' !! ChatHandler.typingKey socket other = None.
Proof.
  intros H1. apply String.eqb_neq in H1.
  unfold ChatHandler.handleTypingStop, ChatHandler.stopTyping,
    ChatHandler.clearTimeout.
  exec_unfold. wsimpl. rewrite H1. wsimpl.
  destruct (Runtime.activeTyping w !! ChatHandler.typingKey socket other)
    as [old|] eqn:Hold; wsimpl; split; try reflexivity.
  - apply lookup_delete_eq.
  - exact Hold.
Qed.

(** ** Soft delete *)

(** C8, evaluated for every failing request.  When no message has the id,
    or the actor is not the sender, [deleteMessage] leaves the state as it
    was, and what its caller catches is in both cases the same error, "Failed
    to delete message" with status 500: the [catch] of the method replaces
    the 404 and the 403 thrown inside its [try].  The controller hands that
    error to [next]. *)
Theorem deleteMessage_failures_are_generic
        (messageId : nat) (userId : string) (w : Runtime.world) :
  (Runtime.findById messageId (Runtime.messages w) = None \/
   exists m, Runtime.findById messageId (Runtime.messages w) = Some m /\
             Message.sender m <> userId) ->
  MessageService.deleteMessage messageId userId w
    = (Runtime.Throw (Runtime.AppError "Failed to delete message" 500), w) /\
  forall user : MessageController.reqUser,
    MessageController.ru_id user = userId ->
    MessageController.deleteMessage user messageId w
    = (Runtime.Ok (MessageController.Next
         (Runtime.AppError "Failed to delete message" 500)), w).
Proof.
  intros H.
  assert (MessageService.deleteMessage messageId userId w
          = (Runtime.Throw (Runtime.AppError "Failed to delete message" 500),
             w)) as Hs.
  { unfold MessageService.deleteMessage. exec_unfold. simpl.
    destruct H as [H | (m & H & Hne)]; rewrite H; simpl; [reflexivity|].
    apply String.eqb_neq in Hne. rewrite Hne. reflexivity. }
  split; [exact Hs|].
  intros user <-. unfold MessageController.deleteMessage.
  unfold Runtime.tryCatch at 1. unfold Runtime.bind at 1.
  rewrite Hs. reflexivity.
Qed.

Lemma deleteMessage_failures_are_generic_witness :
  MessageService.deleteMessage 7 "b1" Scenario.oneUnread
    = (Runtime.Throw (Runtime.AppError "Failed to delete message" 500),
       Scenario.oneUnread) /\
  MessageService.deleteMessage 1 "b1" Scenario.oneUnread
    = (Runtime.Throw (Runtime.AppError "Failed to delete message" 500),
       Scenario.oneUnread).
Proof.
  split.
  - apply (deleteMessage_failures_are_generic 7 "b1" Scenario.oneUnread).
    left. reflexivity.
  - apply (deleteMessage_failures_are_generic 1 "b1" Scenario.oneUnread).
    right. exists Scenario.greeting. split; [reflexivity | discriminate].
Defined.

(** The sender's own request is carried out. *)
Lemma deleteMessage_by_sender
      (messageId : nat) (m : Message.doc) (w : Runtime.world) :
  Runtime.findById messageId (Runtime.messages w) = Some m ->
  MessageService.deleteMessage messageId (Message.sender m) w
    = (Runtime.Ok tt,
       Runtime.set_messages
         (Runtime.updateById messageId
            (MessageService.setDeleted (Runtime.now w))) w).
Proof.
  intros H. unfold MessageService.deleteMessage. exec_unfold. simpl.
  rewrite H. simpl. rewrite String.eqb_refl. reflexivity.
Qed.

Module InterleavingFacts.
Import Runtime Interleaving.
Local Open Scope string_scope.

Lemma advances_refl (d : Message.doc) : advances d d.
Proof. split; [reflexivity | lia]. Qed.

Lemma advances_trans (a b c : Message.doc) :
  advances a b -> advances b c -> advances a c.
Proof. intros [H1 H2] [H3 H4]. split; [congruence | lia]. Qed.

Lemma extends_refl (l : list Message.doc) : extends l l.
Proof. intros i d H. exists d. split; [exact H | apply advances_refl]. Qed.

Lemma extends_trans (a b c : list Message.doc) :
  extends a b -> extends b c -> extends a c.
Proof.
  intros H1 H2 i d H. destruct (H1 i d H) as (d1 & Hd1 & A1).
  destruct (H2 i d1 Hd1) as (d2 & Hd2 & A2).
  exists d2. split; [exact Hd2 | eapply advances_trans; eauto].
Qed.

Lemma extends_app (l : list Message.doc) (d : Message.doc) :
  extends l (l ++ [d]).
Proof.
  intros i x H. exists x. split; [|apply advances_refl].
  rewrite nth_error_app1; [exact H|].
  apply nth_error_Some. congruence.
Qed.

Lemma extends_map (f : Message.doc -> Message.doc) (l : list Message.doc) :
  (forall d, advances d (f d)) -> extends l (List.map f l).
Proof.
  intros Hf i d H. exists (f d). split; [|apply Hf].
  rewrite nth_error_map, H. reflexivity.
Qed.

(** The create of a send appends one document, with status "sent", or
    fails and changes nothing. *)
Lemma sendMessage_messages (s r c : string) (w : world) :
  messages (snd (MessageService.sendMessage s r c w)) = messages w \/
  exists d, Message.messageStatus d = Message.Sent /\
            messages (snd (MessageService.sendMessage s r c w))
            = (messages w ++ [d])%list.
Proof.
  unfold MessageService.sendMessage, MessageService.create. exec_unfold.
  destruct (String.eqb _ ""); wsimpl; [left; reflexivity|].
  right. eexists. split; [|reflexivity]. reflexivity.
Qed.

Lemma deleteMessage_messages (id : nat) (u : string) (w : world) :
  messages (snd (MessageService.deleteMessage id u w)) = messages w \/
  messages (snd (MessageService.deleteMessage id u w))
  = updateById id (MessageService.setDeleted (now w)) (messages w).
Proof.
  unfold MessageService.deleteMessage. exec_unfold. wsimpl.
  destruct (findById id (messages w)) as [m|]; wsimpl; [|left; reflexivity].
  destruct (String.eqb (Message.sender m) u); wsimpl;
    [right | left]; reflexivity.
Qed.

Lemma markDelivered_messages (id : nat) (w : world) :
  messages (snd (ChatHandler.markDelivered id w))
  = updateById id ChatHandler.setDelivered (messages w).
Proof. reflexivity. Qed.

(** The id of a created document is the id of no document that was in
    the collection. *)
Lemma freshId_unused (l : list Message.doc) (d : Message.doc) :
  In d l -> Message._id d <> freshId l.
Proof.
  intros H. enough (Message._id d < freshId l)%nat by lia.
  revert H. unfold freshId, list_max.
  induction l as [|x l IH]; cbn [In List.map fold_right]; [contradiction|].
  intros [-> | H]; [lia|]. specialize (IH H). lia.
Qed.

(** A successful create appends one document, with the returned id, which
    is new, and the status "sent"; a failed one changes nothing. *)
Lemma sendMessage_created (s r c : string) (w : world) :
  match fst (MessageService.sendMessage s r c w) with
  | Ok res =>
      exists d,
        messages (snd (MessageService.sendMessage s r c w))
        = (messages w ++ [d])%list /\
        sm_id (sr_message res) = Message._id d /\
        Message._id d = freshId (messages w) /\
        Message.messageStatus d = Message.Sent
  | Throw _ => snd (MessageService.sendMessage s r c w) = w
  end.
Proof.
  unfold MessageService.sendMessage, MessageService.create. exec_unfold.
  destruct (String.eqb _ ""); wsimpl; [reflexivity|].
  eexists. repeat split.
Qed.

(** An update of some documents that keeps their ids and their delivery
    status keeps the invariant and lets every document advance. *)
Lemma heldNotRead_map (f : Message.doc -> Message.doc) (s s' : state) :
  (forall d, Message._id (f d) = Message._id d /\
             Message.messageStatus (f d) = Message.messageStatus d) ->
  messages (store s') = List.map f (messages (store s)) ->
  awaitingUpgrade s' = awaitingUpgrade s ->
  heldNotRead s ->
  heldNotRead s' /\ extends (messages (store s)) (messages (store s')).
Proof.
  intros Hf Hm Ha H. split.
  - intros d Hd Hin. rewrite Hm in Hd. rewrite Ha in Hin.
    apply in_map_iff in Hd as (x & <- & Hx).
    destruct (Hf x) as [Hid Hst]. rewrite Hid in Hin. rewrite Hst.
    now apply H.
  - rewrite Hm. apply extends_map. intros d.
    destruct (Hf d) as [Hid Hst]. split; [exact Hid | rewrite Hst; lia].
Qed.

Lemma heldNotRead_same (s s' : state) :
  messages (store s') = messages (store s) ->
  awaitingUpgrade s' = awaitingUpgrade s ->
  heldNotRead s ->
  heldNotRead s' /\ extends (messages (store s)) (messages (store s')).
Proof.
  intros Hm Ha H. split.
  - intros d Hd Hin. rewrite Hm in Hd. rewrite Ha in Hin. now apply H.
  - rewrite Hm. apply extends_refl.
Qed.

(** Every step keeps the invariant and lets every document advance.  No
    step writes the status "read": the REST mark-as-read writes [read] and
    [readAt] only, and the socket mark-as-read changes no document.  The
    delivered-upgrade writes "delivered" over whatever status it finds,
    and it finds "sent" or "delivered", because the message it reaches is
    one that a call holds. *)
Lemma step_advances (o : op) (s : state) :
  heldNotRead s ->
  heldNotRead (step o s) /\
  extends (messages (store s)) (messages (store (step o s))).
Proof.
  intros H.
  destruct o as [sid r c | id | u o' | socket o' | id u]; cbn [step].
  - pose proof (sendMessage_created sid r c (store s)) as HC.
    destruct (MessageService.sendMessage sid r c (store s))
      as [[res|e] w'] eqn:Hsent; cbn [fst snd] in HC.
    + destruct HC as (d & Hm & Hres & Hfresh & Hst).
      split.
      * intros x Hx Hin. cbn [store awaitingUpgrade] in Hx, Hin.
        rewrite Hm in Hx. apply in_app_iff in Hx as [Hx|[<-|[]]].
        -- destruct Hin as [Heq|Hin]; [|now apply H].
           exfalso. apply (freshId_unused _ _ Hx). congruence.
        -- congruence.
      * cbn [store]. rewrite Hm. apply extends_app.
    + subst w'. apply heldNotRead_same; [reflexivity | reflexivity | exact H].
  - destruct (existsb (Nat.eqb id) (awaitingUpgrade s)) eqn:Hheld;
      [|split; [exact H | apply extends_refl]].
    apply existsb_exists in Hheld as (held & Hin & Heq).
    apply Nat.eqb_eq in Heq. subst held.
    split.
    + intros y Hy Hy'. cbn [store awaitingUpgrade] in Hy, Hy'.
      rewrite markDelivered_messages in Hy. unfold updateById in Hy.
      apply in_map_iff in Hy as (x & <- & Hx).
      apply filter_In in Hy' as [Hy' Hne].
      destruct (Nat.eqb (Message._id x) id) eqn:Hx'.
      * cbn [ChatHandler.setDelivered Message.messageStatus]. discriminate.
      * now apply H.
    + cbn [store]. rewrite markDelivered_messages. unfold updateById.
      intros i d Hi.
      exists (if Nat.eqb (Message._id d) id
              then ChatHandler.setDelivered d else d).
      split; [rewrite nth_error_map, Hi; reflexivity|].
      destruct (Nat.eqb (Message._id d) id) eqn:Hd; [|apply advances_refl].
      apply Nat.eqb_eq in Hd. split; [reflexivity|].
      assert (Message.messageStatus d <> Message.Read) as Hnr.
      { apply H; [eapply nth_error_In; eauto | now rewrite Hd]. }
      destruct (Message.messageStatus d) eqn:Hs; cbn; try lia. congruence.
  - apply (heldNotRead_map
             (fun d =>
                if MessageService.unreadIn
                     (Message.createConversationId u o') u d
                then MessageService.setRead (now (store s)) d else d));
      [|apply ReadFacts.markMessagesAsRead_messages | reflexivity | exact H].
    intros d. destruct (MessageService.unreadIn _ _ d); split; reflexivity.
  - apply heldNotRead_same;
      [apply ReadFacts.handleMarkAsRead_messages | reflexivity | exact H].
  - destruct (deleteMessage_messages id u (store s)) as [Hm | Hm].
    + apply heldNotRead_same; [exact Hm | reflexivity | exact H].
    + apply (heldNotRead_map
               (fun d => if Nat.eqb (Message._id d) id
                         then MessageService.setDeleted (now (store s)) d
                         else d));
        [|exact Hm | reflexivity | exact H].
      intros d. destruct (Nat.eqb (Message._id d) id); split; reflexivity.
Qed.

Lemma run_advances (ops : list op) (s : state) :
  heldNotRead s ->
  heldNotRead (run ops s) /\
  extends (messages (store s)) (messages (store (run ops s))).
Proof.
  revert s. induction ops as [|o ops IH]; intros s H; cbn [run].
  - split; [exact H | apply extends_refl].
  - destruct (step_advances o s H) as [H1 E1].
    destruct (IH (step o s) H1) as [H2 E2].
    split; [exact H2 | eapply extends_trans; eauto].
Qed.

Lemma heldNotRead_idle (w : world) : heldNotRead (idle w).
Proof. intros d _ []. Qed.

Lemma run_app (ops1 ops2 : list op) (s : state) :
  run (ops1 ++ ops2) s = run ops2 (run ops1 s).
Proof.
  revert s. induction ops1 as [|o ops1 IH]; intros s; cbn [run app];
    [reflexivity | apply IH].
Qed.

(** The create of a send reads the collection and the clock only. *)
Lemma sendMessage_set_patterns
      (s r c : string) (st : ContentFilter.lastIndexes) (w : world) :
  MessageService.sendMessage s r c (set_patterns st w)
  = (fst (MessageService.sendMessage s r c w),
     set_patterns st (snd (MessageService.sendMessage s r c w))).
Proof.
  unfold MessageService.sendMessage, MessageService.create. exec_unfold.
  wsimpl. destruct (String.eqb _ ""); reflexivity.
Qed.

(** A successful create returns the id of the document it appended; a
    failed one changes nothing. *)
Lemma sendMessage_result (s r c : string) (w : world) :
  match fst (MessageService.sendMessage s r c w) with
  | Ok res =>
      exists d,
        messages (snd (MessageService.sendMessage s r c w))
        = (messages w ++ [d])%list /\
        sm_id (sr_message res) = Message._id d
  | Throw _ => snd (MessageService.sendMessage s r c w) = w
  end.
Proof.
  unfold MessageService.sendMessage, MessageService.create. exec_unfold.
  destruct (String.eqb _ ""); wsimpl; [reflexivity|].
  eexists. split; reflexivity.
Qed.

(** What [handleSendMessage] does to the collection is nothing, the
    create, or the create followed by the delivered-upgrade of the
    created message. *)
Lemma handleSendMessage_is_steps
      (socket : socketUser) (data : ChatHandler.sendData) (w : world) :
  let after := messages (snd (ChatHandler.handleSendMessage socket data w)) in
  let created r c := run [Create (su_id socket) r c] (idle w) in
  after = messages w \/
  exists r c,
    ChatHandler.receiverId data = Some r /\
    ChatHandler.content data = Some c /\
    (after = messages (store (created r c)) \/
     exists d,
       last (messages (store (created r c))) = Some d /\
       awaitingUpgrade (created r c) = [Message._id d] /\
       after = messages (store (run [DeliveredUpgrade (Message._id d)]
                                    (created r c)))).
Proof.
  destruct data as [[r|] [c|]]; cbv zeta; try (left; reflexivity).
  unfold ChatHandler.handleSendMessage, ChatHandler.analyzeContentSafety,
    ChatHandler.stopTyping, ChatHandler.clearTimeout.
  cbn [run step idle store awaitingUpgrade]. unfold ChatHandler.markDelivered.
  exec_unfold. wsimpl.
  destruct (String.eqb r "" || String.eqb c "" ||
            String.eqb r (su_id socket)) eqn:Hv; wsimpl;
    [left; reflexivity|].
  destruct (users w !! r) as [receiver|]; wsimpl; [|left; reflexivity].
  destruct (User.role_eqb _ _); wsimpl; [left; reflexivity|].
  destruct (User.includes _ _); wsimpl; [left; reflexivity|].
  destruct (ContentFilter.analyzeContentSafety c (patterns w)) as [a st].
  wsimpl. destruct (ContentFilter.isAcceptable a); wsimpl;
    [|left; reflexivity].
  rewrite sendMessage_set_patterns.
  pose proof (sendMessage_result (su_id socket) r c w) as HR.
  destruct (MessageService.sendMessage (su_id socket) r c w)
    as [[res|e] w1] eqn:Hsent; wsimpl; [|left; now rewrite HR].
  destruct HR as (d & Hd & Hid).
  right. exists r, c. split; [reflexivity|]. split; [reflexivity|].
  rewrite !Hsent. cbn [store awaitingUpgrade]. wsimpl.
  assert (String.eqb r "" = false) as Hr.
  { destruct (String.eqb r ""); [discriminate Hv | reflexivity]. }
  destruct (bool_decide (r ∈ onlineUsers w1)); wsimpl; rewrite Hr; wsimpl;
    destruct (activeTyping w1 !! ChatHandler.typingKey socket r); wsimpl.
  - right. exists d. split; [rewrite Hd; apply last_snoc|].
    split; [now rewrite Hid|].
    cbn [existsb]. rewrite Hid, Nat.eqb_refl. cbn [orb store]. wsimpl.
    reflexivity.
  - right. exists d. split; [rewrite Hd; apply last_snoc|].
    split; [now rewrite Hid|].
    cbn [existsb]. rewrite Hid, Nat.eqb_refl. cbn [orb store]. wsimpl.
    reflexivity.
  - left. reflexivity.
  - left. reflexivity.
Qed.

End InterleavingFacts.

(** C6.  Start from any collection, with no call of [handleSendMessage]
    under way, and run the operations of the core in any order and number:
    creates, delivered-upgrades by the calls that hold the id of their
    created message, REST and socket mark-as-read, soft deletes.  Between
    any two moments of the run every stored message keeps its place and its
    id, and its delivery status is never earlier in the chain sent,
    delivered, read than it was: a message that is "read" stays "read", one
    that is "delivered" does not go back to "sent".  This holds because the
    delivered-upgrade, which writes "delivered" over whatever it finds,
    reaches only the message that its own call created, and no step writes
    "read" on it: the REST mark-as-read writes [read] and [readAt] only and
    the socket mark-as-read changes no document. *)
Theorem delivery_status_never_regresses
        (w : Runtime.world) (before later : list Interleaving.op)
        (i : nat) (d : Message.doc) :
  nth_error
    (Runtime.messages
       (Interleaving.store (Interleaving.run before (Interleaving.idle w))))
    i = Some d ->
  exists d',
    nth_error
      (Runtime.messages
         (Interleaving.store
            (Interleaving.run (before ++ later) (Interleaving.idle w))))
      i = Some d' /\
    Message._id d' = Message._id d /\
    (Message.rank (Message.messageStatus d) <=
     Message.rank (Message.messageStatus d'))%nat.
Proof.
  intros Hd. rewrite InterleavingFacts.run_app.
  destruct (InterleavingFacts.run_advances before (Interleaving.idle w)
              (InterleavingFacts.heldNotRead_idle w)) as [Hinv _].
  destruct (InterleavingFacts.run_advances later _ Hinv) as [_ Hext].
  exact (Hext i d Hd).
Qed.

Lemma delivery_status_never_regresses_witness :
  let before :=
    [Interleaving.Create "a1" "b1" "Is it still available?";
     Interleaving.DeliveredUpgrade 2]%string in
  let later :=
    [Interleaving.RestMarkRead "b1" "a1";
     Interleaving.SocketMarkRead Scenario.bob (Some "a1");
     Interleaving.DeliveredUpgrade 1;
     Interleaving.Create "a1" "b1" "Shall I reserve it?";
     Interleaving.DeliveredUpgrade 2;
     Interleaving.DeliveredUpgrade 3]%string in
  let final :=
    Runtime.messages
      (Interleaving.store
         (Interleaving.run (before ++ later)
            (Interleaving.idle Scenario.oneRead))) in
  (exists d',
     nth_error final 0 = Some d' /\
     Message._id d' = Message._id Scenario.readLetter /\
     (Message.rank (Message.messageStatus Scenario.readLetter) <=
      Message.rank (Message.messageStatus d'))%nat) /\
  (exists d',
     nth_error final 1 = Some d' /\
     Message._id d' = Message._id Scenario.deliveredReply /\
     (Message.rank (Message.messageStatus Scenario.deliveredReply) <=
      Message.rank (Message.messageStatus d'))%nat).
Proof.
  intros before later final. split.
  - apply (delivery_status_never_regresses Scenario.oneRead before later 0
             Scenario.readLetter).
    vm_compute. reflexivity.
  - apply (delivery_status_never_regresses Scenario.oneRead before later 1
             Scenario.deliveredReply).
    vm_compute. reflexivity.
Defined.

(** That run ends with the first message still "read", the reply read by
    Bob and "delivered", and the last message unread and "delivered": the
    upgrade on id 1, which no call holds, and the second upgrade on id 2
    are no steps of the code. *)
Example delivery_after_read_example :
  List.map (fun d => (Message.read d, Message.messageStatus d))
    (Runtime.messages
       (Interleaving.store
          (Interleaving.run
             [Interleaving.Create "a1" "b1" "Is it still available?";
              Interleaving.DeliveredUpgrade 2;
              Interleaving.RestMarkRead "b1" "a1";
              Interleaving.SocketMarkRead Scenario.bob (Some "a1");
              Interleaving.DeliveredUpgrade 1;
              Interleaving.Create "a1" "b1" "Shall I reserve it?";
              Interleaving.DeliveredUpgrade 2;
              Interleaving.DeliveredUpgrade 3]%string
             (Interleaving.idle Scenario.oneRead))))
  = [(true, Message.Read); (true, Message.Delivered);
     (false, Message.Delivered)].
Proof. vm_compute. reflexivity. Qed.

(** The update that [handleMarkAsRead] never reaches would write "read",
    and the delivered-upgrade does not look at the status it replaces. *)
Remark setDelivered_overwrites_any_status (date : nat) (d : Message.doc) :
  Message.messageStatus
    (ChatHandler.setDelivered (ChatHandler.setReadStatus date d))
  = Message.Delivered.
Proof. reflexivity. Qed.

(* ===================================================================== *)
(** * Further properties *)
(* ===================================================================== *)

(** ** The analyzer's verdict *)

(** X1. Whatever the state of the shared regex objects, the analyzer accepts
    a text in exactly three situations: no violation and no creative-evasion
    pattern; no violation and no profane word; or a single violation with no
    profane word and no creative-evasion pattern.  In particular a text with
    one violation and nothing else is accepted, and one with two violations
    never is. *)
Theorem analyzeContentSafety_accepts_iff
        (content : string) (st : ContentFilter.lastIndexes) :
  let a := fst (ContentFilter.analyzeContentSafety content st) in
  let v := length (ContentFilter.analysisViolations a) in
  let p := ContentFilter.profanityCount content in
  let s := ContentFilter.hasSuspiciousPatterns a in
  ContentFilter.isAcceptable a = true <->
  (v = 0%nat /\ s = false) \/
  (v = 0%nat /\ p = 0%nat) \/
  (v = 1%nat /\ p = 0%nat /\ s = false).
Proof.
  pose proof (AnalyzerFacts.profanityCount_le content) as Hp.
  unfold ContentFilter.analyzeContentSafety, ContentFilter.bind,
    ContentFilter.ret.
  destruct (ContentFilter.validateMessageContent content st) as [val st'].
  cbn [fst ContentFilter.isAcceptable ContentFilter.analysisViolations
       ContentFilter.hasSuspiciousPatterns].
  rewrite Z.leb_le.
  destruct (ContentFilter.detectSuspiciousPatterns content); split.
  - intros H. right. left. lia.
  - intros [[_ H] | [[H1 H2] | (_ & _ & H)]]; try discriminate. lia.
  - intros H.
    destruct (length (ContentFilter.violations val)) as [|[|n]] eqn:Hv.
    + left. auto.
    + right. right. repeat split; auto. lia.
    + lia.
  - intros [[H _] | [[H1 H2] | (H1 & H2 & _)]]; lia.
Qed.

(** X2. Whatever the state of the shared regex objects, a text whose
    lower-cased form contains two or more of the listed contact phrases is
    rejected. *)
Theorem two_contact_phrases_rejected
        (content : string) (st : ContentFilter.lastIndexes) :
  (2 <= length (AnalyzerSpec.phrasesFound content))%nat ->
  ContentFilter.isAcceptable
    (fst (ContentFilter.analyzeContentSafety content st)) = false.
Proof.
  intros H2.
  destruct (AnalyzerFacts.validate_length content st) as (n & _ & Hlen).
  unfold ContentFilter.analyzeContentSafety, ContentFilter.bind,
    ContentFilter.ret.
  destruct (ContentFilter.validateMessageContent content st) as [val st'].
  cbn [fst ContentFilter.isAcceptable] in *.
  apply Z.leb_gt.
  destruct (ContentFilter.detectSuspiciousPatterns content); lia.
Qed.

Lemma two_contact_phrases_rejected_witness :
  ContentFilter.isAcceptable
    (fst (ContentFilter.analyzeContentSafety
            "Find me on the forum, or email me"
            ContentFilter.moduleLoaded)) = false.
Proof.
  apply (two_contact_phrases_rejected "Find me on the forum, or email me"
           ContentFilter.moduleLoaded).
  vm_compute. lia.
Defined.

(** ** Regular expressions and redaction *)

Module RegexFacts.
Import JsString Regex.

(** A literal under the [i] flag consumes as many code units as it has. *)
Lemma run_litI (w : string) (prev : option ascii) (s : list ascii)
      (k : cont) (x : list ascii) :
  run (litI w) prev s k = Some x ->
  exists (m s' : list ascii) (prev' : option ascii),
    s = (m ++ s')%list /\ length m = String.length w /\ k prev' s' = Some x.
Proof.
  revert prev s k. induction w as [|c w IH]; intros prev s k H.
  - exists [], s, prev. cbn in H. auto.
  - destruct w as [|c' w'].
    + cbn in H. destruct s as [|a s']; [discriminate|].
      destruct (isI c a); [|discriminate].
      exists [a], s', (Some a). auto.
    + change (litI (String c (String c' w')))
        with (Cat (Chr (isI c)) (litI (String c' w'))) in H.
      cbn [run] in H. destruct s as [|a s']; [discriminate|].
      destruct (isI c a); [|discriminate].
      apply IH in H. destruct H as (m & s'' & prev' & -> & Hm & Hk).
      exists (a :: m), s'', prev'. split; [reflexivity|].
      split; [cbn [length String.length] in *; lia | exact Hk].
Qed.

Lemma length_list_ascii_of_string (s : string) :
  length (list_ascii_of_string s) = String.length s.
Proof. induction s as [|c s IH]; cbn; [reflexivity | now rewrite IH]. Qed.

(** A match of [\bword\b] is a piece of the text as long as the word that
    begins with the first letter of the word, in either case. *)
Lemma matchHere_profanity_split (c : ascii) (w : string)
      (prev : option ascii) (s rest : list ascii) :
  matchHere (ContentFilter.profanityRegex (String c w)) prev s = Some rest ->
  exists (a : ascii) (m : list ascii),
    s = (a :: m ++ rest)%list /\ isI c a = true /\
    length m = String.length w.
Proof.
  unfold matchHere, ContentFilter.profanityRegex.
  cbn [seq run]. destruct (xorb _ _); [|discriminate].
  destruct w as [|c' w'].
  - cbn [litI run]. destruct s as [|a s']; [discriminate|].
    destruct (isI c a) eqn:Ha; [|discriminate].
    destruct (xorb _ _); [|discriminate]. intros [= <-].
    exists a, []. auto.
  - change (litI (String c (String c' w')))
      with (Cat (Chr (isI c)) (litI (String c' w'))).
    cbn [run]. destruct s as [|a s']; [discriminate|].
    destruct (isI c a) eqn:Ha; [|discriminate].
    intros H. apply run_litI in H.
    destruct H as (m & s'' & prev' & -> & Hm & Hk).
    cbn [run] in Hk. destruct (xorb _ _); [|discriminate].
    injection Hk as <-. exists a, m. auto.
Qed.

Lemma list_repeatChar (c : ascii) (n : nat) :
  list_ascii_of_string (repeatChar c n) = repeat c n.
Proof. induction n as [|n IH]; cbn; [reflexivity | now rewrite IH]. Qed.

(** [masked s s']: the text [s'] is the text [s] with some code units
    replaced by asterisks. *)
Local Notation masked :=
  (Forall2 (fun c c' : ascii => c' = c \/ c' = "*"%char)).

Lemma masked_refl (s : list ascii) : masked s s.
Proof. induction s; constructor; auto. Qed.

Lemma masked_trans (s1 s2 s3 : list ascii) :
  masked s1 s2 -> masked s2 s3 -> masked s1 s3.
Proof.
  intros H. revert s3. induction H as [|a b l1 l2 Hab _ IH]; intros s3 H3.
  - inversion H3. constructor.
  - inversion H3 as [|b' c' l2' l3 Hbc Hl]; subst. constructor; [|now apply IH].
    destruct Hbc as [-> | ->]; [exact Hab | now right].
Qed.

Lemma masked_stars (m : list ascii) : masked m (repeat "*"%char (length m)).
Proof. induction m; cbn [length repeat]; constructor; auto. Qed.

(** An asterisk that is written stays. *)
Lemma masked_keeps_star (s s' : list ascii) (i : nat) :
  masked s s' -> nth_error s i = Some "*"%char ->
  nth_error s' i = Some "*"%char.
Proof.
  intros H. revert i. induction H as [|a b l1 l2 Hab _ IH]; intros i Hi.
  - destruct i; discriminate.
  - destruct i as [|i]; cbn [nth_error] in *; [|now apply IH].
    injection Hi as ->. destruct Hab as [-> | ->]; reflexivity.
Qed.

(** One pass of [filterProfanity] over the text only writes asterisks. *)
Lemma pass_masked (c : ascii) (w : string) (fuel : nat)
      (prev : option ascii) (s : list ascii) :
  masked s
    (replaceFrom fuel (ContentFilter.profanityRegex (String c w))
       (repeat "*"%char (String.length (String c w))) prev s).
Proof.
  revert prev s. induction fuel as [|fuel IH]; intros prev s;
    [apply masked_refl|].
  cbn [replaceFrom].
  destruct (matchHere _ prev s) as [rest|] eqn:Hmatch.
  - apply matchHere_profanity_split in Hmatch.
    destruct Hmatch as (a & m & -> & _ & Hm).
    destruct (Nat.eqb_spec (length rest) (length (a :: m ++ rest)));
      [cbn [length] in *; rewrite length_app in *; lia|].
    change (a :: m ++ rest)%list with ((a :: m) ++ rest)%list at 1.
    apply Forall2_app; [|apply IH].
    cbn [String.length]. rewrite <- Hm.
    apply (masked_stars (a :: m)).
  - destruct s as [|x s']; constructor; [now left | apply IH].
Qed.

(** Where the word is not found, the pass returns the text as it is. *)
Lemma pass_not_found (r : regex) (repl : list ascii) (fuel : nat)
      (prev : option ascii) (s : list ascii) (pos : nat) :
  search r prev s pos = None -> replaceFrom fuel r repl prev s = s.
Proof.
  revert prev s pos. induction fuel as [|fuel IH]; intros prev s pos H;
    [reflexivity|].
  cbn [replaceFrom]. destruct s as [|x s']; cbn [search] in H;
    destruct (matchHere r prev _); try discriminate; [reflexivity|].
  f_equal. eapply IH. exact H.
Qed.

(** Where the word is found, the pass writes an asterisk over a code unit
    that is none. *)
Lemma pass_found (c : ascii) (w : string) (fuel : nat)
      (prev : option ascii) (s : list ascii) (pos : nat) :
  (forall a, isI c a = true -> a <> "*"%char) ->
  search (ContentFilter.profanityRegex (String c w)) prev s pos <> None ->
  (length s < fuel)%nat ->
  exists (i : nat) (a : ascii),
    nth_error s i = Some a /\ a <> "*"%char /\
    nth_error
      (replaceFrom fuel (ContentFilter.profanityRegex (String c w))
         (repeat "*"%char (String.length (String c w))) prev s) i
    = Some "*"%char.
Proof.
  intros letter.
  revert prev pos fuel. induction s as [|x s' IH]; intros prev pos fuel H Hf;
    (destruct fuel as [|fuel]; [lia|]); cbn [replaceFrom];
    cbn [search] in H;
    destruct (matchHere _ prev _) as [rest|] eqn:Hmatch;
    try (exfalso; apply H; reflexivity).
  - apply matchHere_profanity_split in Hmatch.
    destruct Hmatch as (a & m & Hs & _). discriminate.
  - apply matchHere_profanity_split in Hmatch.
    destruct Hmatch as (a & m & Hs & Ha & Hm). injection Hs as -> ->.
    exists 0%nat, a. split; [reflexivity|]. split; [now apply letter|].
    destruct (Nat.eqb_spec (length rest) (length (a :: m ++ rest)));
      [cbn [length] in *; rewrite length_app in *; lia|].
    reflexivity.
  - cbn [length] in Hf.
    destruct (IH (Some x) (S pos) fuel H ltac:(lia)) as (i & a & H1 & H2 & H3).
    exists (S i), a. auto.
Qed.

Lemma testFresh_search (r : regex) (str : string) :
  testFresh r str = true <->
  search r None (list_ascii_of_string str) 0 <> None.
Proof.
  unfold testFresh, testGlobal, exec.
  cbn [Nat.ltb Nat.leb].
  change (take 0 (list_ascii_of_string str)) with (@nil ascii).
  change (drop 0 (list_ascii_of_string str))
    with (list_ascii_of_string str).
  cbn [last].
  destruct (search r None (list_ascii_of_string str) 0) as [[b e]|];
    cbn [fst]; (split; [intros H; try discriminate H | intros H]).
  - discriminate.
  - reflexivity.
  - exfalso. now apply H.
Qed.

(** One pass as a function on strings. *)
Lemma replace_profanity (c : ascii) (w : string) (content : string) :
  (forall a, isI c a = true -> a <> "*"%char) ->
  let out :=
    replaceAll (ContentFilter.profanityRegex (String c w))
      (repeatChar "*" (String.length (String c w))) content in
  masked (list_ascii_of_string content) (list_ascii_of_string out) /\
  (testFresh (ContentFilter.profanityRegex (String c w)) content = false ->
   out = content) /\
  (testFresh (ContentFilter.profanityRegex (String c w)) content = true ->
   exists (i : nat) (a : ascii),
     nth_error (list_ascii_of_string content) i = Some a /\
     a <> "*"%char /\
     nth_error (list_ascii_of_string out) i = Some "*"%char).
Proof.
  intros letter. cbv zeta. unfold replaceAll.
  rewrite list_ascii_of_string_of_list_ascii, list_repeatChar.
  split; [apply pass_masked|]. split.
  - intros H. rewrite (pass_not_found _ _ _ _ _ 0).
    + apply string_of_list_ascii_of_string.
    + destruct (search _ None (list_ascii_of_string content) 0) eqn:Hs;
        [|reflexivity].
      assert (testFresh (ContentFilter.profanityRegex (String c w)) content
              = true) by (apply testFresh_search; congruence).
      congruence.
  - intros H. apply testFresh_search in H.
    apply (pass_found c w _ _ _ 0 letter); [exact H | lia].
Qed.

End RegexFacts.

(** X3. [filterProfanity] only writes asterisks over code units of the
    text: the result has the length of the text and differs from it only
    where it has an asterisk.  It returns the text as it is exactly when a
    whole-word test finds none of the listed words in it; when one is
    found, an asterisk stands in the result where the text had another
    code unit. *)
Theorem filterProfanity_masks_found_words (content : string) :
  let out := ContentFilter.filterProfanity content in
  String.length out = String.length content /\
  Forall2 (fun c c' : ascii => c' = c \/ c' = "*"%char)
          (list_ascii_of_string content) (list_ascii_of_string out) /\
  (out = content <-> ContentFilter.profanityCount content = 0%nat) /\
  (ContentFilter.profanityCount content <> 0%nat ->
   exists (i : nat) (a : ascii),
     nth_error (list_ascii_of_string content) i = Some a /\
     a <> "*"%char /\
     nth_error (list_ascii_of_string out) i = Some "*"%char).
Proof.
  cbv zeta.
  assert (forall a, Regex.isI "b" a = true -> a <> "*"%char) as letter.
  { intros a H ->. vm_compute in H. discriminate. }
  unfold ContentFilter.filterProfanity, ContentFilter.profanityCount,
    ContentFilter.PROFANITY_WORDS.
  cbn [fold_left List.filter].
  set (out1 := Regex.replaceAll (ContentFilter.profanityRegex "badword1")
                 (JsString.repeatChar "*" (String.length "badword1"))
                 content).
  destruct (RegexFacts.replace_profanity "b" "adword1" content letter)
    as (M1 & N1 & F1).
  destruct (RegexFacts.replace_profanity "b" "adword2" out1 letter)
    as (M2 & N2 & F2).
  cbv zeta in M1, N1, F1, M2, N2, F2. fold out1 in M1, N1, F1.
  set (out := Regex.replaceAll (ContentFilter.profanityRegex "badword2")
                (JsString.repeatChar "*" (String.length "badword2")) out1)
    in *.
  pose proof (RegexFacts.masked_trans _ _ _ M1 M2) as M.
  assert (ContentFilter.profanityCount content <> 0%nat ->
          exists (i : nat) (a : ascii),
            nth_error (list_ascii_of_string content) i = Some a /\
            a <> "*"%char /\
            nth_error (list_ascii_of_string out) i = Some "*"%char) as Hfound.
  { unfold ContentFilter.profanityCount, ContentFilter.PROFANITY_WORDS.
    cbn [List.filter].
    destruct (Regex.testFresh (ContentFilter.profanityRegex "badword1")
                content) eqn:T1.
    - intros _. destruct (F1 eq_refl) as (i & a & H1 & H2 & H3).
      exists i, a. split; [exact H1|]. split; [exact H2|].
      exact (RegexFacts.masked_keeps_star _ _ i M2 H3).
    - rewrite (N1 eq_refl) in *.
      destruct (Regex.testFresh (ContentFilter.profanityRegex "badword2")
                  content) eqn:T2; [|cbn [length]; congruence].
      intros _. exact (F2 eq_refl). }
  unfold ContentFilter.profanityCount, ContentFilter.PROFANITY_WORDS
    in Hfound. cbn [List.filter] in Hfound.
  split; [|split; [exact M|split; [|exact Hfound]]].
  - apply Forall2_length in M.
    rewrite <- !RegexFacts.length_list_ascii_of_string. auto.
  - split.
    + intros Heq.
      match goal with
      | |- ?n = 0%nat =>
          destruct (Nat.eq_dec n 0%nat) as [E|E]; [exact E|]
      end.
      destruct (Hfound E) as (i & a & H1 & H2 & H3).
      rewrite Heq in H3. congruence.
    + destruct (Regex.testFresh (ContentFilter.profanityRegex "badword1")
                  content) eqn:T1; [discriminate|].
      destruct (Regex.testFresh (ContentFilter.profanityRegex "badword2")
                  content) eqn:T2; [discriminate|].
      intros _. subst out. rewrite (N1 eq_refl) in *. exact (N2 T2).
Qed.

(** ** The message store *)

Module StoreFacts.
Import Runtime MessageService UnreadCount.
Local Open Scope string_scope.

(** [sendMessage] fails exactly when the redacted text is empty after
    trimming, and then changes nothing; otherwise it appends [created]. *)
Lemma sendMessage_cases (s r c : string) (w : world) :
  (JsString.trim (filterMessageContent c) = "" /\
   sendMessage s r c w = (Throw (AppError "Failed to send message" 500), w))
  \/
  (JsString.trim (filterMessageContent c) <> "" /\
   exists res,
     sendMessage s r c w
     = (Ok res, set_messages (fun l => (l ++ [created s r c w])%list) w) /\
     sm_id (sr_message res) = freshId (messages w) /\
     sm_content (sr_message res) = JsString.trim (filterMessageContent c) /\
     sm_messageStatus (sr_message res) = None /\
     sr_conversationId res = Message.createConversationId s r).
Proof.
  unfold sendMessage, create. exec_unfold.
  destruct (String.eqb_spec (JsString.trim (filterMessageContent c)) "")
    as [He|He].
  - left. split; [exact He | reflexivity].
  - right. split; [exact He|]. eexists. split; [reflexivity|].
    repeat split.
Qed.

Lemma count_app (f : Message.doc -> bool) (l : list Message.doc)
      (d : Message.doc) :
  countDocuments f (l ++ [d])
  = (countDocuments f l + (if f d then 1 else 0))%nat.
Proof.
  unfold countDocuments. rewrite List.filter_app, length_app.
  cbn [List.filter]. destruct (f d); reflexivity.
Qed.

Lemma count_map_ext (f : Message.doc -> bool)
      (g : Message.doc -> Message.doc) (l : list Message.doc) :
  (forall d, f (g d) = f d) ->
  countDocuments f (List.map g l) = countDocuments f l.
Proof.
  intros H. unfold countDocuments.
  induction l as [|d l IH]; cbn [List.map List.filter]; [reflexivity|].
  rewrite H. destruct (f d); cbn [length]; now rewrite IH.
Qed.

Lemma count_map_le (f : Message.doc -> bool)
      (g : Message.doc -> Message.doc) (l : list Message.doc) :
  (forall d, f (g d) = true -> f d = true) ->
  (countDocuments f (List.map g l) <= countDocuments f l)%nat.
Proof.
  intros H. unfold countDocuments.
  induction l as [|d l IH]; cbn [List.map List.filter]; [lia|].
  destruct (f (g d)) eqn:Hg.
  - rewrite (H d Hg). cbn [length]. lia.
  - destruct (f d); cbn [length]; lia.
Qed.

End StoreFacts.

(** X4. A send that succeeds adds exactly one unread message for the
    receiver: the receiver's unread count and the unread count of the
    conversation both grow by one, the unread count of every other user
    stays as it was, and the new document is unread, not deleted, with
    status "sent" and the conversation id of the pair. *)
Theorem sendMessage_adds_one_unread
        (s r c : string) (w w' : Runtime.world) (res : Runtime.sendResult) :
  MessageService.sendMessage s r c w = (Runtime.Ok res, w') ->
  Runtime.messages w'
    = (Runtime.messages w ++ [UnreadCount.created s r c w])%list /\
  Runtime.countDocuments (UnreadCount.unreadFor r) (Runtime.messages w')
    = S (Runtime.countDocuments (UnreadCount.unreadFor r)
           (Runtime.messages w)) /\
  MessageService.unreadCount (Message.createConversationId s r) r
    (Runtime.messages w')
    = S (MessageService.unreadCount (Message.createConversationId s r) r
           (Runtime.messages w)) /\
  forall u, u <> r ->
    Runtime.countDocuments (UnreadCount.unreadFor u) (Runtime.messages w')
    = Runtime.countDocuments (UnreadCount.unreadFor u) (Runtime.messages w).
Proof.
  intros H.
  destruct (StoreFacts.sendMessage_cases s r c w)
    as [[_ Hf] | (_ & res' & Hok & _)]; rewrite H in *; [discriminate|].
  assert (w' = Runtime.set_messages
                 (fun l => (l ++ [UnreadCount.created s r c w])%list) w)
    as -> by congruence.
  cbn [Runtime.messages Runtime.set_messages].
  split; [reflexivity|].
  unfold MessageService.unreadCount. rewrite !StoreFacts.count_app.
  unfold UnreadCount.unreadFor, MessageService.unreadIn, UnreadCount.created.
  cbn [Message.receiver Message.read Message.deleted Message.conversationId].
  rewrite !String.eqb_refl. cbn [negb andb].
  split; [lia|]. split; [lia|].
  intros u Hu. rewrite StoreFacts.count_app.
  cbn [Message.receiver Message.read Message.deleted].
  apply not_eq_sym in Hu. apply String.eqb_neq in Hu. rewrite Hu.
  cbn [andb]. lia.
Qed.

Lemma sendMessage_adds_one_unread_witness :
  Runtime.countDocuments (UnreadCount.unreadFor "b1")
    (Runtime.messages
       (snd (MessageService.sendMessage "a1" "b1" "Is it still available?"
               Scenario.oneUnread))) = 2%nat.
Proof.
  destruct (MessageService.sendMessage "a1" "b1" "Is it still available?"
              Scenario.oneUnread) as [o w'] eqn:Hs.
  assert (exists res, o = Runtime.Ok res) as [res ->].
  { vm_compute in Hs. injection Hs as <- _. eexists. reflexivity. }
  destruct (sendMessage_adds_one_unread _ _ _ _ _ _ Hs) as (_ & H & _).
  cbn [snd]. rewrite H. reflexivity.
Defined.

Module ReadMore.
Import Runtime MessageService UnreadCount.
Local Open Scope string_scope.

Lemma unreadFor_setRead_other (u v : string) (c : string) (date : nat)
      (d : Message.doc) :
  v <> u ->
  unreadFor v (if unreadIn c u d then setRead date d else d) = unreadFor v d.
Proof.
  intros Hv. destruct (unreadIn c u d) eqn:Hd; [|reflexivity].
  unfold unreadIn in Hd. apply andb_true_iff in Hd as [Hd _].
  apply andb_true_iff in Hd as [_ Hr]. apply String.eqb_eq in Hr.
  unfold unreadFor, setRead. cbn [Message.receiver Message.read].
  assert (String.eqb (Message.receiver d) v = false) as ->.
  { apply String.eqb_neq. congruence. }
  reflexivity.
Qed.

Lemma unreadIn_setRead_other (c c' u u' : string) (date : nat)
      (d : Message.doc) :
  (c' <> c \/ u' <> u) ->
  unreadIn c' u' (if unreadIn c u d then setRead date d else d)
  = unreadIn c' u' d.
Proof.
  intros Hne. destruct (unreadIn c u d) eqn:Hd; [|reflexivity].
  unfold unreadIn in Hd. apply andb_true_iff in Hd as [Hd _].
  apply andb_true_iff in Hd as [Hc Hr].
  apply String.eqb_eq in Hc, Hr. unfold unreadIn, setRead.
  cbn [Message.receiver Message.read Message.conversationId].
  destruct Hne as [Hne|Hne].
  - assert (String.eqb (Message.conversationId d) c' = false) as ->
      by (apply String.eqb_neq; congruence). reflexivity.
  - assert (String.eqb (Message.receiver d) u' = false) as ->
      by (apply String.eqb_neq; congruence).
    rewrite !andb_false_r. reflexivity.
Qed.

End ReadMore.

(** X5. The REST mark-as-read of a conversation leaves the reader with no
    unread message in it, and a second call matches no document and changes
    nothing.  It touches nothing else: the number and the order of the
    documents, every delivery status, the unread count of every other user
    and the unread count of every other conversation stay as they were. *)
Theorem rest_mark_read_effect
        (userId otherUserId : string) (w : Runtime.world) :
  let c := Message.createConversationId userId otherUserId in
  let w1 := snd (MessageService.markMessagesAsRead userId otherUserId w) in
  MessageService.unreadCount c userId (Runtime.messages w1) = 0%nat /\
  Runtime.matchedCount (MessageService.unreadIn c userId)
    (Runtime.messages w1) = 0%nat /\
  Runtime.messages
    (snd (MessageService.markMessagesAsRead userId otherUserId w1))
    = Runtime.messages w1 /\
  List.map (fun d => (Message._id d, Message.content d,
                      Message.messageStatus d, Message.deleted d))
           (Runtime.messages w1)
    = List.map (fun d => (Message._id d, Message.content d,
                          Message.messageStatus d, Message.deleted d))
               (Runtime.messages w) /\
  (forall v, v <> userId ->
     Runtime.countDocuments (UnreadCount.unreadFor v) (Runtime.messages w1)
     = Runtime.countDocuments (UnreadCount.unreadFor v)
         (Runtime.messages w)) /\
  (forall c' u', c' <> c \/ u' <> userId ->
     MessageService.unreadCount c' u' (Runtime.messages w1)
     = MessageService.unreadCount c' u' (Runtime.messages w)).
Proof.
  cbv zeta.
  split; [apply ReadFacts.markMessagesAsRead_unread_zero|].
  destruct (ReadFacts.markMessagesAsRead_idempotent userId otherUserId w)
    as [H1 H2].
  split; [exact H1|]. split; [exact H2|].
  rewrite ReadFacts.markMessagesAsRead_messages. unfold Runtime.updateMany.
  split; [|split].
  - rewrite List.map_map. apply List.map_ext. intros d.
    now destruct (MessageService.unreadIn _ _ d).
  - intros v Hv. apply StoreFacts.count_map_ext. intros d.
    now apply ReadMore.unreadFor_setRead_other.
  - intros c' u' Hne. unfold MessageService.unreadCount.
    apply StoreFacts.count_map_ext. intros d.
    rewrite ReadMore.unreadIn_setRead_other by exact Hne.
    f_equal. now destruct (MessageService.unreadIn _ _ d).
Qed.

(** X6. A soft delete by the sender succeeds and only marks: the documents
    with the given id get [deleted] and [deletedAt], nothing is removed or
    reordered, the text, the read flag and the delivery status of every
    document stay, and no user's unread count grows.  The message can still
    be found by its id. *)
Theorem soft_delete_by_sender_marks_only
        (messageId : nat) (m : Message.doc) (w : Runtime.world) :
  Runtime.findById messageId (Runtime.messages w) = Some m ->
  let r := MessageService.deleteMessage messageId (Message.sender m) w in
  fst r = Runtime.Ok tt /\
  List.map (fun d => (Message._id d, Message.sender d, Message.receiver d,
                      Message.content d, Message.read d,
                      Message.messageStatus d))
           (Runtime.messages (snd r))
    = List.map (fun d => (Message._id d, Message.sender d,
                          Message.receiver d, Message.content d,
                          Message.read d, Message.messageStatus d))
               (Runtime.messages w) /\
  Runtime.findById messageId (Runtime.messages (snd r))
    = Some (MessageService.setDeleted (Runtime.now w) m) /\
  (forall d, In d (Runtime.messages (snd r)) ->
     Message._id d = messageId ->
     Message.deleted d = true /\
     Message.deletedAt d = Some (Runtime.now w)) /\
  (forall v,
     Runtime.countDocuments (UnreadCount.unreadFor v)
       (Runtime.messages (snd r))
     <= Runtime.countDocuments (UnreadCount.unreadFor v)
          (Runtime.messages w))%nat.
Proof.
  intros Hm. cbv zeta. rewrite (deleteMessage_by_sender _ _ _ Hm).
  cbn [fst snd Runtime.messages Runtime.set_messages].
  unfold Runtime.updateById.
  split; [reflexivity|]. split; [|split; [|split]].
  - rewrite List.map_map. apply List.map_ext. intros d.
    now destruct (Nat.eqb (Message._id d) messageId).
  - unfold Runtime.findById in *. revert Hm.
    induction (Runtime.messages w) as [|d l IH]; cbn [List.find List.map];
      [discriminate|].
    destruct (Nat.eqb (Message._id d) messageId) eqn:Hd.
    + intros [= ->]. cbn [Message._id MessageService.setDeleted].
      now rewrite Hd.
    + rewrite Hd. exact IH.
  - intros d Hin Hid. apply List.in_map_iff in Hin as (d0 & Hd0 & _).
    destruct (Nat.eqb_spec (Message._id d0) messageId) as [He|He].
    + subst d. split; reflexivity.
    + subst d. contradiction.
  - intros v. apply StoreFacts.count_map_le. intros d.
    destruct (Nat.eqb (Message._id d) messageId); [|auto].
    unfold UnreadCount.unreadFor, MessageService.setDeleted.
    cbn [Message.receiver Message.read Message.deleted negb].
    rewrite andb_false_r. discriminate.
Qed.

Lemma soft_delete_by_sender_marks_only_witness :
  let r := MessageService.deleteMessage 1 "a1" Scenario.oneUnread in
  fst r = Runtime.Ok tt /\
  Runtime.findById 1 (Runtime.messages (snd r))
    = Some (MessageService.setDeleted 5 Scenario.greeting).
Proof.
  pose proof (soft_delete_by_sender_marks_only 1 Scenario.greeting
                Scenario.oneUnread eq_refl) as H.
  cbv zeta in H. destruct H as (H1 & _ & H3 & _).
  split; [exact H1 | exact H3].
Defined.

Module BlockMore.
Import Runtime MessageService.
Local Open Scope string_scope.

Lemma includes_app (l : list string) (t x : string) :
  User.includes (l ++ [t]) x = User.includes l x || String.eqb x t.
Proof.
  unfold User.includes. rewrite existsb_app. cbn [existsb].
  now rewrite orb_false_r.
Qed.

Lemma includes_filter (l : list string) (t x : string) :
  User.includes (List.filter (fun id => negb (String.eqb id t)) l) x
  = User.includes l x && negb (String.eqb x t).
Proof.
  unfold User.includes.
  induction l as [|y l IH]; cbn [List.filter existsb]; [reflexivity|].
  destruct (String.eqb y t) eqn:Hyt; cbn [negb existsb]; rewrite IH;
    destruct (String.eqb x y) eqn:Hxy; cbn [orb];
    destruct (String.eqb x t) eqn:Hxt; cbn [negb];
    rewrite ?andb_true_r, ?andb_false_r; try reflexivity.
  - apply String.eqb_eq in Hyt, Hxy. apply String.eqb_neq in Hxt.
    congruence.
  - apply String.eqb_eq in Hxt, Hxy. apply String.eqb_neq in Hyt.
    congruence.
Qed.

Lemma filter_absent (l : list string) (t : string) :
  User.includes l t = false ->
  List.filter (fun id => negb (String.eqb id t)) l = l.
Proof.
  unfold User.includes.
  induction l as [|y l IH]; cbn [List.filter existsb]; [reflexivity|].
  intros H. apply orb_false_iff in H as [Hy Hl].
  rewrite String.eqb_sym, Hy. cbn [negb]. now rewrite IH.
Qed.

(** [toggleBlockUser] on an existing user. *)
Lemma toggleBlockUser_found (userId target : string) (u : User.doc)
      (w : world) :
  users w !! userId = Some u ->
  toggleBlockUser userId target w
  = if User.includes (User.blockedUsers u) target
    then
      let blocked :=
        List.filter (fun id => negb (String.eqb id target))
                    (User.blockedUsers u) in
      (Ok {| action := "unblocked"; resultBlockedUsers := blocked |},
       set_users (insert userId (setBlockedUsers blocked u)) w)
    else
      let blocked := (User.blockedUsers u ++ [target])%list in
      (Ok {| action := "blocked"; resultBlockedUsers := blocked |},
       set_users (insert userId (setBlockedUsers blocked u)) w).
Proof.
  intros Hu. unfold toggleBlockUser. exec_unfold. wsimpl. rewrite Hu.
  destruct (User.includes (User.blockedUsers u) target); reflexivity.
Qed.

End BlockMore.

(** X7. On an existing user [toggleBlockUser] succeeds and flips the
    membership of the target in the user's block list, whether or not the
    target exists; the action it reports says which way.  The membership of
    every other id, every other user and the messages stay as they were. *)
Theorem toggleBlockUser_flips
        (userId target : string) (u : User.doc) (w : Runtime.world) :
  Runtime.users w !! userId = Some u ->
  exists res w1 u1,
    MessageService.toggleBlockUser userId target w = (Runtime.Ok res, w1) /\
    Runtime.users w1 !! userId = Some u1 /\
    User.blockedUsers u1 = MessageService.resultBlockedUsers res /\
    User.includes (User.blockedUsers u1) target
      = negb (User.includes (User.blockedUsers u) target) /\
    MessageService.action res
      = (if User.includes (User.blockedUsers u) target
         then "unblocked" else "blocked")%string /\
    (forall x, x <> target ->
       User.includes (User.blockedUsers u1) x
       = User.includes (User.blockedUsers u) x) /\
    (forall v, v <> userId ->
       Runtime.users w1 !! v = Runtime.users w !! v) /\
    Runtime.messages w1 = Runtime.messages w.
Proof.
  intros Hu. rewrite (BlockMore.toggleBlockUser_found _ _ _ _ Hu).
  destruct (User.includes (User.blockedUsers u) target) eqn:Hin; cbv zeta;
    eexists; eexists; eexists; (split; [reflexivity|]);
    cbn [Runtime.users Runtime.set_users Runtime.messages];
    (split; [apply lookup_insert_eq|]);
    cbn [User.blockedUsers MessageService.setBlockedUsers
         MessageService.resultBlockedUsers MessageService.action];
    (split; [reflexivity|]).
  - split; [|split; [reflexivity|split; [|split; [|reflexivity]]]].
    + rewrite BlockMore.includes_filter, String.eqb_refl.
      now rewrite andb_false_r.
    + intros x Hx. rewrite BlockMore.includes_filter.
      apply String.eqb_neq in Hx. rewrite Hx. now rewrite andb_true_r.
    + intros v Hv. now rewrite lookup_insert_ne.
  - split; [|split; [reflexivity|split; [|split; [|reflexivity]]]].
    + rewrite BlockMore.includes_app, String.eqb_refl.
      now rewrite orb_true_r.
    + intros x Hx. rewrite BlockMore.includes_app.
      apply String.eqb_neq in Hx. rewrite Hx. now rewrite orb_false_r.
    + intros v Hv. now rewrite lookup_insert_ne.
Qed.

Lemma toggleBlockUser_flips_witness :
  exists res w1 u1,
    MessageService.toggleBlockUser "a1" "b1" Scenario.aliceBlockedBob
      = (Runtime.Ok res, w1) /\
    Runtime.users w1 !! "a1"%string = Some u1 /\
    User.includes (User.blockedUsers u1) "b1" = false.
Proof.
  destruct (toggleBlockUser_flips "a1" "b1"
              (User.mkUser "alice" User.artist true ["b1"%string])
              Scenario.aliceBlockedBob eq_refl)
    as (res & w1 & u1 & H1 & H2 & _ & H4 & _).
  exists res, w1, u1. split; [exact H1|]. split; [exact H2 | exact H4].
Defined.

(** X8. Blocking and then unblocking a target that was not blocked gives the
    user's document back exactly as it was. *)
Theorem toggleBlockUser_twice_restores
        (userId target : string) (u : User.doc) (w : Runtime.world) :
  Runtime.users w !! userId = Some u ->
  User.includes (User.blockedUsers u) target = false ->
  let w1 := snd (MessageService.toggleBlockUser userId target w) in
  let r2 := MessageService.toggleBlockUser userId target w1 in
  (exists res, fst r2 = Runtime.Ok res /\
               MessageService.action res = "unblocked"%string) /\
  Runtime.users (snd r2) = Runtime.users w.
Proof.
  intros Hu Hin. cbv zeta.
  rewrite (BlockMore.toggleBlockUser_found _ _ _ _ Hu), Hin. cbv zeta.
  cbn [snd].
  erewrite BlockMore.toggleBlockUser_found
    by (cbn [Runtime.users Runtime.set_users]; apply lookup_insert_eq).
  cbn [User.blockedUsers MessageService.setBlockedUsers].
  rewrite BlockMore.includes_app, String.eqb_refl, orb_true_r. cbv zeta.
  cbn [fst snd Runtime.users Runtime.set_users].
  split; [eexists; split; reflexivity|].
  rewrite insert_insert_eq.
  rewrite List.filter_app. cbn [List.filter].
  rewrite String.eqb_refl. cbn [negb].
  rewrite BlockMore.filter_absent by exact Hin.
  rewrite app_nil_r. apply insert_id. rewrite Hu. f_equal.
  destruct u; reflexivity.
Qed.

Lemma toggleBlockUser_twice_restores_witness :
  Runtime.users
    (snd (MessageService.toggleBlockUser "a1" "b1"
            (snd (MessageService.toggleBlockUser "a1" "b1" Scenario.start))))
  = Runtime.users Scenario.start.
Proof.
  apply (toggleBlockUser_twice_restores "a1" "b1"
           (User.mkUser "alice" User.artist true []) Scenario.start);
    reflexivity.
Defined.

(** ** Sending over the socket *)

Module SendMore.
Import Runtime ChatHandler.
Local Open Scope string_scope.

Lemma freshId_bound (l : list Message.doc) (d : Message.doc) :
  In d l -> (Message._id d < freshId l)%nat.
Proof.
  unfold freshId, list_max.
  induction l as [|x l IH]; cbn [In List.map fold_right]; [contradiction|].
  intros [-> | H]; [lia|]. specialize (IH H). lia.
Qed.

(** The delivered-upgrade of the message just created reaches that message
    only. *)
Lemma updateById_fresh (l : list Message.doc) (d : Message.doc)
      (f : Message.doc -> Message.doc) :
  Message._id d = freshId l ->
  updateById (freshId l) f (l ++ [d]) = (l ++ [f d])%list.
Proof.
  intros Hd. unfold updateById. rewrite List.map_app. cbn [List.map].
  rewrite Hd, Nat.eqb_refl. f_equal.
  pose proof (freshId_bound l) as Hb. revert Hb.
  generalize (freshId l). intros n Hb. clear Hd.
  induction l as [|x l IH]; cbn [List.map]; [reflexivity|].
  assert (Nat.eqb (Message._id x) n = false) as ->.
  { apply Nat.eqb_neq. specialize (Hb x (or_introl eq_refl)). lia. }
  f_equal. apply IH. intros y Hy. apply Hb. now right.
Qed.

End SendMore.

(** X9. A [send_message] that passes every check stores one message, with
    status "delivered" when the receiver is connected and "sent" otherwise.
    It clears the sender's typing entry for the receiver, tells the
    receiver's room that typing stopped, confirms to the sender, and
    notifies the receiver's room and the conversation room, in this order
    and with nothing else emitted. *)
Theorem socket_send_success
        (socket : Runtime.socketUser) (rid text : string)
        (receiver : User.doc) (w : Runtime.world) :
  rid <> ""%string -> text <> ""%string -> rid <> Runtime.su_id socket ->
  Runtime.users w !! rid = Some receiver ->
  User.role_eqb (Runtime.su_role socket) (User.role_of receiver) = false ->
  User.includes (User.blockedUsers receiver) (Runtime.su_id socket) = false ->
  ContentFilter.isAcceptable
    (fst (ContentFilter.analyzeContentSafety text (Runtime.patterns w)))
    = true ->
  JsString.trim (MessageService.filterMessageContent text) <> ""%string ->
  let w' := snd (ChatHandler.handleSendMessage socket
                   {| ChatHandler.receiverId := Some rid;
                      ChatHandler.content := Some text |} w) in
  let online := bool_decide (rid ∈ Runtime.onlineUsers w) in
  let d := UnreadCount.created (Runtime.su_id socket) rid text w in
  let conv := Message.createConversationId (Runtime.su_id socket) rid in
  Runtime.messages w'
    = (Runtime.messages w ++
       [if online then ChatHandler.setDelivered d else d])%list /\
  Runtime.activeTyping w' !! ChatHandler.typingKey socket rid = None /\
  exists res,
    Runtime.sm_id (Runtime.sr_message res) = Message._id d /\
    Runtime.sm_content (Runtime.sr_message res) = Message.content d /\
    Runtime.sm_messageStatus (Runtime.sr_message res)
      = (if online then Some Message.Delivered else None) /\
    Runtime.emitted w'
      = (Runtime.emitted w ++
         [(Runtime.ToRoom ("user_" +:+ rid),
           Runtime.user_typing (Runtime.su_id socket)
             (Runtime.su_username socket) false);
          (Runtime.ToSocket (Runtime.su_id socket),
           Runtime.message_sent res);
          (Runtime.ToRoom ("user_" +:+ rid),
           Runtime.new_message (Runtime.sr_message res) conv
             (Runtime.su_id socket));
          (Runtime.ToRoom ("conversation_" +:+ conv),
           Runtime.conversation_message (Runtime.sr_message res))])%list.
Proof.
  intros Hr Ht Hs Hu Hrole Hblk Hacc Htrim. cbv zeta.
  apply String.eqb_neq in Hr, Ht, Hs.
  unfold ChatHandler.handleSendMessage, ChatHandler.analyzeContentSafety,
    ChatHandler.stopTyping, ChatHandler.clearTimeout,
    ChatHandler.markDelivered.
  exec_unfold. wsimpl. rewrite Hr, Ht, Hs. wsimpl.
  rewrite Hu, Hrole, Hblk.
  destruct (ContentFilter.analyzeContentSafety text (Runtime.patterns w))
    as [a st].
  wsimpl. rewrite Hacc. wsimpl.
  rewrite InterleavingFacts.sendMessage_set_patterns.
  destruct (StoreFacts.sendMessage_cases (Runtime.su_id socket) rid text w)
    as [[He _] | (_ & res & Hok & Hid & Hc & Hst & Hcv)]; [contradiction|].
  rewrite Hok. wsimpl. rewrite Hid.
  destruct (bool_decide (rid ∈ Runtime.onlineUsers w)); wsimpl;
    destruct (Runtime.activeTyping w !! ChatHandler.typingKey socket rid)
      as [h|] eqn:Hact; wsimpl;
    rewrite ?SendMore.updateById_fresh by reflexivity;
    (split; [reflexivity|]);
    (split; [first [apply lookup_delete_eq | exact Hact]|]);
    match goal with
    | |- context [ChatHandler.withStatus] =>
        exists (ChatHandler.withStatus Message.Delivered res)
    | _ => exists res
    end;
    cbn [Runtime.sm_id Runtime.sm_content Runtime.sm_messageStatus
         Runtime.sr_message Runtime.sr_conversationId
         ChatHandler.withStatus Message._id
         Message.content UnreadCount.created];
    rewrite ?Hid, ?Hc, ?Hst, ?Hcv; repeat split;
    rewrite <- ?List.app_assoc; reflexivity.
Qed.

Lemma socket_send_success_witness :
  List.map Message.messageStatus
    (Runtime.messages
       (snd (ChatHandler.handleSendMessage Scenario.alice
               {| ChatHandler.receiverId := Some "b1"%string;
                  ChatHandler.content :=
                    Some "Hello, I love this piece!"%string |}
               Scenario.start)))
  = [Message.Delivered].
Proof.
  pose proof (socket_send_success Scenario.alice "b1"
                "Hello, I love this piece!"
                (User.mkUser "bob" User.buyer true []) Scenario.start
                ltac:(discriminate) ltac:(discriminate) ltac:(discriminate)
                eq_refl eq_refl eq_refl
                ltac:(vm_compute; reflexivity)
                ltac:(vm_compute; discriminate)) as H.
  cbv zeta in H. destruct H as [H _]. rewrite H. reflexivity.
Defined.

(** X10. Whatever the request, [handleSendMessage] either stores exactly one
    new message or stores nothing; when it stores nothing it emits exactly
    one event, a [message_error] on the sender's own connection, so the
    receiver learns nothing of a rejected message.  It never changes a
    user document. *)
Theorem socket_send_rejections_reach_sender_only
        (socket : Runtime.socketUser) (data : ChatHandler.sendData)
        (w : Runtime.world) :
  let w' := snd (ChatHandler.handleSendMessage socket data w) in
  Runtime.users w' = Runtime.users w /\
  ((exists d, Runtime.messages w' = (Runtime.messages w ++ [d])%list) \/
   (Runtime.messages w' = Runtime.messages w /\
    exists message violations,
      Runtime.emitted w'
      = (Runtime.emitted w ++
         [(Runtime.ToSocket (Runtime.su_id socket),
           Runtime.message_error message violations)])%list)).
Proof.
  cbv zeta.
  unfold ChatHandler.handleSendMessage, ChatHandler.analyzeContentSafety,
    ChatHandler.stopTyping, ChatHandler.clearTimeout,
    ChatHandler.markDelivered.
  exec_unfold.
  destruct data as [[rid|] [text|]]; wsimpl;
    try (split; [reflexivity|]; right; split; [reflexivity|];
         eexists; eexists; reflexivity).
  destruct (String.eqb rid "" || String.eqb text "" ||
            String.eqb rid (Runtime.su_id socket)) eqn:Hv; wsimpl;
    [split; [reflexivity|]; right; split; [reflexivity|];
     eexists; eexists; reflexivity|].
  destruct (Runtime.users w !! rid) as [receiver|]; wsimpl;
    [|split; [reflexivity|]; right; split; [reflexivity|];
      eexists; eexists; reflexivity].
  destruct (User.role_eqb _ _); wsimpl;
    [split; [reflexivity|]; right; split; [reflexivity|];
     eexists; eexists; reflexivity|].
  destruct (User.includes _ _); wsimpl;
    [split; [reflexivity|]; right; split; [reflexivity|];
     eexists; eexists; reflexivity|].
  destruct (ContentFilter.analyzeContentSafety text (Runtime.patterns w))
    as [a st].
  wsimpl. destruct (ContentFilter.isAcceptable a); wsimpl;
    [|split; [reflexivity|]; right; split; [reflexivity|];
      eexists; eexists; reflexivity].
  rewrite InterleavingFacts.sendMessage_set_patterns.
  destruct (StoreFacts.sendMessage_cases (Runtime.su_id socket) rid text w)
    as [[_ Hf] | (_ & res & Hok & Hid & _)]; rewrite ?Hf, ?Hok; wsimpl.
  - split; [reflexivity|]. right. split; [reflexivity|].
    eexists; eexists; reflexivity.
  - assert (String.eqb rid "" = false) as Hr.
    { destruct (String.eqb rid ""); [discriminate Hv | reflexivity]. }
    rewrite Hr, Hid.
    destruct (bool_decide (rid ∈ Runtime.onlineUsers w)); wsimpl;
      destruct (Runtime.activeTyping w !! ChatHandler.typingKey socket rid);
      wsimpl; rewrite ?SendMore.updateById_fresh by reflexivity;
      (split; [reflexivity|]); left; eexists; reflexivity.
Qed.

(** X11. Once a user has blocked another over the socket, the blocked user's
    messages to the blocker are refused on both entry points: the socket
    handler emits "Unable to send message" to the sender and changes nothing
    else, the REST controller answers 403, and no message is stored. *)
Theorem block_then_send_refused
        (blocker sender : Runtime.socketUser) (ub : User.doc)
        (senderReq : MessageController.reqUser) (text : string)
        (w : Runtime.world) :
  Runtime.su_id sender <> ""%string ->
  Runtime.su_id blocker <> ""%string ->
  Runtime.su_id sender <> Runtime.su_id blocker ->
  text <> ""%string ->
  Runtime.users w !! Runtime.su_id blocker = Some ub ->
  User.includes (User.blockedUsers ub) (Runtime.su_id sender) = false ->
  User.role_eqb (Runtime.su_role sender) (User.role_of ub) = false ->
  MessageController.ru_id senderReq = Runtime.su_id sender ->
  MessageController.ru_role senderReq = Runtime.su_role sender ->
  let w1 := snd (ChatHandler.handleBlockUser blocker
                   (Some (Runtime.su_id sender)) w) in
  snd (ChatHandler.handleSendMessage sender
         {| ChatHandler.receiverId := Some (Runtime.su_id blocker);
            ChatHandler.content := Some text |} w1)
  = Runtime.add_emitted
      (Runtime.ToSocket (Runtime.su_id sender),
       Runtime.message_error "Unable to send message" None) w1 /\
  MessageController.sendMessage senderReq (Runtime.su_id blocker) text w1
  = (Runtime.Ok (MessageController.Next
                   (Runtime.AppError "Unable to send message" 403)), w1) /\
  Runtime.messages w1 = Runtime.messages w.
Proof.
  intros Hs Hb Hne Ht Hu Hin Hrole Hid Hr. cbv zeta.
  rewrite (BlockFacts.handleBlockUser_blocks blocker _ ub w Hs Hne Hu Hin).
  apply not_eq_sym in Hne.
  apply String.eqb_neq in Hb, Hne, Ht.
  unfold ChatHandler.handleSendMessage, MessageController.sendMessage.
  exec_unfold. wsimpl. rewrite Hb, Ht, Hne. wsimpl.
  rewrite !lookup_insert_eq.
  cbn [User.role_of User.blockedUsers MessageService.setBlockedUsers].
  rewrite Hid, Hr, Hrole, BlockMore.includes_app, String.eqb_refl,
    orb_true_r.
  repeat split; reflexivity.
Qed.

Lemma block_then_send_refused_witness :
  let w1 := snd (ChatHandler.handleBlockUser Scenario.alice
                   (Some "b1"%string) Scenario.start) in
  snd (ChatHandler.handleSendMessage Scenario.bob
         {| ChatHandler.receiverId := Some "a1"%string;
            ChatHandler.content := Some "Still there?"%string |} w1)
  = Runtime.add_emitted
      (Runtime.ToSocket "b1",
       Runtime.message_error "Unable to send message" None) w1 /\
  Runtime.messages w1 = [].
Proof.
  pose proof (block_then_send_refused Scenario.alice Scenario.bob
                (User.mkUser "alice" User.artist true [])
                Scenario.bobReq "Still there?" Scenario.start
                ltac:(discriminate) ltac:(discriminate) ltac:(discriminate)
                ltac:(discriminate) eq_refl eq_refl eq_refl eq_refl eq_refl)
    as H.
  cbv zeta in H. destruct H as (H1 & _ & H3).
  split; [exact H1 | exact H3].
Defined.

(** X12. [block_user] on a target that the caller has already blocked
    unblocks it: the target leaves the caller's block list, the caller is
    told "unblocked", and the target is sent nothing. *)
Theorem socket_block_user_unblocks
        (socket : Runtime.socketUser) (target : string) (u : User.doc)
        (w : Runtime.world) :
  target <> ""%string -> target <> Runtime.su_id socket ->
  Runtime.users w !! Runtime.su_id socket = Some u ->
  User.includes (User.blockedUsers u) target = true ->
  let w' := snd (ChatHandler.handleBlockUser socket (Some target) w) in
  let blocked :=
    List.filter (fun id => negb (String.eqb id target))
                (User.blockedUsers u) in
  User.includes blocked target = false /\
  Runtime.users w'
    = <[Runtime.su_id socket := MessageService.setBlockedUsers blocked u]>
        (Runtime.users w) /\
  Runtime.emitted w'
    = (Runtime.emitted w ++
       [(Runtime.ToSocket (Runtime.su_id socket),
         Runtime.user_block_toggled target "unblocked" blocked)])%list.
Proof.
  intros Ht Hs Hu Hin. cbv zeta. apply String.eqb_neq in Ht, Hs.
  split.
  { rewrite BlockMore.includes_filter, String.eqb_refl.
    now rewrite andb_false_r. }
  unfold ChatHandler.handleBlockUser. exec_unfold. wsimpl.
  rewrite Ht, Hs. wsimpl.
  rewrite (BlockMore.toggleBlockUser_found _ _ _ _ Hu), Hin. cbv zeta.
  wsimpl. cbn [MessageService.action MessageService.resultBlockedUsers].
  change (String.eqb "unblocked" "blocked") with false. wsimpl.
  split; reflexivity.
Qed.

Lemma socket_block_user_unblocks_witness :
  Runtime.emitted
    (snd (ChatHandler.handleBlockUser Scenario.alice (Some "b1"%string)
            Scenario.aliceBlockedBob))
  = [(Runtime.ToSocket "a1",
      Runtime.user_block_toggled "b1" "unblocked" [])].
Proof.
  pose proof (socket_block_user_unblocks Scenario.alice "b1"
                (User.mkUser "alice" User.artist true ["b1"%string])
                Scenario.aliceBlockedBob
                ltac:(discriminate) ltac:(discriminate) eq_refl eq_refl)
    as H.
  cbv zeta in H. destruct H as (_ & _ & H). exact H.
Defined.

(** ** Typing indicators, continued *)

(** X13. A second [typing_start] for the same pair replaces the timer: the
    first timer is cleared and its firing does nothing any more, the pair's
    entry points at the new timer, and each of the two events tells the
    counterpart that the user is typing. *)
Theorem typing_start_rearms
        (socket : Runtime.socketUser) (other : string) (w : Runtime.world) :
  other <> ""%string -> other <> Runtime.su_id socket ->
  let key := ChatHandler.typingKey socket other in
  let h1 := Runtime.nextTimer w in
  let w1 := snd (ChatHandler.handleTypingStart socket (Some other) w) in
  let w2 := snd (ChatHandler.handleTypingStart socket (Some other) w1) in
  Runtime.activeTyping w2 !! key = Some (S h1) /\
  Runtime.timers w2 !! S h1 = Some (socket, other) /\
  Runtime.timers w2 !! h1 = None /\
  ChatHandler.timerFires h1 w2 = (Runtime.Ok tt, w2) /\
  Runtime.emitted w2
    = (Runtime.emitted w ++
       [(Runtime.ToRoom ("user_" +:+ other),
         Runtime.user_typing (Runtime.su_id socket)
           (Runtime.su_username socket) true);
        (Runtime.ToRoom ("user_" +:+ other),
         Runtime.user_typing (Runtime.su_id socket)
           (Runtime.su_username socket) true)])%list.
Proof.
  intros H1 H2. apply String.eqb_neq in H1, H2. cbv zeta.
  assert (Runtime.nextTimer w <> S (Runtime.nextTimer w)) as Hn by lia.
  unfold ChatHandler.timerFires, ChatHandler.handleTypingStart,
    ChatHandler.setTimeout, ChatHandler.clearTimeout.
  exec_unfold. wsimpl. rewrite H1, H2. wsimpl.
  destruct (Runtime.activeTyping w !! ChatHandler.typingKey socket other)
    as [old|] eqn:Hold; wsimpl;
    repeat first [ rewrite lookup_insert_eq | progress wsimpl ];
    rewrite ?lookup_insert_eq;
    rewrite (lookup_insert_ne _ (S (Runtime.nextTimer w))) by lia;
    rewrite lookup_delete_eq; wsimpl;
    rewrite <- ?List.app_assoc; repeat split; reflexivity.
Qed.

Lemma typing_start_rearms_witness :
  let w1 := snd (ChatHandler.handleTypingStart Scenario.alice
                   (Some "b1"%string) Scenario.start) in
  let w2 := snd (ChatHandler.handleTypingStart Scenario.alice
                   (Some "b1"%string) w1) in
  Runtime.activeTyping w2 !! "a1_b1"%string = Some 1%nat /\
  Runtime.timers w2 !! 0%nat = None.
Proof.
  pose proof (typing_start_rearms Scenario.alice "b1" Scenario.start
                ltac:(discriminate) ltac:(discriminate)) as H.
  cbv zeta in H. destruct H as (H1 & _ & H3 & _).
  split; [exact H1 | exact H3].
Defined.

(** X14. An explicit [typing_stop] after a [typing_start] removes the pair's
    entry, clears its timer, so that the timer's later firing does
    nothing, and tells the counterpart exactly once that typing stopped. *)
Theorem typing_stop_clears_timer
        (socket : Runtime.socketUser) (other : string) (w : Runtime.world) :
  other <> ""%string -> other <> Runtime.su_id socket ->
  let key := ChatHandler.typingKey socket other in
  let h := Runtime.nextTimer w in
  let w1 := snd (ChatHandler.handleTypingStart socket (Some other) w) in
  let w2 := snd (ChatHandler.handleTypingStop socket (Some other) w1) in
  Runtime.activeTyping w2 !! key = None /\
  Runtime.timers w2 !! h = None /\
  ChatHandler.timerFires h w2 = (Runtime.Ok tt, w2) /\
  Runtime.emitted w2
    = (Runtime.emitted w1 ++
       [(Runtime.ToRoom ("user_" +:+ other),
         Runtime.user_typing (Runtime.su_id socket)
           (Runtime.su_username socket) false)])%list.
Proof.
  intros H1 H2. apply String.eqb_neq in H1, H2. cbv zeta.
  unfold ChatHandler.timerFires, ChatHandler.handleTypingStart,
    ChatHandler.handleTypingStop, ChatHandler.stopTyping,
    ChatHandler.setTimeout, ChatHandler.clearTimeout.
  exec_unfold. wsimpl. rewrite H1, H2. wsimpl.
  destruct (Runtime.activeTyping w !! ChatHandler.typingKey socket other)
    as [old|] eqn:Hold; wsimpl;
    repeat first [ rewrite lookup_insert_eq | rewrite lookup_delete_eq
                 | progress wsimpl ];
    repeat split; reflexivity.
Qed.

Lemma typing_stop_clears_timer_witness :
  let w1 := snd (ChatHandler.handleTypingStart Scenario.alice
                   (Some "b1"%string) Scenario.start) in
  let w2 := snd (ChatHandler.handleTypingStop Scenario.alice
                   (Some "b1"%string) w1) in
  Runtime.activeTyping w2 !! "a1_b1"%string = None /\
  ChatHandler.timerFires 0 w2 = (Runtime.Ok tt, w2).
Proof.
  pose proof (typing_stop_clears_timer Scenario.alice "b1" Scenario.start
                ltac:(discriminate) ltac:(discriminate)) as H.
  cbv zeta in H. destruct H as (H1 & _ & H3 & _).
  split; [exact H1 | exact H3].
Defined.

(** ** Conversation rooms *)

Module RoomFacts.
Import Runtime ChatRooms.
Local Open Scope string_scope.

Lemma roomName_sym (a b : string) : roomName a b = roomName b a.
Proof.
  unfold roomName, Message.createConversationId.
  now rewrite ConversationIdFacts.sort_pair_comm.
Qed.

Lemma append_cons (x : ascii) (a b : string) :
  String x a +:+ b = String x (a +:+ b).
Proof. reflexivity. Qed.

Lemma prefix_append (a b : string) : String.prefix a (a +:+ b) = true.
Proof.
  induction a as [|c a IH].
  - now destruct b.
  - rewrite append_cons. cbn [String.prefix].
    destruct (Ascii.ascii_dec c c) as [_|Hc]; [exact IH | congruence].
Qed.

Lemma append_assoc' (a b c : string) :
  (a +:+ b) +:+ c = a +:+ (b +:+ c).
Proof.
  induction a as [|x a IH]; [reflexivity|].
  rewrite !append_cons. now rewrite IH.
Qed.

(** Every typing key of a user starts with the user's id and an
    underscore. *)
Lemma typingKey_prefix (socket : socketUser) (other : string) :
  String.prefix (su_id socket +:+ "_")
                (ChatHandler.typingKey socket other) = true.
Proof.
  unfold ChatHandler.typingKey.
  rewrite <- append_assoc'. apply prefix_append.
Qed.

Lemma cleanupEntry_typing (userId : string) (w : world)
      (k : string) (t : nat) (key : string) :
  activeTyping (cleanupEntry userId w (k, t)) !! key
  = if String.prefix (userId +:+ "_") k && bool_decide (key = k)
    then None else activeTyping w !! key.
Proof.
  unfold cleanupEntry.
  destruct (String.prefix (userId +:+ "_") k); cbn [andb]; wsimpl.
  - destruct (decide (key = k)) as [->|Hne].
    + rewrite bool_decide_eq_true_2 by reflexivity. apply lookup_delete_eq.
    + rewrite bool_decide_eq_false_2 by exact Hne.
      now rewrite lookup_delete_ne.
  - reflexivity.
Qed.

Lemma cleanupEntry_timers (userId : string) (w : world)
      (k : string) (t : nat) (h : nat) :
  timers (cleanupEntry userId w (k, t)) !! h
  = if String.prefix (userId +:+ "_") k && bool_decide (h = t)
    then None else timers w !! h.
Proof.
  unfold cleanupEntry.
  destruct (String.prefix (userId +:+ "_") k); cbn [andb]; wsimpl.
  - destruct (decide (h = t)) as [->|Hne].
    + rewrite bool_decide_eq_true_2 by reflexivity. apply lookup_delete_eq.
    + rewrite bool_decide_eq_false_2 by exact Hne.
      now rewrite lookup_delete_ne.
  - reflexivity.
Qed.

Lemma cleanupEntry_rest (userId : string) (w : world)
      (e : string * nat) :
  emitted (cleanupEntry userId w e) = emitted w /\
  messages (cleanupEntry userId w e) = messages w /\
  users (cleanupEntry userId w e) = users w.
Proof.
  destruct e as [k t]. unfold cleanupEntry.
  destruct (String.prefix (userId +:+ "_") k); auto.
Qed.

(** The loop of [cleanupUserRooms] over a list of entries. *)
Lemma cleanup_fold (userId : string) (l : list (string * nat)) (w : world) :
  let w' := fold_left (cleanupEntry userId) l w in
  (forall key,
     activeTyping w' !! key
     = if String.prefix (userId +:+ "_") key &&
          bool_decide (key ∈ l.*1)
       then None else activeTyping w !! key) /\
  (forall h, timers w !! h = None -> timers w' !! h = None) /\
  (forall key h,
     (key, h) ∈ l -> String.prefix (userId +:+ "_") key = true ->
     timers w' !! h = None) /\
  (forall h,
     (forall key, (key, h) ∈ l ->
                  String.prefix (userId +:+ "_") key = false) ->
     timers w' !! h = timers w !! h) /\
  emitted w' = emitted w /\ messages w' = messages w /\
  users w' = users w.
Proof.
  revert w. induction l as [|[k t] l IH]; intros w; cbv zeta.
  - cbn [fold_left]. split; [|split; [|split; [|split; [|auto]]]].
    + intros key. rewrite andb_comm.
      rewrite bool_decide_eq_false_2; [reflexivity|].
      cbn. apply not_elem_of_nil.
    + auto.
    + intros key h Hin. now apply not_elem_of_nil in Hin.
    + reflexivity.
  - cbn [fold_left]. specialize (IH (cleanupEntry userId w (k, t))).
    cbv zeta in IH.
    destruct IH as (IH1 & IH2 & IH3 & IH4 & IH5 & IH6 & IH7).
    destruct (cleanupEntry_rest userId w (k, t)) as (R1 & R2 & R3).
    split; [|split; [|split; [|split; [|split; [|split]]]]];
      try congruence.
    + intros key. rewrite IH1, cleanupEntry_typing.
      cbn [fmap list_fmap fst].
      destruct (String.prefix (userId +:+ "_") key) eqn:Hp; cbn [andb].
      * destruct (decide (key = k)) as [->|Hne].
        -- rewrite Hp. rewrite (bool_decide_eq_true_2 (k = k)) by reflexivity.
           rewrite (bool_decide_eq_true_2 (k ∈ k :: l.*1))
             by (apply elem_of_cons; auto).
           cbn [andb]. now destruct (bool_decide (k ∈ l.*1)).
        -- rewrite (bool_decide_eq_false_2 (key = k)) by exact Hne.
           rewrite andb_false_r.
           destruct (bool_decide (key ∈ l.*1)) eqn:Hl.
           ++ apply bool_decide_eq_true in Hl.
              rewrite bool_decide_eq_true_2; [reflexivity|].
              apply elem_of_cons; auto.
           ++ apply bool_decide_eq_false in Hl.
              rewrite bool_decide_eq_false_2; [reflexivity|].
              rewrite elem_of_cons. intros [?|?]; auto.
      * destruct (decide (key = k)) as [->|Hne].
        -- rewrite Hp. reflexivity.
        -- rewrite (bool_decide_eq_false_2 (key = k)) by exact Hne.
           now rewrite andb_false_r.
    + intros h Hh. apply IH2. rewrite cleanupEntry_timers.
      now destruct (_ && _).
    + intros key h Hin Hp. apply elem_of_cons in Hin.
      destruct Hin as [Heq|Hin]; [|eauto].
      injection Heq as -> ->. apply IH2.
      rewrite cleanupEntry_timers, Hp.
      now rewrite bool_decide_eq_true_2 by reflexivity.
    + intros h Hh. rewrite IH4.
      * rewrite cleanupEntry_timers.
        destruct (String.prefix (userId +:+ "_") k) eqn:Hk;
          [|reflexivity].
        cbn [andb]. rewrite bool_decide_eq_false_2; [reflexivity|].
        intros ->. specialize (Hh k). rewrite Hk in Hh.
        assert (true = false) by (apply Hh; apply elem_of_cons; auto).
        discriminate.
      * intros key Hin. apply Hh. apply elem_of_cons; auto.
Qed.

End RoomFacts.

(** X15. Joining the conversation with a valid counterpart adds the
    conversation room to the caller's tracked rooms and confirms it, and
    changes nothing else.  The room is named from the conversation id, so
    both participants join the same room; joining again changes nothing
    more. *)
Theorem joinConversation_tracks_room
        (socket : Runtime.socketUser) (other : string)
        (s : ChatRooms.state) :
  other <> ""%string -> other <> Runtime.su_id socket ->
  let me := Runtime.su_id socket in
  let room := ChatRooms.roomName me other in
  let s' := ChatRooms.joinConversation socket (Some other) s in
  ChatRooms.userRooms s' !! me
    = Some (default ∅ (ChatRooms.userRooms s !! me) ∪ {[room]}) /\
  (forall v, v <> me ->
     ChatRooms.userRooms s' !! v = ChatRooms.userRooms s !! v) /\
  ChatRooms.base s' = ChatRooms.base s /\
  ChatRooms.roomEmitted s'
    = (ChatRooms.roomEmitted s ++
       [(me, ChatRooms.conversation_joined
               (Message.createConversationId me other) other room)])%list /\
  ChatRooms.roomName other me = room /\
  ChatRooms.userRooms (ChatRooms.joinConversation socket (Some other) s')
    = ChatRooms.userRooms s'.
Proof.
  intros H1 H2. apply String.eqb_neq in H1, H2. cbv zeta.
  assert (forall s0 : ChatRooms.state,
            ChatRooms.userRooms
              (ChatRooms.joinConversation socket (Some other) s0)
            = <[Runtime.su_id socket :=
                  default ∅ (ChatRooms.userRooms s0 !! Runtime.su_id socket)
                  ∪ {[ChatRooms.roomName (Runtime.su_id socket) other]}]>
                (ChatRooms.userRooms s0)) as Hrooms.
  { intros s0. unfold ChatRooms.joinConversation. rewrite H1, H2. cbn [orb].
    cbv zeta. fold (ChatRooms.roomName (Runtime.su_id socket) other).
    apply map_eq. intros v.
    destruct (ChatRooms.userRooms s0 !! Runtime.su_id socket) as [old|]
      eqn:Hold;
      cbn [ChatRooms.userRooms ChatRooms.add_roomEmitted
           ChatRooms.set_userRooms default];
      destruct (decide (v = Runtime.su_id socket)) as [->|Hv];
      rewrite ?lookup_alter_eq, ?lookup_insert_eq, ?Hold;
      rewrite ?lookup_alter_ne, ?lookup_insert_ne by auto;
      reflexivity. }
  split; [rewrite Hrooms; apply lookup_insert_eq|].
  split; [intros v Hv; rewrite Hrooms; now rewrite lookup_insert_ne|].
  split; [|split; [|split]].
  - unfold ChatRooms.joinConversation. rewrite H1, H2. cbn [orb]. cbv zeta.
    now destruct (ChatRooms.userRooms s !! Runtime.su_id socket).
  - unfold ChatRooms.joinConversation. rewrite H1, H2. cbn [orb]. cbv zeta.
    now destruct (ChatRooms.userRooms s !! Runtime.su_id socket).
  - apply RoomFacts.roomName_sym.
  - rewrite !Hrooms. rewrite lookup_insert_eq. cbn [default].
    rewrite insert_insert_eq. f_equal. set_solver.
Qed.

Lemma joinConversation_tracks_room_witness :
  let s0 := ChatRooms.mkState Scenario.start ∅ [] in
  ChatRooms.userRooms
    (ChatRooms.joinConversation Scenario.alice (Some "b1"%string) s0)
    !! "a1"%string
  = Some (∅ ∪ {[ChatRooms.roomName "a1" "b1"]}) /\
  ChatRooms.roomName "b1" "a1" = ChatRooms.roomName "a1" "b1".
Proof.
  pose proof (joinConversation_tracks_room Scenario.alice "b1"
                (ChatRooms.mkState Scenario.start ∅ [])
                ltac:(discriminate) ltac:(discriminate)) as H.
  cbv zeta in H. destruct H as (H1 & _ & _ & _ & H5 & _).
  split; [exact H1 | exact H5].
Defined.

(** X16. Leaving a conversation removes its room from the caller's tracked
    rooms but keeps the caller's entry, so the number of tracked users does
    not go down.  It removes the caller's typing entry for the counterpart
    and clears its timer without telling the counterpart that typing
    stopped: the only event is [conversation_left] to the caller. *)
Theorem leaveConversation_effect
        (socket : Runtime.socketUser) (other : string)
        (s : ChatRooms.state) :
  other <> ""%string ->
  let me := Runtime.su_id socket in
  let room := ChatRooms.roomName me other in
  let key := ChatHandler.typingKey socket other in
  let s' := ChatRooms.leaveConversation socket (Some other) s in
  ChatRooms.userRooms s' !! me
    = (fun rooms => rooms ∖ {[room]}) <$> (ChatRooms.userRooms s !! me) /\
  (forall v, v <> me ->
     ChatRooms.userRooms s' !! v = ChatRooms.userRooms s !! v) /\
  size (ChatRooms.userRooms s') = size (ChatRooms.userRooms s) /\
  Runtime.activeTyping (ChatRooms.base s') !! key = None /\
  (forall h, Runtime.activeTyping (ChatRooms.base s) !! key = Some h ->
             Runtime.timers (ChatRooms.base s') !! h = None) /\
  Runtime.emitted (ChatRooms.base s') = Runtime.emitted (ChatRooms.base s) /\
  ChatRooms.roomEmitted s'
    = (ChatRooms.roomEmitted s ++
       [(me, ChatRooms.conversation_left
               (Message.createConversationId me other) other)])%list.
Proof.
  intros H1. apply String.eqb_neq in H1. cbv zeta.
  unfold ChatRooms.leaveConversation. rewrite H1. cbv zeta.
  fold (ChatRooms.roomName (Runtime.su_id socket) other).
  cbn [ChatRooms.userRooms ChatRooms.base ChatRooms.roomEmitted
       ChatRooms.add_roomEmitted ChatRooms.set_base
       ChatRooms.set_userRooms].
  split; [apply lookup_alter_eq|].
  split; [intros v Hv; now apply lookup_alter_ne|].
  split.
  { rewrite <- !size_dom. f_equal. apply dom_alter_L. }
  unfold ChatHandler.stopTyping, ChatHandler.clearTimeout.
  exec_unfold. rewrite H1.
  destruct (Runtime.activeTyping (ChatRooms.base s)
              !! ChatHandler.typingKey socket other) as [h0|] eqn:Hact;
    wsimpl.
  - split; [apply lookup_delete_eq|]. split; [|split; reflexivity].
    intros h [= <-]. apply lookup_delete_eq.
  - split; [exact Hact|]. split; [|split; reflexivity].
    intros h [=].
Qed.

Lemma leaveConversation_effect_witness :
  let s0 := ChatRooms.mkState Scenario.start ∅ [] in
  let s1 := ChatRooms.joinConversation Scenario.alice (Some "b1"%string) s0 in
  let s2 := ChatRooms.leaveConversation Scenario.alice (Some "b1"%string) s1 in
  size (ChatRooms.userRooms s2) = size (ChatRooms.userRooms s1) /\
  Runtime.emitted (ChatRooms.base s2) = Runtime.emitted (ChatRooms.base s1).
Proof.
  pose proof (leaveConversation_effect Scenario.alice "b1"
                (ChatRooms.joinConversation Scenario.alice
                   (Some "b1"%string)
                   (ChatRooms.mkState Scenario.start ∅ []))
                ltac:(discriminate)) as H.
  cbv zeta in H. destruct H as (_ & _ & H3 & _ & _ & H6 & _).
  split; [exact H3 | exact H6].
Defined.

(** X17. When a connection closes, [cleanupUserRooms] removes every typing
    entry of that user and clears their timers, so that none of them fires
    later; entries whose key does not start with the user's id and an
    underscore are kept; the user's tracked rooms are dropped; and no event
    is emitted, so no counterpart is told that typing stopped. *)
Theorem cleanupUserRooms_effect
        (socket : Runtime.socketUser) (s : ChatRooms.state) :
  let me := Runtime.su_id socket in
  let s' := ChatRooms.cleanupUserRooms socket s in
  (forall other,
     Runtime.activeTyping (ChatRooms.base s')
       !! ChatHandler.typingKey socket other = None) /\
  (forall other h,
     Runtime.activeTyping (ChatRooms.base s)
       !! ChatHandler.typingKey socket other = Some h ->
     ChatHandler.timerFires h (ChatRooms.base s')
     = (Runtime.Ok tt, ChatRooms.base s')) /\
  (forall key,
     String.prefix (me +:+ "_") key = false ->
     Runtime.activeTyping (ChatRooms.base s') !! key
     = Runtime.activeTyping (ChatRooms.base s) !! key) /\
  ChatRooms.userRooms s' !! me = None /\
  (forall v, v <> me ->
     ChatRooms.userRooms s' !! v = ChatRooms.userRooms s !! v) /\
  Runtime.emitted (ChatRooms.base s') = Runtime.emitted (ChatRooms.base s) /\
  ChatRooms.roomEmitted s' = ChatRooms.roomEmitted s.
Proof.
  cbv zeta. unfold ChatRooms.cleanupUserRooms. cbv zeta.
  cbn [ChatRooms.userRooms ChatRooms.base ChatRooms.roomEmitted
       ChatRooms.set_base ChatRooms.set_userRooms].
  destruct (RoomFacts.cleanup_fold (Runtime.su_id socket)
              (map_to_list (Runtime.activeTyping (ChatRooms.base s)))
              (ChatRooms.base s)) as (C1 & C2 & C3 & C4 & C5 & _).
  cbv zeta in *.
  split; [|split; [|split; [|split; [|split; [|split]]]]].
  - intros other. rewrite C1, RoomFacts.typingKey_prefix. cbn [andb].
    destruct (bool_decide _) eqn:Hin; [reflexivity|].
    apply bool_decide_eq_false in Hin.
    destruct (Runtime.activeTyping (ChatRooms.base s)
                !! ChatHandler.typingKey socket other) as [h|] eqn:Hk;
      [|reflexivity].
    exfalso. apply Hin. apply list_elem_of_fmap.
    exists (ChatHandler.typingKey socket other, h). split; [reflexivity|].
    now apply elem_of_map_to_list.
  - intros other h Hk.
    assert (Runtime.timers
              (fold_left (ChatRooms.cleanupEntry (Runtime.su_id socket))
                 (map_to_list (Runtime.activeTyping (ChatRooms.base s)))
                 (ChatRooms.base s)) !! h = None) as Hh.
    { apply (C3 (ChatHandler.typingKey socket other)).
      - now apply elem_of_map_to_list.
      - apply RoomFacts.typingKey_prefix. }
    unfold ChatHandler.timerFires. exec_unfold. now rewrite Hh.
  - intros key Hp. rewrite C1, Hp. reflexivity.
  - apply lookup_delete_eq.
  - intros v Hv. now apply lookup_delete_ne.
  - exact C5.
  - reflexivity.
Qed.

(** ** Presence *)

Module PresenceFacts.
Import Runtime OnlineHandler.
Local Open Scope string_scope.

(** The emitting loop of [broadcastUserStatus]. *)
Lemma broadcast_loop (uid name : string) (r : User.role) (online : bool)
      (date : Z) (partners : list string) (s : state) :
  let s' :=
    fold_left
      (fun s partnerId =>
         if negb (String.eqb partnerId uid)
         then add_statusEmitted
                ("user_" +:+ partnerId,
                 user_status_change uid name r online date) s
         else s) partners s in
  onlineUsers s' = onlineUsers s /\ userSockets s' = userSockets s /\
  dbUsers s' = dbUsers s /\ dbMessages s' = dbMessages s /\
  statusEmitted s'
  = (statusEmitted s ++
     List.map (fun p => ("user_" +:+ p,
                         user_status_change uid name r online date))
              (List.filter (fun p => negb (String.eqb p uid)) partners))%list.
Proof.
  revert s. induction partners as [|p l IH]; intros s; cbv zeta.
  - cbn [fold_left List.filter List.map]. rewrite app_nil_r. auto.
  - cbn [fold_left List.filter]. cbv zeta in IH.
    destruct (negb (String.eqb p uid)).
    + destruct (IH (add_statusEmitted
                      ("user_" +:+ p,
                       user_status_change uid name r online date) s))
        as (I1 & I2 & I3 & I4 & I5).
      rewrite I1, I2, I3, I4, I5.
      cbn [onlineUsers userSockets dbUsers dbMessages statusEmitted
           add_statusEmitted List.map].
      rewrite <- List.app_assoc. auto.
    + apply IH.
Qed.

End PresenceFacts.

Module PresenceMore.
Import Runtime OnlineHandler.
Local Open Scope string_scope.

(** [broadcastUserStatus] only emits. *)
Lemma broadcast_effect (uid : string) (online : bool) (date : Z)
      (s : state) :
  let s' := broadcastUserStatus uid online date s in
  onlineUsers s' = onlineUsers s /\ userSockets s' = userSockets s /\
  dbUsers s' = dbUsers s /\ dbMessages s' = dbMessages s /\
  statusEmitted s'
  = (statusEmitted s ++
     match dbUsers s !! uid with
     | None => []
     | Some user =>
         List.map
           (fun p => ("user_" +:+ p,
                      user_status_change uid (User.username (doc user))
                        (User.role_of (doc user)) online date))
           (partnersOf uid (dbMessages s))
     end)%list.
Proof.
  cbv zeta. unfold broadcastUserStatus.
  destruct (dbUsers s !! uid) as [user|].
  - cbv zeta. apply PresenceFacts.broadcast_loop.
  - rewrite app_nil_r. auto.
Qed.

Lemma distinct_elem (l : list string) (x : string) :
  In x (ChatRooms.distinct l) <-> In x l.
Proof.
  induction l as [|y l IH]; cbn [ChatRooms.distinct In]; [reflexivity|].
  destruct (existsb (String.eqb y) l) eqn:Hy.
  - rewrite IH. split; [auto|]. intros [<-|H]; [|exact H].
    apply existsb_exists in Hy as (z & Hz & Hyz).
    apply String.eqb_eq in Hyz. now subst z.
  - cbn [In]. now rewrite IH.
Qed.

(** The fields of the state after [userConnected] and after
    [userDisconnected]. *)
Lemma userConnected_fields (sock : socket) (date : Z) (s : state) :
  let uid := su_id (socket_user sock) in
  let s' := userConnected sock date s in
  onlineUsers s'
  = <[uid := {| userId := uid;
                username := su_username (socket_user sock);
                role := su_role (socket_user sock);
                socketId := socket_id sock;
                connectedAt := date; lastActivity := date |}]>
      (onlineUsers s) /\
  userSockets s' = <[socket_id sock := uid]> (userSockets s) /\
  dbUsers s'
  = alter (fun u => {| doc := doc u; isOnline := true; lastSeen := date |})
          uid (dbUsers s) /\
  dbMessages s' = dbMessages s.
Proof.
  cbv zeta. unfold userConnected. cbv zeta.
  match goal with
  | |- context [broadcastUserStatus ?u ?o ?d ?st] =>
      destruct (broadcast_effect u o d st) as (H1 & H2 & H3 & H4 & _);
      cbv zeta in H1, H2, H3, H4; rewrite H1, H2, H3, H4
  end.
  repeat split.
Qed.

Lemma userDisconnected_fields (sock : socket) (date : Z) (s : state) :
  let uid := su_id (socket_user sock) in
  let s' := userDisconnected sock date s in
  onlineUsers s' = delete uid (onlineUsers s) /\
  userSockets s' = delete (socket_id sock) (userSockets s) /\
  dbUsers s'
  = alter (fun u => {| doc := doc u; isOnline := false; lastSeen := date |})
          uid (dbUsers s) /\
  dbMessages s' = dbMessages s.
Proof.
  cbv zeta. unfold userDisconnected. cbv zeta.
  match goal with
  | |- context [broadcastUserStatus ?u ?o ?d ?st] =>
      destruct (broadcast_effect u o d st) as (H1 & H2 & H3 & H4 & _);
      cbv zeta in H1, H2, H3, H4; rewrite H1, H2, H3, H4
  end.
  repeat split.
Qed.

End PresenceMore.

(** X18. After [userConnected] the user is online on that connection and
    counts as active, the socket is mapped to the user, and an existing user
    document says online with the date of the connection; nobody else's
    presence changes.  After [userDisconnected] on the same connection the
    user is offline, the socket mapping is gone and the document says
    offline with the date of the disconnection. *)
Theorem connect_then_disconnect
        (sock : OnlineHandler.socket) (t1 t2 : Z)
        (s : OnlineHandler.state) :
  let uid := Runtime.su_id (OnlineHandler.socket_user sock) in
  let s1 := OnlineHandler.userConnected sock t1 s in
  let s2 := OnlineHandler.userDisconnected sock t2 s1 in
  OnlineHandler.isUserOnline uid s1 = true /\
  OnlineHandler.getUserSocketId uid s1
    = Some (OnlineHandler.socket_id sock) /\
  OnlineHandler.isUserActive uid t1 s1 = true /\
  OnlineHandler.userSockets s1 !! OnlineHandler.socket_id sock = Some uid /\
  (forall v, v <> uid ->
     OnlineHandler.onlineUsers s1 !! v = OnlineHandler.onlineUsers s !! v) /\
  (forall u, OnlineHandler.dbUsers s !! uid = Some u ->
     OnlineHandler.dbUsers s1 !! uid
     = Some {| OnlineHandler.doc := OnlineHandler.doc u;
               OnlineHandler.isOnline := true;
               OnlineHandler.lastSeen := t1 |} /\
     OnlineHandler.dbUsers s2 !! uid
     = Some {| OnlineHandler.doc := OnlineHandler.doc u;
               OnlineHandler.isOnline := false;
               OnlineHandler.lastSeen := t2 |}) /\
  OnlineHandler.isUserOnline uid s2 = false /\
  OnlineHandler.getUserSocketId uid s2 = None /\
  OnlineHandler.userSockets s2 !! OnlineHandler.socket_id sock = None.
Proof.
  cbv zeta.
  destruct (PresenceMore.userConnected_fields sock t1 s)
    as (C1 & C2 & C3 & _).
  destruct (PresenceMore.userDisconnected_fields sock t2
              (OnlineHandler.userConnected sock t1 s))
    as (D1 & D2 & D3 & _).
  cbv zeta in *.
  unfold OnlineHandler.isUserOnline, OnlineHandler.getUserSocketId,
    OnlineHandler.isUserActive.
  rewrite D1, D2, D3, C1, C2, C3.
  rewrite !lookup_delete_eq, !lookup_insert_eq.
  cbn [OnlineHandler.lastActivity OnlineHandler.socketId fmap option_fmap
       option_map].
  split; [apply bool_decide_eq_true_2; eauto|].
  split; [reflexivity|].
  split; [apply Z.ltb_lt; unfold OnlineHandler.activeThreshold; lia|].
  split; [reflexivity|].
  split; [intros v Hv; now apply lookup_insert_ne|].
  split; [|split; [|split; reflexivity]].
  - intros u Hu. rewrite !lookup_alter_eq, Hu. split; reflexivity.
  - apply bool_decide_eq_false_2. intros [x Hx]. discriminate.
Qed.

Lemma connect_then_disconnect_witness :
  let sock := {| OnlineHandler.socket_id := "s1";
                 OnlineHandler.socket_user := Scenario.alice |} in
  let s := OnlineHandler.mkState ∅ ∅ ∅ [] [] in
  OnlineHandler.isUserOnline "a1" (OnlineHandler.userConnected sock 10 s)
    = true /\
  OnlineHandler.isUserOnline "a1"
    (OnlineHandler.userDisconnected sock 20
       (OnlineHandler.userConnected sock 10 s)) = false.
Proof.
  pose proof (connect_then_disconnect
                {| OnlineHandler.socket_id := "s1";
                   OnlineHandler.socket_user := Scenario.alice |} 10 20
                (OnlineHandler.mkState ∅ ∅ ∅ [] [])) as H.
  cbv zeta in H. destruct H as (H1 & _ & _ & _ & _ & _ & H7 & _).
  split; [exact H1 | exact H7].
Defined.

(** X19. The tracker keeps one record per user.  When a user connects a
    second time the new connection replaces the record, and when the first
    connection then closes, the user is reported offline, in memory and in
    the user document, although the second connection is still open and
    still mapped to the user. *)
Theorem stale_disconnect_hides_live_connection
        (c1 c2 : OnlineHandler.socket) (t1 t2 t3 : Z)
        (s : OnlineHandler.state) :
  Runtime.su_id (OnlineHandler.socket_user c1)
    = Runtime.su_id (OnlineHandler.socket_user c2) ->
  OnlineHandler.socket_id c1 <> OnlineHandler.socket_id c2 ->
  let uid := Runtime.su_id (OnlineHandler.socket_user c1) in
  let s2 := OnlineHandler.userConnected c2 t2
              (OnlineHandler.userConnected c1 t1 s) in
  let s3 := OnlineHandler.userDisconnected c1 t3 s2 in
  OnlineHandler.getUserSocketId uid s2
    = Some (OnlineHandler.socket_id c2) /\
  OnlineHandler.userSockets s2 !! OnlineHandler.socket_id c1 = Some uid /\
  OnlineHandler.isUserOnline uid s3 = false /\
  OnlineHandler.userSockets s3 !! OnlineHandler.socket_id c2 = Some uid /\
  (forall u, OnlineHandler.dbUsers s !! uid = Some u ->
     OnlineHandler.dbUsers s3 !! uid
     = Some {| OnlineHandler.doc := OnlineHandler.doc u;
               OnlineHandler.isOnline := false;
               OnlineHandler.lastSeen := t3 |}).
Proof.
  intros Hsame Hdiff. cbv zeta.
  destruct (PresenceMore.userConnected_fields c1 t1 s) as (A1 & A2 & A3 & _).
  destruct (PresenceMore.userConnected_fields c2 t2
              (OnlineHandler.userConnected c1 t1 s)) as (B1 & B2 & B3 & _).
  destruct (PresenceMore.userDisconnected_fields c1 t3
              (OnlineHandler.userConnected c2 t2
                 (OnlineHandler.userConnected c1 t1 s)))
    as (D1 & D2 & D3 & _).
  cbv zeta in *.
  unfold OnlineHandler.isUserOnline, OnlineHandler.getUserSocketId.
  rewrite D1, D2, D3, B1, B2, B3, A1, A2, A3, <- Hsame.
  rewrite !lookup_delete_eq, !lookup_insert_eq.
  rewrite lookup_delete_ne by exact Hdiff.
  rewrite lookup_insert_eq.
  rewrite (lookup_insert_ne _ (OnlineHandler.socket_id c2)) by auto.
  rewrite lookup_insert_eq.
  split; [reflexivity|]. split; [reflexivity|].
  split; [apply bool_decide_eq_false_2; intros [x Hx]; discriminate|].
  split; [reflexivity|].
  intros u Hu. rewrite !lookup_alter_eq, Hu. reflexivity.
Qed.

Lemma stale_disconnect_hides_live_connection_witness :
  let phone := {| OnlineHandler.socket_id := "s1";
                  OnlineHandler.socket_user := Scenario.alice |} in
  let laptop := {| OnlineHandler.socket_id := "s2";
                   OnlineHandler.socket_user := Scenario.alice |} in
  let s := OnlineHandler.mkState ∅ ∅ ∅ [] [] in
  let s3 := OnlineHandler.userDisconnected phone 30
              (OnlineHandler.userConnected laptop 20
                 (OnlineHandler.userConnected phone 10 s)) in
  OnlineHandler.isUserOnline "a1" s3 = false /\
  OnlineHandler.userSockets s3 !! "s2"%string = Some "a1"%string.
Proof.
  pose proof (stale_disconnect_hides_live_connection
                {| OnlineHandler.socket_id := "s1";
                   OnlineHandler.socket_user := Scenario.alice |}
                {| OnlineHandler.socket_id := "s2";
                   OnlineHandler.socket_user := Scenario.alice |}
                10 20 30 (OnlineHandler.mkState ∅ ∅ ∅ [] [])
                eq_refl ltac:(discriminate)) as H.
  cbv zeta in H. destruct H as (_ & _ & H3 & H4 & _).
  split; [exact H3 | exact H4].
Defined.

Module SweepFacts.
Import Runtime OnlineHandler.
Local Open Scope string_scope.

(** The loop of [cleanupInactiveUsers] over entries with distinct keys. *)
Lemma cleanup_loop (date : Z) (l : list (string * userInfo)) (s : state) :
  NoDup l.*1 ->
  let s' := fold_left (cleanupOne date) l s in
  (forall u,
     onlineUsers s' !! u
     = match (list_to_map l : gmap string userInfo) !! u with
       | Some info =>
           if (inactiveThreshold <? date - lastActivity info)%Z
           then None else onlineUsers s !! u
       | None => onlineUsers s !! u
       end) /\
  (forall u,
     dbUsers s' !! u
     = match (list_to_map l : gmap string userInfo) !! u with
       | Some info =>
           if (inactiveThreshold <? date - lastActivity info)%Z
           then (fun d => {| doc := doc d; isOnline := false;
                             lastSeen := lastActivity info |})
                  <$> dbUsers s !! u
           else dbUsers s !! u
       | None => dbUsers s !! u
       end) /\
  userSockets s' = userSockets s /\ statusEmitted s' = statusEmitted s /\
  dbMessages s' = dbMessages s.
Proof.
  revert s. induction l as [|[k i] l IH]; intros s Hnd; cbv zeta.
  - cbn [fold_left list_to_map foldr]. repeat split; intros;
      now rewrite lookup_empty.
  - cbn [fmap list_fmap fst] in Hnd. apply NoDup_cons in Hnd as [Hk Hnd].
    cbn [fold_left].
    destruct (IH (cleanupOne date s (k, i)) Hnd) as (I1 & I2 & I3 & I4 & I5).
    cbv zeta in *.
    assert ((list_to_map l : gmap string userInfo) !! k = None) as Hnone
      by (now apply not_elem_of_list_to_map).
    cbn [list_to_map foldr fst snd]. unfold cleanupOne in *.
    split; [|split; [|split; [|split]]].
    + intros u. rewrite I1. destruct (decide (u = k)) as [->|Hu].
      * rewrite Hnone, lookup_insert_eq.
        destruct (inactiveThreshold <? date - lastActivity i)%Z;
          [|reflexivity].
        unfold updateStatus.
        cbn [onlineUsers set_dbUsers set_onlineUsers].
        apply lookup_delete_eq.
      * rewrite lookup_insert_ne by auto.
        assert (onlineUsers
                  (if (inactiveThreshold <? date - lastActivity i)%Z
                   then updateStatus k false (lastActivity i)
                          (set_onlineUsers (delete k) s)
                   else s) !! u = onlineUsers s !! u) as ->.
        { destruct (inactiveThreshold <? date - lastActivity i)%Z;
            [|reflexivity].
          unfold updateStatus.
          cbn [onlineUsers set_dbUsers set_onlineUsers].
          now rewrite lookup_delete_ne. }
        reflexivity.
    + intros u. rewrite I2. destruct (decide (u = k)) as [->|Hu].
      * rewrite Hnone, lookup_insert_eq.
        destruct (inactiveThreshold <? date - lastActivity i)%Z;
          [|reflexivity].
        unfold updateStatus.
        cbn [dbUsers set_dbUsers set_onlineUsers].
        apply lookup_alter_eq.
      * rewrite lookup_insert_ne by auto.
        assert (dbUsers
                  (if (inactiveThreshold <? date - lastActivity i)%Z
                   then updateStatus k false (lastActivity i)
                          (set_onlineUsers (delete k) s)
                   else s) !! u = dbUsers s !! u) as ->.
        { destruct (inactiveThreshold <? date - lastActivity i)%Z;
            [|reflexivity].
          unfold updateStatus.
          cbn [dbUsers set_dbUsers set_onlineUsers].
          now rewrite lookup_alter_ne. }
        reflexivity.
    + rewrite I3. now destruct (inactiveThreshold <? _)%Z.
    + rewrite I4. now destruct (inactiveThreshold <? _)%Z.
    + rewrite I5. now destruct (inactiveThreshold <? _)%Z.
Qed.

End SweepFacts.

(** X20. The sweep removes exactly the records whose last activity is more
    than 30 minutes before the date of the sweep: a record idle for exactly
    30 minutes stays.  For each removed user an existing user document is
    set offline with the last activity as [lastSeen].  The sweep leaves the
    socket mapping as it is and emits no status event. *)
Theorem cleanupInactiveUsers_effect (date : Z) (s : OnlineHandler.state) :
  let s' := OnlineHandler.cleanupInactiveUsers date s in
  (forall u,
     OnlineHandler.onlineUsers s' !! u
     = match OnlineHandler.onlineUsers s !! u with
       | Some info =>
           if (30 * 60 * 1000 <? date - OnlineHandler.lastActivity info)%Z
           then None else Some info
       | None => None
       end) /\
  (forall u,
     OnlineHandler.dbUsers s' !! u
     = match OnlineHandler.onlineUsers s !! u with
       | Some info =>
           if (30 * 60 * 1000 <? date - OnlineHandler.lastActivity info)%Z
           then (fun d => {| OnlineHandler.doc := OnlineHandler.doc d;
                             OnlineHandler.isOnline := false;
                             OnlineHandler.lastSeen :=
                               OnlineHandler.lastActivity info |})
                  <$> OnlineHandler.dbUsers s !! u
           else OnlineHandler.dbUsers s !! u
       | None => OnlineHandler.dbUsers s !! u
       end) /\
  OnlineHandler.userSockets s' = OnlineHandler.userSockets s /\
  OnlineHandler.statusEmitted s' = OnlineHandler.statusEmitted s.
Proof.
  cbv zeta. unfold OnlineHandler.cleanupInactiveUsers.
  destruct (SweepFacts.cleanup_loop date
              (map_to_list (OnlineHandler.onlineUsers s)) s
              (NoDup_fst_map_to_list _)) as (L1 & L2 & L3 & L4 & _).
  cbv zeta in *. rewrite list_to_map_to_list in L1, L2.
  change OnlineHandler.inactiveThreshold with (30 * 60 * 1000)%Z in *.
  split; [|split; [|split]]; try assumption.
  intros u. rewrite L1.
  destruct (OnlineHandler.onlineUsers s !! u) as [info|]; reflexivity.
Qed.

Module StatsFacts.
Import Runtime OnlineHandler.

Local Notation only r l :=
  (length (List.filter (fun user => User.role_eqb (role user) r) l)).

(** The counting loop of [getOnlineStats]. *)
Lemma count_loop (l : list userInfo) (init : onlineStats) :
  let st := fold_left countRole l init in
  totalOnline st = totalOnline init /\
  artists st = (artists init + only User.artist l)%nat /\
  buyers st = (buyers init + only User.buyer l)%nat /\
  admins st = (admins init + only User.admin l)%nat /\
  forall r, usersByRole st r = (usersByRole init r + only r l)%nat.
Proof.
  revert init. induction l as [|u l IH]; intros init; cbv zeta.
  - cbn [fold_left List.filter length].
    repeat split; intros; lia.
  - cbn [fold_left].
    destruct (IH (countRole init u)) as (I1 & I2 & I3 & I4 & I5).
    cbv zeta in *. rewrite I1, I2, I3, I4.
    cbn [List.filter].
    unfold countRole at 1 2 3 4.
    cbn [totalOnline artists buyers admins].
    repeat split.
    + destruct (role u); cbn [User.role_eqb length]; lia.
    + destruct (role u); cbn [User.role_eqb length]; lia.
    + destruct (role u); cbn [User.role_eqb length]; lia.
    + intros r. rewrite I5. unfold countRole. cbn [usersByRole].
      destruct r, (role u); cbn [User.role_eqb length]; lia.
Qed.

Lemma roles_partition (l : list userInfo) :
  (only User.artist l + only User.buyer l + only User.admin l)%nat
  = length l.
Proof.
  induction l as [|u l IH]; [reflexivity|].
  cbn [List.filter]. destruct (role u); cbn [User.role_eqb length]; lia.
Qed.

End StatsFacts.

(** X21. In the statistics of the presence tracker the three role counters
    add up to [totalOnline], which is the number of tracked users, and both
    each counter and each entry of [usersByRole] equal the number of users
    that [getOnlineUsersByRole] lists for the role. *)
Theorem getOnlineStats_consistent (s : OnlineHandler.state) :
  let st := OnlineHandler.getOnlineStats s in
  let byRole r := length (OnlineHandler.getOnlineUsersByRole r s) in
  OnlineHandler.totalOnline st = size (OnlineHandler.onlineUsers s) /\
  (OnlineHandler.artists st + OnlineHandler.buyers st
   + OnlineHandler.admins st)%nat = OnlineHandler.totalOnline st /\
  OnlineHandler.artists st = byRole User.artist /\
  OnlineHandler.buyers st = byRole User.buyer /\
  OnlineHandler.admins st = byRole User.admin /\
  forall r, OnlineHandler.usersByRole st r = byRole r.
Proof.
  cbv zeta. unfold OnlineHandler.getOnlineStats,
    OnlineHandler.getOnlineUsersByRole.
  match goal with
  | |- context [fold_left OnlineHandler.countRole ?l ?i] =>
      destruct (StatsFacts.count_loop l i) as (H1 & H2 & H3 & H4 & H5);
      cbv zeta in H1, H2, H3, H4, H5
  end.
  rewrite H1, H2, H3, H4.
  cbn [OnlineHandler.totalOnline OnlineHandler.artists OnlineHandler.buyers
       OnlineHandler.admins].
  pose proof (StatsFacts.roles_partition
                (map_to_list (OnlineHandler.onlineUsers s)).*2) as HP.
  rewrite length_fmap, length_map_to_list in HP.
  repeat split; try lia.
  intros r. rewrite H5. cbn [OnlineHandler.usersByRole]. lia.
Qed.

(** X22. A status broadcast for a user only appends events.  The events go
    to the rooms of exactly the other users who sent a message to the user
    or received one from the user (soft-deleted messages count as
    well), never to the user's own room, and each carries the user's name
    and role from the database.  When the user has no document, nothing is
    emitted. *)
Theorem broadcastUserStatus_recipients (uid : string) (online : bool)
        (date : Z) (s : OnlineHandler.state) :
  exists evs,
    OnlineHandler.statusEmitted
      (OnlineHandler.broadcastUserStatus uid online date s)
    = (OnlineHandler.statusEmitted s ++ evs)%list /\
    forall room ev,
      In (room, ev) evs <->
      exists user p,
        OnlineHandler.dbUsers s !! uid = Some user /\
        p <> uid /\
        (exists m, In m (OnlineHandler.dbMessages s) /\
                   ((Message.sender m = p /\ Message.receiver m = uid) \/
                    (Message.sender m = uid /\ Message.receiver m = p))) /\
        room = ("user_" +:+ p)%string /\
        ev = OnlineHandler.user_status_change uid
               (User.username (OnlineHandler.doc user))
               (User.role_of (OnlineHandler.doc user)) online date.
Proof.
  destruct (PresenceMore.broadcast_effect uid online date s)
    as (_ & _ & _ & _ & H).
  cbv zeta in H. eexists. split; [exact H|]. clear H.
  intros room ev. destruct (OnlineHandler.dbUsers s !! uid) as [user|].
  - rewrite in_map_iff. unfold OnlineHandler.partnersOf. split.
    + intros (p & [= <- <-] & Hp).
      apply filter_In in Hp as [Hp Hne].
      exists user, p. split; [reflexivity|].
      split.
      { intros ->. now rewrite String.eqb_refl in Hne. }
      split; [|auto].
      apply in_app_iff in Hp as [Hp|Hp];
        unfold OnlineHandler.distinctField in Hp;
        apply (proj1 (PresenceMore.distinct_elem _ _)) in Hp;
        apply in_map_iff in Hp as (m & <- & Hm);
        apply filter_In in Hm as [Hm Hf];
        apply String.eqb_eq in Hf; exists m; auto.
    + intros (user' & p & [= <-] & Hne & (m & Hm & Hdir) & -> & ->).
      exists p. split; [reflexivity|].
      apply filter_In. split.
      * apply in_app_iff. unfold OnlineHandler.distinctField.
        destruct Hdir as [[<- Hr]|[Hs <-]]; [left|right];
          apply PresenceMore.distinct_elem, in_map_iff; exists m;
          (split; [reflexivity|]); apply filter_In;
          (split; [exact Hm|]); now apply String.eqb_eq.
      * apply negb_true_iff, String.eqb_neq. exact Hne.
  - cbn [In]. split; [tauto|]. intros (? & ? & [=] & _).
Qed.

(** X23. [POST /send] either answers 201 and appends exactly the created
    message to the collection, or it leaves the state as it was and answers
    400 from the validation chain, one of the three 403 refusals, or the
    500 of the service.  It never answers 404 "Receiver not found": the
    validation chain has already refused an unknown receiver. *)
Theorem rest_send_outcomes (user : MessageController.reqUser)
        (receiverId content : string) (w : Runtime.world) :
  let r := MessageController.postSend user receiverId content w in
  (exists res,
     fst r = Runtime.Ok (MessageController.Json 201
                           "Message sent successfully" (Some res)) /\
     snd r = Runtime.set_messages
               (fun l => (l ++ [UnreadCount.created
                                  (MessageController.ru_id user) receiverId
                                  (JsString.trim content) w])%list) w) \/
  (snd r = w /\
   (fst r = Runtime.Ok (MessageController.Json 400 "Validation failed" None)
    \/ fst r = Runtime.Ok (MessageController.Next (Runtime.AppError
                "You cannot send messages to users with the same role" 403))
    \/ fst r = Runtime.Ok (MessageController.Next
                (Runtime.AppError "Unable to send message" 403))
    \/ fst r = Runtime.Ok (MessageController.Next
                (Runtime.AppError "You have blocked the receiver" 403))
    \/ fst r = Runtime.Ok (MessageController.Next
                (Runtime.AppError "Failed to send message" 500)))).
Proof.
  cbv zeta. unfold MessageController.postSend.
  destruct (MessageController.validateSendMessage user receiverId content w)
    as [c|] eqn:Hv; [|right; split; [reflexivity|left; reflexivity]].
  unfold MessageController.validateSendMessage in Hv. cbv zeta in Hv.
  destruct (Runtime.users w !! receiverId) as [receiver|] eqn:Hr;
    [|discriminate].
  match type of Hv with
  | (if ?b then _ else _) = _ => destruct b; [|discriminate]
  end.
  injection Hv as <-.
  unfold MessageController.sendMessage. exec_unfold. rewrite Hr.
  destruct (User.role_eqb _ _);
    [right; split; [reflexivity|right; left; reflexivity]|].
  destruct (User.includes (User.blockedUsers receiver) _);
    [right; split; [reflexivity|right; right; left; reflexivity]|].
  destruct (User.includes (MessageController.ru_blockedUsers user) _);
    [right; split; [reflexivity|right; right; right; left; reflexivity]|].
  destruct (StoreFacts.sendMessage_cases (MessageController.ru_id user)
              receiverId (JsString.trim content) w)
    as [[_ Hf] | (_ & res & Hok & _)].
  - rewrite Hf.
    right. split; [reflexivity|]. do 4 right. reflexivity.
  - rewrite Hok.
    left. exists res. split; reflexivity.
Qed.

(** X24. After activity of an online user is recorded at [date], the user
    counts as active for less than 5 minutes and survives every sweep that
    runs up to and including 30 minutes later; a sweep that runs later than
    that removes the user.  For a user who is not tracked,
    [updateUserActivity] changes nothing. *)
Theorem activity_protects_from_sweep (userId : string) (date date' : Z)
        (s : OnlineHandler.state) :
  let s1 := OnlineHandler.updateUserActivity userId date s in
  (OnlineHandler.isUserOnline userId s = false -> s1 = s) /\
  (OnlineHandler.isUserOnline userId s = true ->
   OnlineHandler.isUserActive userId date' s1
   = (date' - date <? 5 * 60 * 1000)%Z /\
   OnlineHandler.isUserOnline userId
     (OnlineHandler.cleanupInactiveUsers date' s1)
   = (date' - date <=? 30 * 60 * 1000)%Z).
Proof.
  cbv zeta. unfold OnlineHandler.updateUserActivity,
    OnlineHandler.isUserOnline, OnlineHandler.isUserActive.
  destruct (OnlineHandler.onlineUsers s !! userId) as [info|] eqn:Hu.
  - split;
      [intros Hoff; apply bool_decide_eq_false_1 in Hoff;
       exfalso; apply Hoff; eauto|].
    intros _.
    match goal with
    | |- context [OnlineHandler.cleanupInactiveUsers date' ?st] =>
        set (s1 := st);
        destruct (SweepFacts.cleanup_loop date'
                    (map_to_list (OnlineHandler.onlineUsers s1)) s1
                    (NoDup_fst_map_to_list _)) as (L1 & _)
    end.
    cbv zeta in L1. rewrite list_to_map_to_list in L1.
    unfold OnlineHandler.cleanupInactiveUsers.
    specialize (L1 userId).
    assert (OnlineHandler.onlineUsers s1 !! userId
            = Some {| OnlineHandler.userId := OnlineHandler.userId info;
                      OnlineHandler.username := OnlineHandler.username info;
                      OnlineHandler.role := OnlineHandler.role info;
                      OnlineHandler.socketId := OnlineHandler.socketId info;
                      OnlineHandler.connectedAt :=
                        OnlineHandler.connectedAt info;
                      OnlineHandler.lastActivity := date |}) as Hs1.
    { subst s1. cbn [OnlineHandler.onlineUsers OnlineHandler.set_onlineUsers].
      apply lookup_insert_eq. }
    rewrite Hs1 in L1 |- *.
    cbn [OnlineHandler.lastActivity] in L1 |- *.
    split; [reflexivity|].
    change OnlineHandler.inactiveThreshold with (30 * 60 * 1000)%Z in L1.
    destruct (30 * 60 * 1000 <? date' - date)%Z eqn:Hlt.
    + rewrite bool_decide_eq_false_2
        by (rewrite L1; intros [? [=]]).
      symmetry. apply Z.leb_gt. now apply Z.ltb_lt in Hlt.
    + rewrite bool_decide_eq_true_2 by (rewrite L1; eauto).
      symmetry. apply Z.leb_le. now apply Z.ltb_ge in Hlt.
  - split; [reflexivity|].
    intros Hon. apply bool_decide_eq_true_1 in Hon as [? [=]].
Qed.

(** X25. [forceDisconnectUser] returns whether the user was tracked.  For a
    tracked user it emits one [force_disconnect] with the reason to the
    user's own room and nothing to the conversation partners, drops the
    user from the tracker, and sets an existing user document offline; it
    leaves the socket mapping as it is.  For any other user it changes
    nothing, so a repeated call returns [false]. *)
Theorem forceDisconnectUser_effect (userId reason : string) (date : Z)
        (s : OnlineHandler.state) :
  let r := OnlineHandler.forceDisconnectUser userId reason date s in
  fst r = OnlineHandler.isUserOnline userId s /\
  (fst r = false -> snd r = s) /\
  (fst r = true ->
   OnlineHandler.statusEmitted (snd r)
   = (OnlineHandler.statusEmitted s ++
      [(("user_" +:+ userId)%string,
        OnlineHandler.force_disconnect reason date)])%list /\
   OnlineHandler.onlineUsers (snd r)
   = delete userId (OnlineHandler.onlineUsers s) /\
   OnlineHandler.userSockets (snd r) = OnlineHandler.userSockets s /\
   OnlineHandler.dbUsers (snd r)
   = alter (fun u => {| OnlineHandler.doc := OnlineHandler.doc u;
                        OnlineHandler.isOnline := false;
                        OnlineHandler.lastSeen := date |})
           userId (OnlineHandler.dbUsers s) /\
   forall reason' date',
     fst (OnlineHandler.forceDisconnectUser userId reason' date' (snd r))
     = false).
Proof.
  cbv zeta. unfold OnlineHandler.forceDisconnectUser. cbv zeta.
  destruct (OnlineHandler.isUserOnline userId s) eqn:Hon; cbv zeta;
    cbn [fst snd].
  - split; [reflexivity|]. split; [discriminate|]. intros _.
    unfold OnlineHandler.updateStatus.
    cbn [OnlineHandler.statusEmitted OnlineHandler.onlineUsers
         OnlineHandler.userSockets OnlineHandler.dbUsers
         OnlineHandler.set_dbUsers OnlineHandler.set_onlineUsers
         OnlineHandler.add_statusEmitted].
    repeat split.
    intros reason' date'.
    match goal with
    | |- context [OnlineHandler.isUserOnline userId ?st] =>
        assert (OnlineHandler.isUserOnline userId st = false) as ->
    end; [|reflexivity].
    unfold OnlineHandler.isUserOnline, OnlineHandler.updateStatus.
    cbn [OnlineHandler.onlineUsers OnlineHandler.set_dbUsers
         OnlineHandler.set_onlineUsers OnlineHandler.add_statusEmitted].
    apply bool_decide_eq_false_2. rewrite lookup_delete_eq. intros [? [=]].
  - split; [reflexivity|]. split; [reflexivity|discriminate].
Qed.

Module RoomStats.
Import Runtime ChatRooms.

Lemma distinct_snoc (l : list string) (x : string) :
  length (distinct (l ++ [x]))
  = (length (distinct l)
     + (if existsb (String.eqb x) l then 0 else 1))%nat.
Proof.
  induction l as [|y l IH]; [reflexivity|].
  cbn [app distinct existsb]. rewrite existsb_app. cbn [existsb].
  rewrite orb_false_r.
  destruct (String.eqb y x) eqn:Hyx.
  - apply String.eqb_eq in Hyx. subst y. rewrite String.eqb_refl.
    rewrite orb_true_r. cbn [orb].
    destruct (existsb (String.eqb x) l) eqn:Hx.
    + rewrite IH. reflexivity.
    + rewrite IH. cbn [length]. lia.
  - rewrite orb_false_r.
    assert (String.eqb x y = false) as ->
      by (rewrite String.eqb_sym; exact Hyx).
    cbn [orb].
    destruct (existsb (String.eqb y) l); cbn [length]; rewrite IH; lia.
Qed.

End RoomStats.

(** X26. A message that the service stores raises [totalMessages] of the
    statistics by one, and [totalConversations] by one when no message of
    the conversation was in the collection and by nothing otherwise; the
    counts of active users and of typing indicators stay. *)
Theorem send_updates_conversation_stats (s r c : string)
        (st : ChatRooms.state) (res : Runtime.sendResult)
        (w' : Runtime.world) :
  MessageService.sendMessage s r c (ChatRooms.base st)
  = (Runtime.Ok res, w') ->
  let before := ChatRooms.getConversationStats st in
  let after :=
    ChatRooms.getConversationStats (ChatRooms.set_base (fun _ => w') st) in
  ChatRooms.totalMessages after = S (ChatRooms.totalMessages before) /\
  ChatRooms.totalConversations after
  = (ChatRooms.totalConversations before
     + (if existsb (String.eqb (Message.createConversationId s r))
                   (List.map Message.conversationId
                             (Runtime.messages (ChatRooms.base st)))
        then 0 else 1))%nat /\
  ChatRooms.activeUsers after = ChatRooms.activeUsers before /\
  ChatRooms.activeTypingCount after = ChatRooms.activeTypingCount before.
Proof.
  intros H. cbv zeta.
  destruct (StoreFacts.sendMessage_cases s r c (ChatRooms.base st))
    as [[_ Hf] | (_ & res' & Hok & _)]; rewrite H in *; [discriminate|].
  assert (w' = Runtime.set_messages
                 (fun l => (l ++ [UnreadCount.created s r c
                                    (ChatRooms.base st)])%list)
                 (ChatRooms.base st)) as -> by congruence.
  unfold ChatRooms.getConversationStats.
  cbn [ChatRooms.totalMessages ChatRooms.totalConversations
       ChatRooms.activeUsers ChatRooms.activeTypingCount
       ChatRooms.base ChatRooms.userRooms ChatRooms.set_base
       Runtime.messages Runtime.activeTyping Runtime.set_messages].
  rewrite StoreFacts.count_app, List.map_app.
  cbn [List.map]. rewrite RoomStats.distinct_snoc.
  unfold UnreadCount.created.
  cbn [Message.deleted Message.conversationId negb].
  repeat split. lia.
Qed.

Lemma send_updates_conversation_stats_witness :
  let st := ChatRooms.mkState Scenario.oneUnread ∅ [] in
  let r := MessageService.sendMessage "a1" "b1" "Is it still available?"
             Scenario.oneUnread in
  ChatRooms.totalConversations
    (ChatRooms.getConversationStats (ChatRooms.set_base (fun _ => snd r) st))
  = (ChatRooms.totalConversations (ChatRooms.getConversationStats st)
     + (if existsb (String.eqb (Message.createConversationId "a1" "b1"))
                   (List.map Message.conversationId
                             (Runtime.messages Scenario.oneUnread))
        then 0 else 1))%nat.
Proof.
  cbv zeta.
  destruct (MessageService.sendMessage "a1" "b1" "Is it still available?"
              Scenario.oneUnread) as [o w'] eqn:Hs.
  assert (exists res, o = Runtime.Ok res) as [res ->].
  { vm_compute in Hs. injection Hs as <- _. eexists. reflexivity. }
  exact (proj1 (proj2 (send_updates_conversation_stats "a1" "b1"
                         "Is it still available?"
                         (ChatRooms.mkState Scenario.oneUnread ∅ [])
                         res w' Hs))).
Defined.
